(** * Simulation Archive of REBOUND: a functional model of [simulationarchive.c]

    The archive is an append-only binary file: one full-state header followed
    by fixed-size incremental records.  This development embeds the five
    functions of [src/simulationarchive.c]

      - [reb_simulationarchive_blobsize]      (record size in bytes),
      - [reb_simulationarchive_estimate_size] (bytes the records of a run take),
      - [reb_simulationarchive_heartbeat]  (writer, driven once per step),
      - [reb_simulationarchive_load_blob]  (reader),
      - [reb_simulationarchive_restart]    (header + latest record),

    as functions over an explicit simulation state and an explicit file
    system, and settles the properties of the specification against them.

    Modelling conventions.
      - A C [double] is an IEEE 754 binary64 value ([spec_float] of the
        Standard Library, [prec = 53], [emax = 1024]); [+], [/], [<=], [==]
        are the correctly rounded operations.  On disk a double is its eight
        bytes, least significant first.
      - [int] and [unsigned int] are 32 bits, [size_t] is 64 bits (LP64); the
        conversions wrap.  File offsets ([long]) are mathematical integers:
        signed overflow is undefined in C and is left out of the model.  In
        the size estimate, where a [double] is converted to [long] and
        multiplied, the undefined cases are an explicit [None].
      - C arrays are lists; [a[i]] is [a !!! i] and [a[i] = v] is
        [<[i:=v]> a].  An access past the end of an array is undefined in C;
        the model reads the default element and drops the write.
      - The file system is a finite map from file names to contents; all
        library calls on it succeed unless stated otherwise. *)

From Stdlib Require Import ZArith Floats.SpecFloat Strings.Byte.
From stdpp Require Import base tactics option list gmap strings.

Open Scope Z_scope.

(** ** Machine integers *)

Module C.

Definition INT_MAX : Z := 2147483647.

(** Conversion to [size_t] and to [unsigned int]: reduction modulo the
    width. *)
Definition to_size_t (z : Z) : Z := z mod 2 ^ 64.
Definition to_uint (z : Z) : Z := z mod 2 ^ 32.

(** Conversion to [int]: the value modulo [2^32] read as two's complement
    (implementation-defined in C, this is what every LP64 compiler does). *)
Definition to_int (z : Z) : Z := (z + 2 ^ 31) mod 2 ^ 32 - 2 ^ 31.

Definition sizeof_double : Z := 8.

End C.

(** ** Doubles and their bytes *)

Module Double.

Definition double : Type := spec_float.

Definition prec : Z := 53.
Definition emax : Z := 1024.

Definition zero : double := S754_zero false.

(** [make m e] is the double nearest to [m * 2^e]; [of_Z] is the
    conversion of an integer. *)
Definition make (m e : Z) : double := binary_normalize prec emax m e false.
Definition of_Z (z : Z) : double := make z 0.

Definition add : double -> double -> double := SFadd prec emax.
Definition div : double -> double -> double := SFdiv prec emax.
Definition leb : double -> double -> bool := SFleb.
Definition ltb : double -> double -> bool := SFltb.
Definition eqb : double -> double -> bool := SFeqb.

(** The binary64 interchange format: sign (1 bit), biased exponent
    (11 bits), fraction (52 bits). *)
Definition sign_bit (s : bool) : Z := if s then 2 ^ 63 else 0.

Definition bits (d : double) : Z :=
  match d with
  | S754_zero s => sign_bit s
  | S754_infinity s => sign_bit s + 2047 * 2 ^ 52
  | S754_nan => 2047 * 2 ^ 52 + 2 ^ 51
  | S754_finite s m e =>
      if Z.pos m <? 2 ^ 52
      then sign_bit s + Z.pos m
      else sign_bit s + (e + 1075) * 2 ^ 52 + (Z.pos m - 2 ^ 52)
  end.

Definition of_bits (w : Z) : double :=
  let s := Z.testbit w 63 in
  let ex := (w / 2 ^ 52) mod 2 ^ 11 in
  let frac := w mod 2 ^ 52 in
  if ex =? 0 then
    match frac with
    | Z.pos m => S754_finite s m (-1074)
    | _ => S754_zero s
    end
  else if ex =? 2047 then
    if frac =? 0 then S754_infinity s else S754_nan
  else
    match frac + 2 ^ 52 with
    | Z.pos m => S754_finite s m (ex - 1075)
    | _ => S754_nan
    end.

Definition byte_of_Z (z : Z) : byte :=
  default x00 (Byte.of_N (Z.to_N (z mod 256))).
Definition Z_of_byte (b : byte) : Z := Z.of_N (Byte.to_N b).

(** Little-endian bytes of a word and back. *)
Fixpoint le_bytes (n : nat) (z : Z) : list byte :=
  match n with
  | O => []
  | S n' => byte_of_Z z :: le_bytes n' (z / 256)
  end.

Fixpoint le_value (l : list byte) : Z :=
  match l with
  | [] => 0
  | b :: l' => Z_of_byte b + 256 * le_value l'
  end.

Definition encode (d : double) : list byte := le_bytes 8 (bits d).
Definition decode (l : list byte) : double := of_bits (le_value l).

End Double.


Abbreviation double := Double.double.

(** ** The simulation state

    The structures are those of [rebound.h] (not part of the archive's
    source file), cut down to the fields [simulationarchive.c] reads or
    writes. *)

(** One particle: mass, position and velocity.  The other members of
    [struct reb_particle] are never touched by the archive. *)
Record reb_particle : Type := {
  p_m : double;
  p_x : double;
  p_y : double;
  p_z : double;
  p_vx : double;
  p_vy : double;
  p_vz : double;
}.

Definition particle0 : reb_particle :=
  {| p_m := Double.zero; p_x := Double.zero; p_y := Double.zero; p_z := Double.zero;
     p_vx := Double.zero; p_vy := Double.zero; p_vz := Double.zero |}.

#[global] Instance reb_particle_inhabited : Inhabited reb_particle := populate particle0.
#[global] Instance double_inhabited : Inhabited Double.double := populate Double.zero.

Definition set_m (v : double) (p : reb_particle) : reb_particle :=
  {| p_m := v; p_x := p_x p; p_y := p_y p; p_z := p_z p;
     p_vx := p_vx p; p_vy := p_vy p; p_vz := p_vz p |}.
Definition set_x (v : double) (p : reb_particle) : reb_particle :=
  {| p_m := p_m p; p_x := v; p_y := p_y p; p_z := p_z p;
     p_vx := p_vx p; p_vy := p_vy p; p_vz := p_vz p |}.
Definition set_y (v : double) (p : reb_particle) : reb_particle :=
  {| p_m := p_m p; p_x := p_x p; p_y := v; p_z := p_z p;
     p_vx := p_vx p; p_vy := p_vy p; p_vz := p_vz p |}.
Definition set_z (v : double) (p : reb_particle) : reb_particle :=
  {| p_m := p_m p; p_x := p_x p; p_y := p_y p; p_z := v;
     p_vx := p_vx p; p_vy := p_vy p; p_vz := p_vz p |}.
Definition set_vx (v : double) (p : reb_particle) : reb_particle :=
  {| p_m := p_m p; p_x := p_x p; p_y := p_y p; p_z := p_z p;
     p_vx := v; p_vy := p_vy p; p_vz := p_vz p |}.
Definition set_vy (v : double) (p : reb_particle) : reb_particle :=
  {| p_m := p_m p; p_x := p_x p; p_y := p_y p; p_z := p_z p;
     p_vx := p_vx p; p_vy := v; p_vz := p_vz p |}.
Definition set_vz (v : double) (p : reb_particle) : reb_particle :=
  {| p_m := p_m p; p_x := p_x p; p_y := p_y p; p_z := p_z p;
     p_vx := p_vx p; p_vy := p_vy p; p_vz := v |}.

(** The integrator kinds.  The archive handles [REB_INTEGRATOR_IAS15] and
    [REB_INTEGRATOR_WHFAST]; [REB_INTEGRATOR_OTHER] stands for every other
    enumerator of [rebound.h], which the [switch] statements send to
    [default]. *)
Inductive reb_integrator : Type :=
  | REB_INTEGRATOR_IAS15
  | REB_INTEGRATOR_WHFAST
  | REB_INTEGRATOR_OTHER (code : Z).

(** The gravity modules, in the same way. *)
Inductive reb_gravity : Type :=
  | REB_GRAVITY_NONE
  | REB_GRAVITY_BASIC
  | REB_GRAVITY_OTHER (code : Z).

(** [struct reb_simulation_integrator_whfast]: Jacobi coordinates [p_j],
    the cumulative masses [eta], and the flags. *)
Record reb_simulation_integrator_whfast : Type := {
  safe_mode : Z;
  is_synchronized : Z;
  allocated_N : Z;
  p_j : list reb_particle;
  eta : list double;
}.

(** [struct reb_dp7]: seven arrays of doubles. *)
Record reb_dp7 : Type := {
  p0 : list double;
  p1 : list double;
  p2 : list double;
  p3 : list double;
  p4 : list double;
  p5 : list double;
  p6 : list double;
}.

(** [struct reb_simulation_integrator_ias15]: the five coefficient tables
    and the two compensated-summation arrays. *)
Record reb_simulation_integrator_ias15 : Type := {
  ias15_allocatedN : Z;
  ias15_b : reb_dp7;
  ias15_csb : reb_dp7;
  ias15_e : reb_dp7;
  ias15_br : reb_dp7;
  ias15_er : reb_dp7;
  ias15_csx : list double;
  ias15_csv : list double;
}.

Record timeval : Type := {
  tv_sec : Z;
  tv_usec : Z;
}.

(** The reporting sink of a simulation: what [reb_error] and [reb_warning]
    were called with, oldest first. *)
Inductive severity : Type := Error | Warning.
Definition message : Type := severity * string.

Record reb_simulation : Type := {
  sim_t : Double.double;
  sim_dt : Double.double;
  sim_dt_last_done : Double.double;
  sim_N : Z;
  particles : list reb_particle;
  integrator : reb_integrator;
  gravity : reb_gravity;
  ri_whfast : reb_simulation_integrator_whfast;
  ri_ias15 : reb_simulation_integrator_ias15;
  simulationarchive_filename : string;
  simulationarchive_interval : Double.double;
  simulationarchive_next : Double.double;
  simulationarchive_walltime : Double.double;
  simulationarchive_time : timeval;
  simulationarchive_seek_first : Z;
  simulationarchive_seek_blob : Z;
  messages : list message;
}.

(** Field assignments [r->f = v]. *)

Definition set_sim_t (r : reb_simulation) (v : Double.double) : reb_simulation :=
  {|
     sim_t := v;
     sim_dt := sim_dt r;
     sim_dt_last_done := sim_dt_last_done r;
     sim_N := sim_N r;
     particles := particles r;
     integrator := integrator r;
     gravity := gravity r;
     ri_whfast := ri_whfast r;
     ri_ias15 := ri_ias15 r;
     simulationarchive_filename := simulationarchive_filename r;
     simulationarchive_interval := simulationarchive_interval r;
     simulationarchive_next := simulationarchive_next r;
     simulationarchive_walltime := simulationarchive_walltime r;
     simulationarchive_time := simulationarchive_time r;
     simulationarchive_seek_first := simulationarchive_seek_first r;
     simulationarchive_seek_blob := simulationarchive_seek_blob r;
     messages := messages r;
  |}.

Definition set_sim_dt (r : reb_simulation) (v : Double.double) : reb_simulation :=
  {|
     sim_t := sim_t r;
     sim_dt := v;
     sim_dt_last_done := sim_dt_last_done r;
     sim_N := sim_N r;
     particles := particles r;
     integrator := integrator r;
     gravity := gravity r;
     ri_whfast := ri_whfast r;
     ri_ias15 := ri_ias15 r;
     simulationarchive_filename := simulationarchive_filename r;
     simulationarchive_interval := simulationarchive_interval r;
     simulationarchive_next := simulationarchive_next r;
     simulationarchive_walltime := simulationarchive_walltime r;
     simulationarchive_time := simulationarchive_time r;
     simulationarchive_seek_first := simulationarchive_seek_first r;
     simulationarchive_seek_blob := simulationarchive_seek_blob r;
     messages := messages r;
  |}.

Definition set_sim_dt_last_done (r : reb_simulation) (v : Double.double) : reb_simulation :=
  {|
     sim_t := sim_t r;
     sim_dt := sim_dt r;
     sim_dt_last_done := v;
     sim_N := sim_N r;
     particles := particles r;
     integrator := integrator r;
     gravity := gravity r;
     ri_whfast := ri_whfast r;
     ri_ias15 := ri_ias15 r;
     simulationarchive_filename := simulationarchive_filename r;
     simulationarchive_interval := simulationarchive_interval r;
     simulationarchive_next := simulationarchive_next r;
     simulationarchive_walltime := simulationarchive_walltime r;
     simulationarchive_time := simulationarchive_time r;
     simulationarchive_seek_first := simulationarchive_seek_first r;
     simulationarchive_seek_blob := simulationarchive_seek_blob r;
     messages := messages r;
  |}.

Definition set_particles (r : reb_simulation) (v : list reb_particle) : reb_simulation :=
  {|
     sim_t := sim_t r;
     sim_dt := sim_dt r;
     sim_dt_last_done := sim_dt_last_done r;
     sim_N := sim_N r;
     particles := v;
     integrator := integrator r;
     gravity := gravity r;
     ri_whfast := ri_whfast r;
     ri_ias15 := ri_ias15 r;
     simulationarchive_filename := simulationarchive_filename r;
     simulationarchive_interval := simulationarchive_interval r;
     simulationarchive_next := simulationarchive_next r;
     simulationarchive_walltime := simulationarchive_walltime r;
     simulationarchive_time := simulationarchive_time r;
     simulationarchive_seek_first := simulationarchive_seek_first r;
     simulationarchive_seek_blob := simulationarchive_seek_blob r;
     messages := messages r;
  |}.

Definition set_ri_whfast (r : reb_simulation) (v : reb_simulation_integrator_whfast) : reb_simulation :=
  {|
     sim_t := sim_t r;
     sim_dt := sim_dt r;
     sim_dt_last_done := sim_dt_last_done r;
     sim_N := sim_N r;
     particles := particles r;
     integrator := integrator r;
     gravity := gravity r;
     ri_whfast := v;
     ri_ias15 := ri_ias15 r;
     simulationarchive_filename := simulationarchive_filename r;
     simulationarchive_interval := simulationarchive_interval r;
     simulationarchive_next := simulationarchive_next r;
     simulationarchive_walltime := simulationarchive_walltime r;
     simulationarchive_time := simulationarchive_time r;
     simulationarchive_seek_first := simulationarchive_seek_first r;
     simulationarchive_seek_blob := simulationarchive_seek_blob r;
     messages := messages r;
  |}.

Definition set_ri_ias15 (r : reb_simulation) (v : reb_simulation_integrator_ias15) : reb_simulation :=
  {|
     sim_t := sim_t r;
     sim_dt := sim_dt r;
     sim_dt_last_done := sim_dt_last_done r;
     sim_N := sim_N r;
     particles := particles r;
     integrator := integrator r;
     gravity := gravity r;
     ri_whfast := ri_whfast r;
     ri_ias15 := v;
     simulationarchive_filename := simulationarchive_filename r;
     simulationarchive_interval := simulationarchive_interval r;
     simulationarchive_next := simulationarchive_next r;
     simulationarchive_walltime := simulationarchive_walltime r;
     simulationarchive_time := simulationarchive_time r;
     simulationarchive_seek_first := simulationarchive_seek_first r;
     simulationarchive_seek_blob := simulationarchive_seek_blob r;
     messages := messages r;
  |}.

Definition set_simulationarchive_next (r : reb_simulation) (v : Double.double) : reb_simulation :=
  {|
     sim_t := sim_t r;
     sim_dt := sim_dt r;
     sim_dt_last_done := sim_dt_last_done r;
     sim_N := sim_N r;
     particles := particles r;
     integrator := integrator r;
     gravity := gravity r;
     ri_whfast := ri_whfast r;
     ri_ias15 := ri_ias15 r;
     simulationarchive_filename := simulationarchive_filename r;
     simulationarchive_interval := simulationarchive_interval r;
     simulationarchive_next := v;
     simulationarchive_walltime := simulationarchive_walltime r;
     simulationarchive_time := simulationarchive_time r;
     simulationarchive_seek_first := simulationarchive_seek_first r;
     simulationarchive_seek_blob := simulationarchive_seek_blob r;
     messages := messages r;
  |}.

Definition set_simulationarchive_walltime (r : reb_simulation) (v : Double.double) : reb_simulation :=
  {|
     sim_t := sim_t r;
     sim_dt := sim_dt r;
     sim_dt_last_done := sim_dt_last_done r;
     sim_N := sim_N r;
     particles := particles r;
     integrator := integrator r;
     gravity := gravity r;
     ri_whfast := ri_whfast r;
     ri_ias15 := ri_ias15 r;
     simulationarchive_filename := simulationarchive_filename r;
     simulationarchive_interval := simulationarchive_interval r;
     simulationarchive_next := simulationarchive_next r;
     simulationarchive_walltime := v;
     simulationarchive_time := simulationarchive_time r;
     simulationarchive_seek_first := simulationarchive_seek_first r;
     simulationarchive_seek_blob := simulationarchive_seek_blob r;
     messages := messages r;
  |}.

Definition set_simulationarchive_time (r : reb_simulation) (v : timeval) : reb_simulation :=
  {|
     sim_t := sim_t r;
     sim_dt := sim_dt r;
     sim_dt_last_done := sim_dt_last_done r;
     sim_N := sim_N r;
     particles := particles r;
     integrator := integrator r;
     gravity := gravity r;
     ri_whfast := ri_whfast r;
     ri_ias15 := ri_ias15 r;
     simulationarchive_filename := simulationarchive_filename r;
     simulationarchive_interval := simulationarchive_interval r;
     simulationarchive_next := simulationarchive_next r;
     simulationarchive_walltime := simulationarchive_walltime r;
     simulationarchive_time := v;
     simulationarchive_seek_first := simulationarchive_seek_first r;
     simulationarchive_seek_blob := simulationarchive_seek_blob r;
     messages := messages r;
  |}.

Definition set_simulationarchive_seek_first (r : reb_simulation) (v : Z) : reb_simulation :=
  {|
     sim_t := sim_t r;
     sim_dt := sim_dt r;
     sim_dt_last_done := sim_dt_last_done r;
     sim_N := sim_N r;
     particles := particles r;
     integrator := integrator r;
     gravity := gravity r;
     ri_whfast := ri_whfast r;
     ri_ias15 := ri_ias15 r;
     simulationarchive_filename := simulationarchive_filename r;
     simulationarchive_interval := simulationarchive_interval r;
     simulationarchive_next := simulationarchive_next r;
     simulationarchive_walltime := simulationarchive_walltime r;
     simulationarchive_time := simulationarchive_time r;
     simulationarchive_seek_first := v;
     simulationarchive_seek_blob := simulationarchive_seek_blob r;
     messages := messages r;
  |}.

Definition set_simulationarchive_seek_blob (r : reb_simulation) (v : Z) : reb_simulation :=
  {|
     sim_t := sim_t r;
     sim_dt := sim_dt r;
     sim_dt_last_done := sim_dt_last_done r;
     sim_N := sim_N r;
     particles := particles r;
     integrator := integrator r;
     gravity := gravity r;
     ri_whfast := ri_whfast r;
     ri_ias15 := ri_ias15 r;
     simulationarchive_filename := simulationarchive_filename r;
     simulationarchive_interval := simulationarchive_interval r;
     simulationarchive_next := simulationarchive_next r;
     simulationarchive_walltime := simulationarchive_walltime r;
     simulationarchive_time := simulationarchive_time r;
     simulationarchive_seek_first := simulationarchive_seek_first r;
     simulationarchive_seek_blob := v;
     messages := messages r;
  |}.

Definition set_messages (r : reb_simulation) (v : list message) : reb_simulation :=
  {|
     sim_t := sim_t r;
     sim_dt := sim_dt r;
     sim_dt_last_done := sim_dt_last_done r;
     sim_N := sim_N r;
     particles := particles r;
     integrator := integrator r;
     gravity := gravity r;
     ri_whfast := ri_whfast r;
     ri_ias15 := ri_ias15 r;
     simulationarchive_filename := simulationarchive_filename r;
     simulationarchive_interval := simulationarchive_interval r;
     simulationarchive_next := simulationarchive_next r;
     simulationarchive_walltime := simulationarchive_walltime r;
     simulationarchive_time := simulationarchive_time r;
     simulationarchive_seek_first := simulationarchive_seek_first r;
     simulationarchive_seek_blob := simulationarchive_seek_blob r;
     messages := v;
  |}.

(** Modelled from the spec: [reb_error] and [reb_warning] of [rebound.c]
    are not part of the archive's source file.  They hand the message to
    the simulation's reporting sink and return; neither stops the run. *)
Definition reb_error (r : reb_simulation) (msg : string) : reb_simulation :=
  set_messages r (messages r ++ [(Error, msg)]).

Definition reb_warning (r : reb_simulation) (msg : string) : reb_simulation :=
  set_messages r (messages r ++ [(Warning, msg)]).

(** ** The file system and the stdio calls *)

Abbreviation filesystem := (gmap string (list byte)).

(** [fopen(name, "a")], the [fwrite]s and [fclose] taken together: the bytes
    written are added at the end of the file, which is created when it does
    not exist. *)
Definition fs_append (fs : filesystem) (name : string) (bytes : list byte) : filesystem :=
  <[name := default [] (fs !! name) ++ bytes]> fs.

(** A stream opened for reading: the content of the file and the position
    indicator. *)
Record FILE : Type := {
  f_data : list byte;
  f_pos : Z;
}.

Definition fopen_read (data : list byte) : FILE := {| f_data := data; f_pos := 0 |}.

Inductive whence : Type := SEEK_SET | SEEK_END.

(** [fseek] on a regular file: the new position is [offset] counted from
    the start ([SEEK_SET]) or from the end of the file ([SEEK_END]).  The
    call fails, returning [-1] with [EINVAL] and leaving the position
    where it was, exactly when the new position would be negative.  A
    position past the end of the file is not an error (POSIX: fseek shall
    allow the file-position indicator to be set beyond the end of existing
    data in the file); reading there finds no data. *)
Definition fseek (fd : FILE) (offset : Z) (w : whence) : Z * FILE :=
  let target :=
    match w with
    | SEEK_SET => offset
    | SEEK_END => Z.of_nat (length (f_data fd)) + offset
    end in
  if target <? 0 then (-1, fd)
  else (0, {| f_data := f_data fd; f_pos := target |}).

(** The bytes from the position indicator to the end of the file. *)
Definition remaining (fd : FILE) : list byte := drop (Z.to_nat (f_pos fd)) (f_data fd).

(** [fread(&v, sizeof(double), 1, fd)]: with eight bytes left the double is
    read and the position moves on.  With no byte left nothing is stored
    and [v] keeps the value [old].  With one to seven bytes left the call
    reads them all and stores them over the first bytes of [v], whose
    other bytes stay those of [old]; C11 7.21.8.1 calls the value of such
    a partial element indeterminate, and this is the value the C library
    leaves.  In both short cases the stream is at the end of the file. *)
Definition fread_double (old : double) (fd : FILE) : double * FILE :=
  let rest := remaining fd in
  if (8 <=? length rest)%nat
  then (Double.decode (take 8 rest), {| f_data := f_data fd; f_pos := f_pos fd + 8 |})
  else (match rest with
        | [] => old
        | _ => Double.decode (rest ++ drop (length rest) (Double.encode old))
        end,
        {| f_data := f_data fd;
           f_pos := Z.max (f_pos fd) (Z.of_nat (length (f_data fd))) |}).

(** [fread(a, sizeof(double), n, fd)] and [fread(a, sizeof(double)*n, 1,
    fd)], one double after the other: the doubles the file holds in full
    are stored, a double the file ends in is stored in part, and the
    doubles after it are left alone. *)
Definition fread_doubles (n : nat) (a : list double) (fd : FILE) : list double * FILE :=
  fold_left
    (fun st k =>
       let '(v, fd') := fread_double (st.1 !!! k) st.2 in (<[k := v]> st.1, fd'))
    (seq 0 n) (a, fd).

Definition fwrite_double (d : double) : list byte := Double.encode d.

(** [fwrite(a, sizeof(double), n, of)]. *)
Definition fwrite_doubles (n : nat) (a : list double) : list byte :=
  flat_map (fun k => fwrite_double (a !!! k)) (seq 0 n).

(** ** The full-state binary format

    The header of an archive is a full snapshot written by
    [reb_output_binary] and read back by the functions of [input.c].
    Neither file is part of the archive's source; the format is opaque
    here, and the three functions are the members of an interface. *)
Class FullStateFormat : Type := {
  (** the bytes [reb_output_binary] writes for a simulation *)
  binary_image : reb_simulation -> list byte;
  (** [reb_create_simulation_from_binary_with_messages(r, filename, &warnings)]:
      the simulation stored in the file, and the warning flags *)
  reb_create_simulation_from_binary_with_messages :
    reb_simulation -> list byte -> reb_simulation * Z;
  (** [reb_create_simulation_from_binary(filename)]: a new simulation, or
      [NULL] *)
  reb_create_simulation_from_binary : list byte -> option reb_simulation;
  (** the flag of [enum reb_input_binary_messages] for an unreadable file *)
  REB_INPUT_BINARY_ERROR_NOFILE : Z;
}.

(** Modelled from the spec: [reb_save_dp7] is not part of the archive's
    source file.  A coefficient table holds seven component arrays of
    length [3 N], written one after the other. *)
Definition reb_save_dp7 (dp7 : reb_dp7) (N3 : Z) : list byte :=
  let n := Z.to_nat N3 in
  fwrite_doubles n (p0 dp7) ++ fwrite_doubles n (p1 dp7) ++ fwrite_doubles n (p2 dp7)
  ++ fwrite_doubles n (p3 dp7) ++ fwrite_doubles n (p4 dp7) ++ fwrite_doubles n (p5 dp7)
  ++ fwrite_doubles n (p6 dp7).

(** Modelled from the spec: [reb_read_dp7] is not part of the archive's
    source file; it reads what [reb_save_dp7] wrote, in the same order. *)
Definition reb_read_dp7 (dp7 : reb_dp7) (N3 : Z) (fd : FILE) : reb_dp7 * FILE :=
  let n := Z.to_nat N3 in
  let '(a0, fd) := fread_doubles n (p0 dp7) fd in
  let '(a1, fd) := fread_doubles n (p1 dp7) fd in
  let '(a2, fd) := fread_doubles n (p2 dp7) fd in
  let '(a3, fd) := fread_doubles n (p3 dp7) fd in
  let '(a4, fd) := fread_doubles n (p4 dp7) fd in
  let '(a5, fd) := fread_doubles n (p5 dp7) fd in
  let '(a6, fd) := fread_doubles n (p6 dp7) fd in
  ({| p0 := a0; p1 := a1; p2 := a2; p3 := a3; p4 := a4; p5 := a5; p6 := a6 |}, fd).

Definition dp7_alloc (n : nat) : reb_dp7 :=
  let a := replicate n Double.zero in
  {| p0 := a; p1 := a; p2 := a; p3 := a; p4 := a; p5 := a; p6 := a |}.

(** Modelled from the spec: [reb_integrator_ias15_alloc] is not part of the
    archive's source file.  The tables are owned by the simulation and are
    reallocated, the old contents discarded, whenever the particle count
    differs from the allocated capacity. *)
Definition reb_integrator_ias15_alloc (r : reb_simulation) : reb_simulation :=
  let N3 := 3 * sim_N r in
  if ias15_allocatedN (ri_ias15 r) =? N3 then r
  else
    let n := Z.to_nat N3 in
    set_ri_ias15 r
      {| ias15_allocatedN := N3;
         ias15_b := dp7_alloc n; ias15_csb := dp7_alloc n; ias15_e := dp7_alloc n;
         ias15_br := dp7_alloc n; ias15_er := dp7_alloc n;
         ias15_csx := replicate n Double.zero; ias15_csv := replicate n Double.zero |}.

(** ** Record size: [reb_simulationarchive_blobsize]

    The sum is computed in [size_t] and returned through the [int]
    variable [seek_blob]; the second component is the simulation with the
    message of the [default] case. *)
Definition reb_simulationarchive_blobsize (r : reb_simulation) : reb_simulation * Z :=
  match integrator r with
  | REB_INTEGRATOR_WHFAST =>
      (r, C.to_int (C.to_size_t
             (C.sizeof_double * 2 + C.sizeof_double * 7 * C.to_size_t (sim_N r))))
  | REB_INTEGRATOR_IAS15 =>
      (r, C.to_int (C.to_size_t
             (C.sizeof_double * 4
              + C.sizeof_double * 3 * C.to_size_t (sim_N r) * 5 * 7
              + C.sizeof_double * 7 * C.to_size_t (sim_N r)
              + C.sizeof_double * 3 * C.to_size_t (sim_N r) * 2)))
  | REB_INTEGRATOR_OTHER _ =>
      (reb_error r "Simulation archive not implemented for this integrator.", 0)
  end.

(** ** Size estimate: [reb_simulationarchive_estimate_size] *)

(** [ceil] of [math.h] on a binary64 value: the least integral value not
    less than the argument.  A value with a non-negative exponent is
    integral already; the others are below [2^53] in magnitude, and their
    ceiling is a double.  The ceiling of a negative value above [-1] is
    [-0.]. *)
Definition ceil (d : double) : double :=
  match d with
  | S754_finite s m e =>
      if 0 <=? e then d
      else
        let z := if s then - (Z.pos m / 2 ^ (- e)) else - ((- Z.pos m) / 2 ^ (- e)) in
        if z =? 0 then S754_zero s else Double.of_Z z
  | _ => d
  end.

(** [(long)d]: the fractional part is discarded; the behaviour is
    undefined, [None], when the integral part is not a value of [long]
    (C11 6.3.1.4), which includes the infinities and NaN. *)
Definition to_long (d : double) : option Z :=
  match d with
  | S754_zero _ => Some 0
  | S754_finite s m e =>
      let magnitude := if 0 <=? e then Z.pos m * 2 ^ e else Z.pos m / 2 ^ (- e) in
      let z := if s then - magnitude else magnitude in
      if (- 2 ^ 63 <=? z) && (z <? 2 ^ 63) then Some z else None
  | _ => None
  end.

(** The product of two [long] values; [None] is the undefined behaviour of
    a signed overflow. *)
Definition long_mul (a b : Z) : option Z :=
  if (- 2 ^ 63 <=? a * b) && (a * b <? 2 ^ 63) then Some (a * b) else None.

(** The result is the simulation, which carries the messages, and the
    estimate; [None] where the C program has no defined behaviour. *)
Definition reb_simulationarchive_estimate_size (r : reb_simulation) (tmax : double)
  : option (reb_simulation * Z) :=
  if negb (Double.eqb (simulationarchive_interval r) Double.zero) then
    let '(r, blobsize) := reb_simulationarchive_blobsize r in
    match to_long (ceil (Double.div tmax (simulationarchive_interval r))) with
    | Some n =>
        match long_mul blobsize n with
        | Some size => Some (r, size)
        | None => None
        end
    | None => None
    end
  else Some (reb_warning r "Simulationarchive interval not set.", 0).

(** ** The writer: [reb_simulationarchive_heartbeat] *)

(** The seven doubles of particle [i]: the mass comes from [r->particles],
    position and velocity from [ps]. *)
Definition fwrite_particle (parts ps : list reb_particle) (i : nat) : list byte :=
  fwrite_double (p_m (parts !!! i))
  ++ fwrite_double (p_x (ps !!! i)) ++ fwrite_double (p_y (ps !!! i))
  ++ fwrite_double (p_z (ps !!! i)) ++ fwrite_double (p_vx (ps !!! i))
  ++ fwrite_double (p_vy (ps !!! i)) ++ fwrite_double (p_vz (ps !!! i)).

(** [for(int i=0;i<r->N;i++)]. *)
Definition particle_indices (r : reb_simulation) : list nat := seq 0 (Z.to_nat (sim_N r)).

Definition whfast_payload (r : reb_simulation) : list byte :=
  let ps := if safe_mode (ri_whfast r) =? 0 then p_j (ri_whfast r) else particles r in
  flat_map (fwrite_particle (particles r) ps) (particle_indices r).

Definition ias15_payload (r : reb_simulation) : list byte :=
  let ps := particles r in
  let N3 := C.to_int (sim_N r * 3) in
  fwrite_double (sim_dt r) ++ fwrite_double (sim_dt_last_done r)
  ++ flat_map (fwrite_particle ps ps) (particle_indices r)
  ++ reb_save_dp7 (ias15_b (ri_ias15 r)) N3
  ++ reb_save_dp7 (ias15_csb (ri_ias15 r)) N3
  ++ reb_save_dp7 (ias15_e (ri_ias15 r)) N3
  ++ reb_save_dp7 (ias15_br (ri_ias15 r)) N3
  ++ reb_save_dp7 (ias15_er (ri_ias15 r)) N3
  ++ fwrite_doubles (Z.to_nat N3) (ias15_csx (ri_ias15 r))
  ++ fwrite_doubles (Z.to_nat N3) (ias15_csv (ri_ias15 r)).

(** Seconds between two readings of the clock, as the heartbeat computes
    them: [now.tv_sec - then.tv_sec + (now.tv_usec - then.tv_usec)/1e6]. *)
Definition elapsed (time_now anchor : timeval) : double :=
  Double.add (Double.of_Z (tv_sec time_now - tv_sec anchor))
             (Double.div (Double.of_Z (tv_usec time_now - tv_usec anchor))
                         (Double.of_Z 1000000)).

Section Archive.

Context `{FullStateFormat}.

(** Modelled from the spec: [reb_output_binary] of [output.c] is not part
    of the archive's source file.  It writes the header record, replacing
    whatever the file held, and the offset of the first incremental record,
    [simulationarchive_seek_first], is the resulting file length. *)
Definition reb_output_binary (r : reb_simulation) (fs : filesystem) (filename : string)
  : reb_simulation * filesystem :=
  let image := binary_image r in
  (set_simulationarchive_seek_first r (Z.of_nat (length image)), <[filename := image]> fs).

(** The bytes of one incremental record and the simulation after the
    [switch] (which reports an integrator it does not know). *)
Definition heartbeat_record (r : reb_simulation) : reb_simulation * list byte :=
  let leading := fwrite_double (sim_t r) ++ fwrite_double (simulationarchive_walltime r) in
  match integrator r with
  | REB_INTEGRATOR_WHFAST => (r, leading ++ whfast_payload r)
  | REB_INTEGRATOR_IAS15 => (r, leading ++ ias15_payload r)
  | REB_INTEGRATOR_OTHER _ =>
      (reb_error r "Simulation archive not implemented for this integrator.", leading)
  end.

(** [time_now] is what [gettimeofday] answers during the call. *)
Definition reb_simulationarchive_heartbeat
    (time_now : timeval) (r : reb_simulation) (fs : filesystem)
  : reb_simulation * filesystem :=
  if Double.eqb (sim_t r) Double.zero then
    (* First output *)
    let '(r, seek_blob) := reb_simulationarchive_blobsize r in
    let r := set_simulationarchive_seek_blob r seek_blob in
    let r :=
      match gravity r with
      | REB_GRAVITY_BASIC | REB_GRAVITY_NONE => r
      | REB_GRAVITY_OTHER _ =>
          reb_error r "Simulation archive not implemented for this gravity module."
      end in
    let r := set_simulationarchive_next r
               (Double.add (simulationarchive_next r) (simulationarchive_interval r)) in
    let r := set_simulationarchive_walltime r Double.zero in
    let r := set_simulationarchive_time r time_now in
    reb_output_binary r fs (simulationarchive_filename r)
  else
    (* Appending outputs *)
    if Double.leb (simulationarchive_next r) (sim_t r) then
      let r := set_simulationarchive_next r
                 (Double.add (simulationarchive_next r) (simulationarchive_interval r)) in
      let r := set_simulationarchive_walltime r
                 (Double.add (simulationarchive_walltime r)
                             (elapsed time_now (simulationarchive_time r))) in
      let r := set_simulationarchive_time r time_now in
      let '(r', record) := heartbeat_record r in
      (r', fs_append fs (simulationarchive_filename r) record)
    else (r, fs).

(** ** The reader: [reb_simulationarchive_load_blob] *)

(** [fread(&(ps[i].f), sizeof(double), 1, fd)] for a member [f] of particle
    [i]. *)
Definition fread_member (get : reb_particle -> double) (set : double -> reb_particle -> reb_particle)
    (i : nat) (ps : list reb_particle) (fd : FILE) : list reb_particle * FILE :=
  let '(v, fd') := fread_double (get (ps !!! i)) fd in
  (alter (set v) i ps, fd').

(** Position and velocity of particle [i], six doubles. *)
Definition fread_coordinates (i : nat) (ps : list reb_particle) (fd : FILE)
  : list reb_particle * FILE :=
  let '(ps, fd) := fread_member p_x set_x i ps fd in
  let '(ps, fd) := fread_member p_y set_y i ps fd in
  let '(ps, fd) := fread_member p_z set_z i ps fd in
  let '(ps, fd) := fread_member p_vx set_vx i ps fd in
  let '(ps, fd) := fread_member p_vy set_vy i ps fd in
  fread_member p_vz set_vz i ps fd.

(** One turn of the WHFAST reading loop.  The mass goes to
    [r->particles[i]]; [ps] is [r->ri_whfast.p_j] when [jacobi] holds and
    [r->particles] itself otherwise. *)
Definition whfast_fread_particle (jacobi : bool)
    (st : list reb_particle * list reb_particle * FILE) (i : nat)
  : list reb_particle * list reb_particle * FILE :=
  let '(parts, pj, fd) := st in
  let '(parts, fd) := fread_member p_m set_m i parts fd in
  if jacobi then
    let '(pj, fd) := fread_coordinates i pj fd in (parts, pj, fd)
  else
    let '(parts, fd) := fread_coordinates i parts fd in (parts, pj, fd).

(** The buffers of the Jacobi coordinates are replaced when they are too
    small for [N] particles; [malloc] leaves their contents unspecified,
    the model fills them with zeros. *)
Definition whfast_realloc (N : Z) (w : reb_simulation_integrator_whfast)
  : reb_simulation_integrator_whfast :=
  if allocated_N w <? N then
    {| safe_mode := safe_mode w; is_synchronized := is_synchronized w;
       allocated_N := N;
       p_j := replicate (Z.to_nat N) particle0;
       eta := replicate (Z.to_nat N) Double.zero |}
  else w.

(** One turn of [for (unsigned int i=1;i<r->N;i++)]: the cumulative mass
    and the mass of the Jacobi particle. *)
Definition jacobi_mass_step (parts : list reb_particle)
    (st : list double * list reb_particle) (i : nat) : list double * list reb_particle :=
  (<[i := Double.add (st.1 !!! (i - 1)%nat) (p_m (parts !!! i))]> st.1,
   alter (set_m (p_m (parts !!! i))) i st.2).

(** "Recalculate Jacobi masses". *)
Definition recalculate_jacobi_masses (N : Z) (parts : list reb_particle)
    (eta0 : list double) (pj0 : list reb_particle) : list double * list reb_particle :=
  let eta1 := <[0%nat := p_m (parts !!! 0%nat)]> eta0 in
  let pj1 := alter (set_m (p_m (parts !!! 0%nat))) 0%nat pj0 in
  fold_left (jacobi_mass_step parts) (seq 1 (Z.to_nat (C.to_uint N) - 1)) (eta1, pj1).

Definition load_whfast (r : reb_simulation) (fd : FILE) : reb_simulation * FILE :=
  let jacobi := safe_mode (ri_whfast r) =? 0 in
  let w := if jacobi then whfast_realloc (sim_N r) (ri_whfast r) else ri_whfast r in
  let '(parts, pj, fd) :=
    fold_left (whfast_fread_particle jacobi) (particle_indices r) (particles r, p_j w, fd) in
  let w :=
    if jacobi then
      let '(eta', pj') := recalculate_jacobi_masses (sim_N r) parts (eta w) pj in
      {| safe_mode := safe_mode w; is_synchronized := 0; allocated_N := allocated_N w;
         p_j := pj'; eta := eta' |}
    else
      {| safe_mode := safe_mode w; is_synchronized := is_synchronized w;
         allocated_N := allocated_N w; p_j := pj; eta := eta w |} in
  (set_ri_whfast (set_particles r parts) w, fd).

Definition ias15_fread_particle (st : list reb_particle * FILE) (i : nat)
  : list reb_particle * FILE :=
  let '(ps, fd) := fread_member p_m set_m i st.1 st.2 in
  fread_coordinates i ps fd.

Definition load_ias15 (r : reb_simulation) (fd : FILE) : reb_simulation * FILE :=
  let '(v, fd) := fread_double (sim_dt r) fd in
  let r := set_sim_dt r v in
  let '(v, fd) := fread_double (sim_dt_last_done r) fd in
  let r := set_sim_dt_last_done r v in
  let '(ps, fd) := fold_left ias15_fread_particle (particle_indices r) (particles r, fd) in
  let r := set_particles r ps in
  let r := reb_integrator_ias15_alloc r in
  let N3 := C.to_int (sim_N r * 3) in
  let ias := ri_ias15 r in
  let '(b, fd) := reb_read_dp7 (ias15_b ias) N3 fd in
  let '(csb, fd) := reb_read_dp7 (ias15_csb ias) N3 fd in
  let '(e, fd) := reb_read_dp7 (ias15_e ias) N3 fd in
  let '(br, fd) := reb_read_dp7 (ias15_br ias) N3 fd in
  let '(er, fd) := reb_read_dp7 (ias15_er ias) N3 fd in
  let '(csx, fd) := fread_doubles (Z.to_nat N3) (ias15_csx ias) fd in
  let '(csv, fd) := fread_doubles (Z.to_nat N3) (ias15_csv ias) fd in
  (set_ri_ias15 r
     {| ias15_allocatedN := ias15_allocatedN ias;
        ias15_b := b; ias15_csb := csb; ias15_e := e; ias15_br := br; ias15_er := er;
        ias15_csx := csx; ias15_csv := csv |}, fd).

(** [while (r->simulationarchive_next<=r->t) r->simulationarchive_next +=
    r->simulationarchive_interval;].  The loop need not end (an interval of
    zero, or one too small to change [next]); [fuel] bounds the number of
    turns and [None] means the bound was reached. *)
Fixpoint catch_up (fuel : nat) (next t interval : double) : option double :=
  if Double.leb next t then
    match fuel with
    | O => None
    | S fuel' => catch_up fuel' (Double.add next interval) t interval
    end
  else Some next.

(** The two [fseek] calls: the latest record for a negative index, record
    [blob] otherwise. *)
Definition seek_blob (r : reb_simulation) (fd : FILE) (blob : Z) : Z * FILE :=
  if blob <? 0 then
    fseek fd (- simulationarchive_seek_blob r) SEEK_END
  else
    fseek fd (simulationarchive_seek_first r + (blob - 1) * simulationarchive_seek_blob r)
          SEEK_SET.

(** The part of the loader after a successful seek: the simulation once
    the record is read, and the stream just before [fclose]. *)
Definition read_blob (fuel : nat) (time_now : timeval) (r : reb_simulation) (fd : FILE)
  : option (reb_simulation * FILE) :=
  let '(v, fd) := fread_double (sim_t r) fd in
  let r := set_sim_t r v in
  let '(v, fd) := fread_double (simulationarchive_walltime r) fd in
  let r := set_simulationarchive_walltime r v in
  let r := set_simulationarchive_time r time_now in
  match catch_up fuel (simulationarchive_next r) (sim_t r) (simulationarchive_interval r) with
  | None => None
  | Some next =>
      let r := set_simulationarchive_next r next in
      Some
        match integrator r with
        | REB_INTEGRATOR_WHFAST => load_whfast r fd
        | REB_INTEGRATOR_IAS15 => load_ias15 r fd
        | REB_INTEGRATOR_OTHER _ =>
            (reb_error r "Simulation archive not implemented for this integrator.", fd)
        end
  end.

(** The result is the returned [int] and the simulation behind the pointer
    [r] ([None] for [NULL]); the outer [None] is a catch-up loop cut short
    by [fuel]. *)
Definition reb_simulationarchive_load_blob
    (fuel : nat) (time_now : timeval) (fs : filesystem)
    (r : option reb_simulation) (filename : string) (blob : Z)
  : option (Z * option reb_simulation) :=
  match fs !! filename with
  | None => Some (-1, r)
  | Some data =>
      match r with
      | None => Some (-2, None)
      | Some r =>
          if blob =? 0 then
            (* load original binary file *)
            let '(r, warnings) := reb_create_simulation_from_binary_with_messages r data in
            let r :=
              if Z.land warnings REB_INPUT_BINARY_ERROR_NOFILE =? 0 then r
              else reb_error r "Cannot read binary file. Check filename and file contents." in
            Some (0, Some r)
          else
            let '(fseekret, fd) := seek_blob r (fopen_read data) blob in
            if fseekret =? 0 then
              match read_blob fuel time_now r fd with
              | Some (r', _) => Some (0, Some r')
              | None => None
              end
            else
              (* Seek didn't work. *)
              Some (-3, Some r)
      end
  end.

(** ** Restart: [reb_simulationarchive_restart] *)
Definition reb_simulationarchive_restart
    (fuel : nat) (time_now : timeval) (fs : filesystem) (filename : string)
  : option (option reb_simulation) :=
  match fs !! filename with
  | None => Some None
  | Some data =>
      match reb_create_simulation_from_binary data with
      | Some r =>
          match reb_simulationarchive_load_blob fuel time_now fs (Some r) filename (-1) with
          | Some (ret, r') =>
              Some (if ret =? 0 then r'
                    else (fun r => reb_error r "Cannot read binary file.") <$> r')
          | None => None
          end
      | None => Some None
      end
  end.

End Archive.

(** ** The record size of the specification

    This definition follows the words of the specification (section 4.1),
    not the code: two leading scalars and seven per particle for the
    symplectic kind; four scalars, five tables of seven arrays of [3 N],
    seven per particle and two correction arrays of [3 N] for the adaptive
    kind.  A scalar is one double, eight bytes. *)
Definition supported (kind : reb_integrator) : bool :=
  match kind with
  | REB_INTEGRATOR_WHFAST | REB_INTEGRATOR_IAS15 => true
  | REB_INTEGRATOR_OTHER _ => false
  end.

Definition recordSize (kind : reb_integrator) (N : Z) : Z :=
  match kind with
  | REB_INTEGRATOR_WHFAST => 8 * (2 + 7 * N)
  | REB_INTEGRATOR_IAS15 => 8 * (4 + 5 * 7 * 3 * N + 7 * N + 2 * 3 * N)
  | REB_INTEGRATOR_OTHER _ => 0
  end.

(** ** Runs

    Seen from the archive, a run is a first heartbeat followed by steps;
    each step is whatever the integrator does to the simulation, then the
    heartbeat with the reading of the clock at that moment. *)
Record step : Type := {
  advance : reb_simulation -> reb_simulation;
  clock : timeval;
}.

(** The integrator leaves the particle count, the integrator kind and the
    archive's file name and offsets alone, and the time it reaches is not
    [0]. *)
Definition keeps_archive (f : reb_simulation -> reb_simulation) : Prop :=
  forall r,
    sim_N (f r) = sim_N r /\ integrator (f r) = integrator r
    /\ simulationarchive_filename (f r) = simulationarchive_filename r
    /\ simulationarchive_seek_first (f r) = simulationarchive_seek_first r
    /\ simulationarchive_seek_blob (f r) = simulationarchive_seek_blob r
    /\ Double.eqb (sim_t (f r)) Double.zero = false.

(** Whether the heartbeat of a running simulation writes a record. *)
Definition due (r : reb_simulation) : bool :=
  Double.leb (simulationarchive_next r) (sim_t r).

Section Runs.

Context `{FullStateFormat}.

Definition heartbeat_after (st : reb_simulation * filesystem) (s : step)
  : reb_simulation * filesystem :=
  reb_simulationarchive_heartbeat (clock s) (advance s st.1) st.2.

(** The state after the first heartbeat and the given steps. *)
Definition run (time0 : timeval) (r0 : reb_simulation) (fs0 : filesystem) (steps : list step)
  : reb_simulation * filesystem :=
  fold_left heartbeat_after steps (reb_simulationarchive_heartbeat time0 r0 fs0).

(** The number of records written by the steps. *)
Fixpoint written (st : reb_simulation * filesystem) (steps : list step) : nat :=
  match steps with
  | [] => 0
  | s :: steps' =>
      ((if due (advance s st.1) then 1 else 0) + written (heartbeat_after st s) steps')%nat
  end.

End Runs.

(** What holds of an archive after [K] records, for a run that began with
    the simulation [r0]: the file is a header followed by [K] records of
    the size the specification gives, and the simulation knows both
    sizes. *)
Definition archive_invariant (r0 : reb_simulation) (K : nat)
    (st : reb_simulation * filesystem) : Prop :=
  sim_N st.1 = sim_N r0
  /\ integrator st.1 = integrator r0
  /\ simulationarchive_filename st.1 = simulationarchive_filename r0
  /\ simulationarchive_seek_blob st.1 = recordSize (integrator r0) (sim_N r0)
  /\ exists header records,
       st.2 !! simulationarchive_filename r0 = Some (header ++ concat records)
       /\ Z.of_nat (length header) = simulationarchive_seek_first st.1
       /\ length records = K
       /\ Forall (fun record =>
                    Z.of_nat (length record) = recordSize (integrator r0) (sim_N r0))
                 records.

(** ** The schedule

    [advanced k next interval] is [next] after [k] turns of
    [next += interval]. *)
Fixpoint advanced (k : nat) (next interval : double) : double :=
  match k with
  | O => next
  | S k' => advanced k' (Double.add next interval) interval
  end.

(** ** Positions in a stream

    [holds fd n]: the stream has [n] bytes left at its position.
    [moved fd n]: the stream [n] bytes further on. *)
Definition holds (fd : FILE) (n : Z) : Prop :=
  0 <= f_pos fd /\ f_pos fd + n <= Z.of_nat (length (f_data fd)).

Definition moved (fd : FILE) (n : Z) : FILE :=
  {| f_data := f_data fd; f_pos := f_pos fd + n |}.

(** The addressing rule of the specification (section 3), in its words:
    record [b >= 1] starts at [seek_first + (b-1) * seek_blob], and a
    negative index denotes the last [seek_blob] bytes of the file. *)
Definition record_offset (seek_first seek_blob eof blob : Z) : Z :=
  if blob <? 0 then eof - seek_blob else seek_first + (blob - 1) * seek_blob.

(** The double stored at byte [pos] of a file. *)
Definition double_at (data : list byte) (pos : Z) : double :=
  Double.decode (take 8 (drop (Z.to_nat pos) data)).

(** ** Well-formed doubles and what a record holds

    [valid_double d]: [d] is a binary64 value (its mantissa and exponent
    are in canonical form), as every C double is. *)
Definition valid_double (d : double) : bool := valid_binary Double.prec Double.emax d.

Definition valid_particle (p : reb_particle) : bool :=
  valid_double (p_m p) && valid_double (p_x p) && valid_double (p_y p)
  && valid_double (p_z p) && valid_double (p_vx p) && valid_double (p_vy p)
  && valid_double (p_vz p).

(** [pending fd bytes]: from the position of the stream to the end of the
    file there is exactly [bytes]. *)
Definition pending (fd : FILE) (bytes : list byte) : Prop :=
  0 <= f_pos fd /\ remaining fd = bytes.

(** Position and velocity of [p] with the mass of [q]. *)
Definition with_coordinates (p q : reb_particle) : reb_particle :=
  {| p_m := p_m q; p_x := p_x p; p_y := p_y p; p_z := p_z p;
     p_vx := p_vx p; p_vy := p_vy p; p_vz := p_vz p |}.

(** The seven doubles a record holds for particle [i]: the mass of
    [parts[i]] and the coordinates of [ps[i]]. *)
Definition written_particle (parts ps : list reb_particle) (i : nat) : reb_particle :=
  with_coordinates (ps !!! i) (parts !!! i).

(** The doubles a record holds for the particles [0 .. n-1] are all
    binary64 values. *)
Definition valid_particles (parts ps : list reb_particle) (n : nat) : bool :=
  forallb (fun i => valid_particle (written_particle parts ps i)) (seq 0 n).

(** The first [n] doubles of an array are binary64 values. *)
Definition valid_doubles (n : nat) (a : list double) : bool :=
  forallb (fun k => valid_double (a !!! k)) (seq 0 n).

(** Two arrays hold the same first [n] doubles. *)
Definition agree (n : nat) (a b : list double) : Prop :=
  forall k, (k < n)%nat -> a !!! k = b !!! k.

(** The arrays of a coefficient table and of the IAS15 state, in the
    order in which the heartbeat writes them. *)
Definition dp7_arrays (d : reb_dp7) : list (list double) :=
  [p0 d; p1 d; p2 d; p3 d; p4 d; p5 d; p6 d].

Definition ias15_arrays (ias : reb_simulation_integrator_ias15) : list (list double) :=
  dp7_arrays (ias15_b ias) ++ dp7_arrays (ias15_csb ias) ++ dp7_arrays (ias15_e ias)
  ++ dp7_arrays (ias15_br ias) ++ dp7_arrays (ias15_er ias)
  ++ [ias15_csx ias; ias15_csv ias].

(** Every array has room for [n] doubles. *)
Definition allocated (n : nat) (arrays : list (list double)) : bool :=
  forallb (fun a => (n <=? length a)%nat) arrays.

(** ** Sample data *)

Module Sample.

Definition particle (k : Z) : reb_particle :=
  {| p_m := Double.of_Z k;
     p_x := Double.of_Z (10 * k); p_y := Double.of_Z (10 * k + 1);
     p_z := Double.of_Z (10 * k + 2);
     p_vx := Double.make (- k) (-1); p_vy := Double.make k (-2); p_vz := Double.zero |}.

Definition whfast (safe : Z) (n : nat) : reb_simulation_integrator_whfast :=
  {| safe_mode := safe; is_synchronized := 1; allocated_N := Z.of_nat n;
     p_j := replicate n particle0; eta := replicate n Double.zero |}.

Definition ias15 (n : nat) : reb_simulation_integrator_ias15 :=
  {| ias15_allocatedN := 3 * Z.of_nat n;
     ias15_b := dp7_alloc (3 * n); ias15_csb := dp7_alloc (3 * n);
     ias15_e := dp7_alloc (3 * n); ias15_br := dp7_alloc (3 * n);
     ias15_er := dp7_alloc (3 * n);
     ias15_csx := replicate (3 * n) Double.zero;
     ias15_csv := replicate (3 * n) Double.zero |}.

(** A simulation as it is before the first heartbeat: [t = 0], nothing
    scheduled yet, checkpoints wanted every unit of time. *)
Definition simulation (kind : reb_integrator) (g : reb_gravity) (safe : Z) (n : nat)
  : reb_simulation :=
  {| sim_t := Double.zero;
     sim_dt := Double.make 1 (-1);
     sim_dt_last_done := Double.zero;
     sim_N := Z.of_nat n;
     particles := map (fun k => particle (Z.of_nat k + 1)) (seq 0 n);
     integrator := kind;
     gravity := g;
     ri_whfast := whfast safe n;
     ri_ias15 := ias15 n;
     simulationarchive_filename := "archive.bin";
     simulationarchive_interval := Double.of_Z 1;
     simulationarchive_next := Double.zero;
     simulationarchive_walltime := Double.zero;
     simulationarchive_time := {| tv_sec := 0; tv_usec := 0 |};
     simulationarchive_seek_first := 0;
     simulationarchive_seek_blob := 0;
     messages := [] |}.

(** A stand-in for the full-state format: every header is the same four
    bytes, and reading a file gives the simulation [stored]. *)
Definition magic : list byte := [x52; x45; x42; x00].

Definition format (stored : reb_simulation) : FullStateFormat :=
  {| binary_image := fun _ => magic;
     reb_create_simulation_from_binary_with_messages := fun _ _ => (stored, 0);
     reb_create_simulation_from_binary := fun _ => Some stored;
     REB_INPUT_BINARY_ERROR_NOFILE := 1 |}.

(** Forty million particles under WHFAST, in the middle of a run: the time
    is [1.5] and a checkpoint was due at [1]. *)
Definition large_N : Z := 40000000.

Definition large : reb_simulation :=
  {| sim_t := Double.make 3 (-1);
     sim_dt := Double.make 1 (-1);
     sim_dt_last_done := Double.make 1 (-1);
     sim_N := large_N;
     particles := replicate (Z.to_nat large_N) (particle 1);
     integrator := REB_INTEGRATOR_WHFAST;
     gravity := REB_GRAVITY_BASIC;
     ri_whfast := {| safe_mode := 1; is_synchronized := 1; allocated_N := 0;
                     p_j := []; eta := [] |};
     ri_ias15 := ias15 0;
     simulationarchive_filename := "archive.bin";
     simulationarchive_interval := Double.of_Z 1;
     simulationarchive_next := Double.of_Z 1;
     simulationarchive_walltime := Double.zero;
     simulationarchive_time := {| tv_sec := 0; tv_usec := 0 |};
     simulationarchive_seek_first := 4;
     simulationarchive_seek_blob := -2054967280;
     messages := [] |}.

(** One WHFAST particle, safe mode on, before the first heartbeat; the
    format whose files all read back as that simulation. *)
Definition whfast1 : reb_simulation :=
  simulation REB_INTEGRATOR_WHFAST REB_GRAVITY_BASIC 1 1.

Definition plain : FullStateFormat := format whfast1.

(** The same with the first checkpoint asked for at time [2]. *)
Definition preset : reb_simulation := set_simulationarchive_next whfast1 (Double.of_Z 2).

(** An integrator the archive does not know, before the first heartbeat
    and in the middle of a run (time [1.5], checkpoint due at [1]). *)
Definition unsupported : reb_simulation :=
  simulation (REB_INTEGRATOR_OTHER 2) REB_GRAVITY_BASIC 1 1.

Definition unsupported_running : reb_simulation :=
  set_sim_t (set_simulationarchive_next unsupported (Double.of_Z 1)) (Double.make 3 (-1)).

(** Two WHFAST particles, safe mode off (the archive holds Jacobi
    coordinates), before the first heartbeat. *)
Definition jacobi2 : reb_simulation :=
  simulation REB_INTEGRATOR_WHFAST REB_GRAVITY_BASIC 0 2.

(** The integrator took the simulation to time [t]. *)
Definition to_time (t : double) (time_now : timeval) : step :=
  {| advance := fun r => set_sim_t r t; clock := time_now |}.

Definition at_second (s : Z) : timeval := {| tv_sec := s; tv_usec := 0 |}.

(** Seven steps of half a unit of time, one second apart: the simulation
    reaches [0.5], [1], ... [3.5]. *)
Definition half_steps : list step :=
  map (fun k => to_time (Double.make k (-1)) (at_second (100 + k))) [1; 2; 3; 4; 5; 6; 7].

(** A short run: the first heartbeat, then one step to [t = 3.5].  The
    archive holds the header and one record. *)
Definition one_step : list step := [to_time (Double.make 7 (-1)) (at_second 103)].

Definition short_run (r0 : reb_simulation) : reb_simulation * filesystem :=
  run (H := plain) (at_second 100) r0 ∅ one_step.

(** A file of ten bytes. *)
Definition stub : list byte := magic ++ [x00; x00; x00; x00; x00; x00].

(** A file of ten bytes that ends in two bytes [ff]. *)
Definition cut : list byte := magic ++ [x00; x00; x00; x00; xff; xff].

(** The first heartbeat of a simulation, on an empty file system, and
    the simulation when the integrator has then taken it to [t = 3.5]. *)
Definition first_beat (r0 : reb_simulation) : reb_simulation * filesystem :=
  reb_simulationarchive_heartbeat (H := plain) (at_second 100) r0 ∅.

Definition running (r0 : reb_simulation) : reb_simulation :=
  set_sim_t (first_beat r0).1 (Double.make 7 (-1)).

(** Three WHFAST particles, before the first heartbeat. *)
Definition whfast3 : reb_simulation :=
  simulation REB_INTEGRATOR_WHFAST REB_GRAVITY_BASIC 1 3.

(** Two IAS15 particles, before the first heartbeat; and in the middle of
    a run ([t = 3.5]), with compensated-summation arrays and a table of
    coefficients that are not zero. *)
Definition ias15_2 : reb_simulation :=
  simulation REB_INTEGRATOR_IAS15 REB_GRAVITY_BASIC 1 2.

Definition ramp (n : nat) : list double :=
  map (fun k => Double.make (Z.of_nat k + 1) (-2)) (seq 0 n).

Definition ias15_running : reb_simulation :=
  let r := running ias15_2 in
  set_ri_ias15 r
    {| ias15_allocatedN := 6;
       ias15_b := dp7_alloc 6; ias15_csb := dp7_alloc 6;
       ias15_e := {| p0 := ramp 6; p1 := ramp 6; p2 := ramp 6; p3 := ramp 6;
                     p4 := ramp 6; p5 := ramp 6; p6 := map Double.of_Z [6; 5; 4; 3; 2; 1] |};
       ias15_br := dp7_alloc 6; ias15_er := dp7_alloc 6;
       ias15_csx := ramp 6; ias15_csv := map Double.of_Z [1; 2; 3; 4; 5; 6] |}.

(** The simulation a load of the latest record leaves, for a simulation
    and the file system that holds its archive. *)
Definition reloaded (st : reb_simulation * filesystem) : reb_simulation :=
  match reb_simulationarchive_load_blob (H := plain) 10 (at_second 200) st.2 (Some st.1)
          "archive.bin" (-1) with
  | Some (_, Some r') => r'
  | _ => st.1
  end.

(** One WHFAST particle taken to [t = 2^60] with checkpoints every unit
    of time, and the archive after the heartbeat at that time. *)
Definition far_run : reb_simulation * filesystem :=
  reb_simulationarchive_heartbeat (H := plain) (at_second 103)
    (set_sim_t (first_beat whfast1).1 (Double.make 1 60)) (first_beat whfast1).2.

End Sample.

(** * Properties *)

(** ** Machine integers and doubles *)

Module CFacts.
Import C.

Lemma to_int_id z : - 2 ^ 31 <= z <= INT_MAX -> to_int z = z.
Proof.
  unfold to_int, INT_MAX. intros Hz.
  rewrite Z.mod_small by lia. lia.
Qed.

Lemma to_int_of_size_t z : to_int (to_size_t z) = to_int z.
Proof.
  unfold to_int, to_size_t. f_equal.
  rewrite (Z.mod_eq z (2 ^ 64)) by lia.
  replace (z - 2 ^ 64 * (z / 2 ^ 64) + 2 ^ 31)
    with (z + 2 ^ 31 + (- 2 ^ 32 * (z / 2 ^ 64)) * 2 ^ 32) by lia.
  apply Z_mod_plus_full.
Qed.

Lemma to_size_t_id z : 0 <= z < 2 ^ 64 -> to_size_t z = z.
Proof. intros Hz. unfold to_size_t. apply Z.mod_small. lia. Qed.

Lemma to_uint_id z : 0 <= z <= INT_MAX -> to_uint z = z.
Proof. intros Hz. unfold to_uint, INT_MAX in *. apply Z.mod_small. lia. Qed.

End CFacts.

Module DoubleFacts.
Import Double.

Lemma le_bytes_length n z : length (le_bytes n z) = n.
Proof. revert z. induction n as [|n IH]; intros z; simpl; [done|]. by rewrite IH. Qed.

Lemma encode_length d : length (encode d) = 8%nat.
Proof. apply le_bytes_length. Qed.

(** Adding to [+0.] gives the other operand back, except that the sum
    with [-0.] is [+0.]. *)
Lemma add_zero_l y : y <> S754_zero true -> add zero y = y.
Proof. unfold add, zero. destruct y as [[]| | |]; simpl; congruence. Qed.

Example one_bits : bits (of_Z 1) = 0x3FF0000000000000.
Proof. reflexivity. Qed.

Example decode_encode_3_5 : decode (encode (make 7 (-1))) = make 7 (-1).
Proof. reflexivity. Qed.

Example decode_encode_subnormal : decode (encode (make 1 (-1074))) = make 1 (-1074).
Proof. vm_compute. reflexivity. Qed.

Example decode_encode_minus_ten : decode (encode (of_Z (-10))) = of_Z (-10).
Proof. reflexivity. Qed.

Example three_and_a_half_sum : add (of_Z 3) (make 1 (-1)) = make 7 (-1).
Proof. reflexivity. Qed.

End DoubleFacts.

(** ** Record size *)

Lemma blobsize_whfast r :
  integrator r = REB_INTEGRATOR_WHFAST ->
  reb_simulationarchive_blobsize r = (r, C.to_int (8 * 2 + 8 * 7 * C.to_size_t (sim_N r))).
Proof.
  intros Hk. unfold reb_simulationarchive_blobsize. rewrite Hk.
  by rewrite CFacts.to_int_of_size_t.
Qed.

Lemma blobsize_ias15 r :
  integrator r = REB_INTEGRATOR_IAS15 ->
  reb_simulationarchive_blobsize r
  = (r, C.to_int (8 * 4 + 8 * 3 * C.to_size_t (sim_N r) * 5 * 7
                  + 8 * 7 * C.to_size_t (sim_N r) + 8 * 3 * C.to_size_t (sim_N r) * 2)).
Proof.
  intros Hk. unfold reb_simulationarchive_blobsize. rewrite Hk.
  by rewrite CFacts.to_int_of_size_t.
Qed.

Lemma blobsize_recordSize r :
  supported (integrator r) = true ->
  0 <= sim_N r ->
  recordSize (integrator r) (sim_N r) <= C.INT_MAX ->
  reb_simulationarchive_blobsize r = (r, recordSize (integrator r) (sim_N r)).
Proof.
  intros Hs HN Hmax. unfold C.INT_MAX in Hmax.
  destruct (integrator r) eqn:Hk; simpl in *; [| |done].
  - rewrite (blobsize_ias15 _ Hk), CFacts.to_size_t_id by lia.
    f_equal. rewrite CFacts.to_int_id; unfold C.INT_MAX; lia.
  - rewrite (blobsize_whfast _ Hk), CFacts.to_size_t_id by lia.
    f_equal. rewrite CFacts.to_int_id; unfold C.INT_MAX; lia.
Qed.

(** ** Lengths of what the writer emits *)

Lemma flat_map_length_const {A B} (f : A -> list B) (l : list A) (n : nat) :
  (forall a, length (f a) = n) -> length (flat_map f l) = (n * length l)%nat.
Proof.
  intros Hf. induction l as [|a l IH]; simpl; [lia|].
  rewrite length_app, Hf, IH. lia.
Qed.

Lemma fwrite_double_length d : length (fwrite_double d) = 8%nat.
Proof. apply DoubleFacts.encode_length. Qed.

Lemma fwrite_particle_length parts ps i : length (fwrite_particle parts ps i) = 56%nat.
Proof. unfold fwrite_particle. by rewrite !length_app, !fwrite_double_length. Qed.

Lemma fwrite_doubles_length n a : length (fwrite_doubles n a) = (8 * n)%nat.
Proof.
  unfold fwrite_doubles.
  rewrite (flat_map_length_const _ _ 8) by (intros; apply fwrite_double_length).
  by rewrite length_seq.
Qed.

Lemma reb_save_dp7_length dp7 N3 : length (reb_save_dp7 dp7 N3) = (56 * Z.to_nat N3)%nat.
Proof. unfold reb_save_dp7. rewrite !length_app, !fwrite_doubles_length. lia. Qed.

Lemma whfast_payload_length r : length (whfast_payload r) = (56 * Z.to_nat (sim_N r))%nat.
Proof.
  unfold whfast_payload, particle_indices.
  rewrite (flat_map_length_const _ _ 56) by (intros; apply fwrite_particle_length).
  by rewrite length_seq.
Qed.

Lemma ias15_payload_length r :
  length (ias15_payload r)
  = (16 + 56 * Z.to_nat (sim_N r) + 296 * Z.to_nat (C.to_int (sim_N r * 3)))%nat.
Proof.
  unfold ias15_payload, particle_indices.
  rewrite !length_app, !fwrite_double_length, !reb_save_dp7_length, !fwrite_doubles_length.
  rewrite (flat_map_length_const _ _ 56) by (intros; apply fwrite_particle_length).
  rewrite length_seq. lia.
Qed.

Section WriterFacts.

Context `{FullStateFormat}.

(** The [switch] of the writer changes nothing but the messages. *)
Lemma heartbeat_record_supported r :
  supported (integrator r) = true -> (heartbeat_record r).1 = r.
Proof. unfold heartbeat_record. by destruct (integrator r). Qed.

Lemma heartbeat_record_length r :
  supported (integrator r) = true ->
  0 <= sim_N r ->
  sim_N r * 3 <= C.INT_MAX ->
  Z.of_nat (length (heartbeat_record r).2) = recordSize (integrator r) (sim_N r).
Proof.
  intros Hs HN Hmax. unfold heartbeat_record.
  destruct (integrator r); [| |done]; cbn [snd recordSize].
  - rewrite length_app, length_app, !fwrite_double_length, ias15_payload_length.
    rewrite CFacts.to_int_id by (unfold C.INT_MAX in *; lia). lia.
  - rewrite length_app, length_app, !fwrite_double_length, whfast_payload_length. lia.
Qed.

(** The three ways through the heartbeat. *)
Lemma heartbeat_first time_now r fs :
  Double.eqb (sim_t r) Double.zero = true ->
  reb_simulationarchive_heartbeat time_now r fs
  = let r1 := set_simulationarchive_seek_blob (reb_simulationarchive_blobsize r).1
                (reb_simulationarchive_blobsize r).2 in
    let r2 := match gravity r1 with
              | REB_GRAVITY_BASIC | REB_GRAVITY_NONE => r1
              | REB_GRAVITY_OTHER _ =>
                  reb_error r1 "Simulation archive not implemented for this gravity module."
              end in
    let r3 := set_simulationarchive_time
                (set_simulationarchive_walltime
                   (set_simulationarchive_next r2
                      (Double.add (simulationarchive_next r2) (simulationarchive_interval r2)))
                   Double.zero) time_now in
    reb_output_binary r3 fs (simulationarchive_filename r3).
Proof.
  intros Ht. unfold reb_simulationarchive_heartbeat. rewrite Ht.
  by destruct (reb_simulationarchive_blobsize r).
Qed.

Lemma heartbeat_due time_now r fs :
  Double.eqb (sim_t r) Double.zero = false ->
  due r = true ->
  reb_simulationarchive_heartbeat time_now r fs
  = let r1 := set_simulationarchive_time
                (set_simulationarchive_walltime
                   (set_simulationarchive_next r
                      (Double.add (simulationarchive_next r) (simulationarchive_interval r)))
                   (Double.add (simulationarchive_walltime r)
                               (elapsed time_now (simulationarchive_time r)))) time_now in
    ((heartbeat_record r1).1,
     fs_append fs (simulationarchive_filename r) (heartbeat_record r1).2).
Proof.
  intros Ht Hd. unfold reb_simulationarchive_heartbeat, due in *. rewrite Ht, Hd.
  simpl. by destruct (heartbeat_record _).
Qed.

Lemma heartbeat_idle time_now r fs :
  Double.eqb (sim_t r) Double.zero = false ->
  due r = false ->
  reb_simulationarchive_heartbeat time_now r fs = (r, fs).
Proof.
  intros Ht Hd. unfold reb_simulationarchive_heartbeat, due in *. by rewrite Ht, Hd.
Qed.

End WriterFacts.

(** ** C10: the record size *)

(** C10, as amended.  For every particle count [N >= 0] whose record size
    fits the [int] through which the calculator returns it, the calculator
    returns [2 + 7 N] doubles for WHFAST and
    [4 + 5*7*3 N + 7 N + 2*3 N] doubles for IAS15, in bytes. *)
Theorem blobsize_matches_recordSize r :
  supported (integrator r) = true ->
  0 <= sim_N r ->
  recordSize (integrator r) (sim_N r) <= C.INT_MAX ->
  (reb_simulationarchive_blobsize r).2 = recordSize (integrator r) (sim_N r).
Proof. intros Hs HN Hmax. by rewrite blobsize_recordSize. Qed.

Lemma blobsize_matches_recordSize_witness :
  (reb_simulationarchive_blobsize
     (Sample.simulation REB_INTEGRATOR_IAS15 REB_GRAVITY_BASIC 1 3)).2 = 8 * 358.
Proof.
  apply (blobsize_matches_recordSize
           (Sample.simulation REB_INTEGRATOR_IAS15 REB_GRAVITY_BASIC 1 3)).
  - reflexivity.
  - simpl. lia.
  - vm_compute. discriminate.
Defined.

(** C10 as stated fails: with forty million WHFAST particles the sum,
    [2240000016], does not fit an [int] and comes back negative. *)
Lemma blobsize_wraps_large_N :
  supported (integrator Sample.large) = true
  /\ (reb_simulationarchive_blobsize Sample.large).2 = -2054967280
  /\ recordSize (integrator Sample.large) (sim_N Sample.large) = 2240000016
  /\ (reb_simulationarchive_blobsize Sample.large).2
     <> recordSize (integrator Sample.large) (sim_N Sample.large).
Proof. repeat split; try reflexivity. discriminate. Qed.

(** ** C4: the first heartbeat *)

Section FirstHeartbeat.

Context `{FullStateFormat}.

Lemma blobsize_keeps r :
  let r' := (reb_simulationarchive_blobsize r).1 in
  sim_N r' = sim_N r /\ integrator r' = integrator r /\ gravity r' = gravity r
  /\ simulationarchive_filename r' = simulationarchive_filename r
  /\ simulationarchive_next r' = simulationarchive_next r
  /\ simulationarchive_interval r' = simulationarchive_interval r.
Proof. unfold reb_simulationarchive_blobsize. by destruct (integrator r) eqn:Hk. Qed.

(** C4, as amended.  On a heartbeat at [t == 0] the controller computes
    and stores [seek_blob], adds [interval] to [next] (so that [next] is
    [interval] when it was [0] before, as in a new simulation), sets the
    wall-clock accumulator to zero and the wall-clock anchor to now,
    writes the header record through the full-state exporter, and
    [seek_first] is the length of the file that results. *)
Theorem heartbeat_first_output time_now r fs :
  Double.eqb (sim_t r) Double.zero = true ->
  let r' := (reb_simulationarchive_heartbeat time_now r fs).1 in
  let fs' := (reb_simulationarchive_heartbeat time_now r fs).2 in
  simulationarchive_seek_blob r' = (reb_simulationarchive_blobsize r).2
  /\ simulationarchive_next r'
     = Double.add (simulationarchive_next r) (simulationarchive_interval r)
  /\ (simulationarchive_next r = Double.zero ->
      simulationarchive_interval r <> S754_zero true ->
      simulationarchive_next r' = simulationarchive_interval r)
  /\ simulationarchive_walltime r' = Double.zero
  /\ simulationarchive_time r' = time_now
  /\ exists exported,
       r' = set_simulationarchive_seek_first exported
              (Z.of_nat (length (binary_image exported)))
       /\ fs' = <[simulationarchive_filename r := binary_image exported]> fs
       /\ fs' !! simulationarchive_filename r = Some (binary_image exported)
       /\ simulationarchive_seek_first r' = Z.of_nat (length (binary_image exported)).
Proof.
  intros Ht r' fs'. subst r' fs'. rewrite (heartbeat_first _ _ _ Ht).
  destruct (blobsize_keeps r) as (_ & _ & Hg & Hname & Hnext & Hint).
  destruct (reb_simulationarchive_blobsize r) as [r1 size]; simpl in *.
  set (r2 := match gravity r1 with REB_GRAVITY_OTHER _ => _ | _ => _ end).
  assert (Hadd : simulationarchive_next r2 = simulationarchive_next r
                 /\ simulationarchive_interval r2 = simulationarchive_interval r
                 /\ simulationarchive_filename r2 = simulationarchive_filename r
                 /\ simulationarchive_seek_blob r2 = size)
    by (subst r2; destruct (gravity r1); simpl; auto).
  clearbody r2.
  destruct Hadd as (Hn & Hi & Hf & Hb).
  repeat split.
  - exact Hb.
  - by rewrite Hn, Hi.
  - intros Hzero Hneg. rewrite Hn, Hi, Hzero. by apply DoubleFacts.add_zero_l.
  - eexists. rewrite Hf. repeat split. by rewrite lookup_insert_eq.
Qed.

End FirstHeartbeat.

Lemma heartbeat_first_output_witness :
  let r' := (reb_simulationarchive_heartbeat (H := Sample.plain)
               (Sample.at_second 100) Sample.whfast1 ∅).1 in
  simulationarchive_seek_blob r' = 72
  /\ simulationarchive_next r' = Double.of_Z 1
  /\ simulationarchive_seek_first r' = 4.
Proof.
  destruct (heartbeat_first_output (H := Sample.plain)
              (Sample.at_second 100) Sample.whfast1 ∅ eq_refl)
    as (Hblob & Hnext & _ & _ & _ & exported & _ & _ & _ & Hfirst).
  split; [|split].
  - rewrite Hblob. reflexivity.
  - rewrite Hnext. reflexivity.
  - rewrite Hfirst. reflexivity.
Defined.

(** C4 as stated fails: the heartbeat adds to [next], it does not assign.
    With [next = 2] before the first heartbeat and [interval = 1], [next]
    is [3] afterwards. *)
Lemma heartbeat_first_adds_to_next :
  let r := Sample.preset in
  let r' := (reb_simulationarchive_heartbeat (H := Sample.plain)
               (Sample.at_second 100) r ∅).1 in
  Double.eqb (sim_t r) Double.zero = true
  /\ simulationarchive_interval r = Double.of_Z 1
  /\ simulationarchive_next r' = Double.of_Z 3
  /\ simulationarchive_next r' <> simulationarchive_interval r.
Proof. repeat split; try reflexivity. vm_compute. discriminate. Qed.

(** ** C5: configurations the archive does not support *)

Section Unsupported.

Context `{FullStateFormat}.


End Unsupported.



(** ** C1: the schedule after an update *)

(** C1 fails on the code.  One heartbeat at [t = 0] and one at [t = 3.5],
    with [interval = 1]: the second heartbeat writes a record and advances
    [next] once, from [1] to [2], which is not past [t]. *)
Theorem heartbeat_advances_next_once :
  let first := reb_simulationarchive_heartbeat (H := Sample.plain)
                 (Sample.at_second 100) Sample.whfast1 ∅ in
  let steps := [Sample.to_time (Double.make 7 (-1)) (Sample.at_second 103)] in
  let st := run (H := Sample.plain) (Sample.at_second 100) Sample.whfast1 ∅ steps in
  simulationarchive_next first.1 = Double.of_Z 1
  /\ written (H := Sample.plain) first steps = 1%nat
  /\ sim_t st.1 = Double.make 7 (-1)
  /\ simulationarchive_next st.1 = Double.of_Z 2
  /\ Double.ltb (sim_t st.1) (simulationarchive_next st.1) = false
  /\ Double.leb (simulationarchive_next st.1) (sim_t st.1) = true.
Proof. repeat split; vm_compute; reflexivity. Qed.

(** ** C6: the length of the records and of the file *)

Section ArchiveLength.

Context `{FullStateFormat}.

Lemma concat_length_const {A} (ls : list (list A)) (n : Z) :
  Forall (fun l => Z.of_nat (length l) = n) ls ->
  Z.of_nat (length (concat ls)) = Z.of_nat (length ls) * n.
Proof.
  induction 1 as [|l ls Hl _ IH]; simpl; [lia|].
  rewrite length_app. lia.
Qed.

Lemma archive_invariant_first time0 r0 fs0 :
  Double.eqb (sim_t r0) Double.zero = true ->
  supported (integrator r0) = true ->
  0 <= sim_N r0 ->
  recordSize (integrator r0) (sim_N r0) <= C.INT_MAX ->
  archive_invariant r0 0 (reb_simulationarchive_heartbeat time0 r0 fs0).
Proof.
  intros Ht Hs HN Hmax.
  rewrite (heartbeat_first _ _ _ Ht), (blobsize_recordSize _ Hs HN Hmax).
  unfold archive_invariant, reb_output_binary.
  destruct r0 as [t dt dtl N ps k g wh ias name itv nxt wall tm first blob msgs].
  destruct g; simpl; repeat split;
    (eexists; exists []; simpl; rewrite app_nil_r, lookup_insert_eq; by repeat split).
Qed.

Lemma archive_invariant_step r0 K st s :
  supported (integrator r0) = true ->
  0 <= sim_N r0 ->
  recordSize (integrator r0) (sim_N r0) <= C.INT_MAX ->
  keeps_archive (advance s) ->
  archive_invariant r0 K st ->
  archive_invariant r0 (K + if due (advance s st.1) then 1 else 0) (heartbeat_after st s).
Proof.
  intros Hs HN Hmax Hkeep (HinvN & Hinvk & Hname & Hblob & header & records & Hfile & Hfirst & HK & Hlen).
  unfold heartbeat_after.
  destruct (Hkeep st.1) as (HN1 & Hk1 & Hname1 & Hfirst1 & Hblob1 & Ht1).
  destruct (due (advance s st.1)) eqn:Hdue.
  - rewrite (heartbeat_due _ _ _ Ht1 Hdue). cbn zeta.
    set (r1 := set_simulationarchive_time _ _).
    assert (Hr1 : sim_N r1 = sim_N r0 /\ integrator r1 = integrator r0
                  /\ simulationarchive_filename r1 = simulationarchive_filename r0
                  /\ simulationarchive_seek_first r1 = simulationarchive_seek_first st.1
                  /\ simulationarchive_seek_blob r1 = recordSize (integrator r0) (sim_N r0)).
    { subst r1. cbn. rewrite HN1, Hk1, Hname1, Hfirst1, Hblob1. auto. }
    destruct Hr1 as (HN2 & Hk2 & Hname2 & Hfirst2 & Hblob2).
    assert (Hs2 : supported (integrator r1) = true) by by rewrite Hk2.
    unfold archive_invariant. cbn [fst snd].
    rewrite (heartbeat_record_supported _ Hs2).
    repeat split; try done.
    exists header, (records ++ [(heartbeat_record r1).2]).
    repeat split.
    + rewrite Hname1, Hname. unfold fs_append.
      rewrite lookup_insert_eq, Hfile. cbn [default].
      by rewrite concat_app, app_assoc; cbn [concat]; rewrite app_nil_r.
    + by rewrite Hfirst2.
    + rewrite length_app. cbn [length]. lia.
    + apply Forall_app. split; [done|]. apply Forall_singleton.
      rewrite <- HN2, <- Hk2. apply heartbeat_record_length; [done|lia|].
      rewrite HN2. clear -Hs HN Hmax. revert Hs Hmax.
      destruct (integrator r0); cbn [recordSize supported]; unfold C.INT_MAX;
        intros; try discriminate; lia.
  - rewrite (heartbeat_idle _ _ _ Ht1 Hdue). unfold archive_invariant. cbn [fst snd].
    rewrite HN1, Hk1, Hname1, Hfirst1, Hblob1, Nat.add_0_r.
    repeat split; try done. by exists header, records.
Qed.

Lemma archive_invariant_run r0 steps :
  supported (integrator r0) = true ->
  0 <= sim_N r0 ->
  recordSize (integrator r0) (sim_N r0) <= C.INT_MAX ->
  Forall (fun s => keeps_archive (advance s)) steps ->
  forall K st,
    archive_invariant r0 K st ->
    archive_invariant r0 (K + written st steps) (fold_left heartbeat_after steps st).
Proof.
  intros Hs HN Hmax. induction 1 as [|s steps Hkeep _ IH]; intros K st Hinv.
  - simpl. by rewrite Nat.add_0_r.
  - simpl. rewrite Nat.add_assoc. apply IH.
    by apply archive_invariant_step.
Qed.

(** C6, as amended.  For a supported integrator kind and a particle count
    [N >= 0] whose record size fits an [int]: in a run that starts with
    the heartbeat at [t == 0], every record the heartbeat appends is
    exactly [recordSize kind N] bytes long, which is also the [seek_blob]
    of the simulation, and after [K] records the file is [seek_first + K *
    seek_blob] bytes long. *)
Theorem archive_length time0 r0 fs0 steps :
  Double.eqb (sim_t r0) Double.zero = true ->
  supported (integrator r0) = true ->
  0 <= sim_N r0 ->
  recordSize (integrator r0) (sim_N r0) <= C.INT_MAX ->
  Forall (fun s => keeps_archive (advance s)) steps ->
  let st := run time0 r0 fs0 steps in
  let K := written (reb_simulationarchive_heartbeat time0 r0 fs0) steps in
  simulationarchive_seek_blob st.1 = recordSize (integrator r0) (sim_N r0)
  /\ exists header records,
       st.2 !! simulationarchive_filename r0 = Some (header ++ concat records)
       /\ Z.of_nat (length header) = simulationarchive_seek_first st.1
       /\ length records = K
       /\ Forall (fun record =>
                    Z.of_nat (length record) = recordSize (integrator r0) (sim_N r0))
                 records
       /\ Z.of_nat (length (header ++ concat records))
          = simulationarchive_seek_first st.1
            + Z.of_nat K * simulationarchive_seek_blob st.1.
Proof.
  intros Ht Hs HN Hmax Hsteps st K.
  pose proof (archive_invariant_first time0 r0 fs0 Ht Hs HN Hmax) as Hfirst.
  pose proof (archive_invariant_run r0 steps Hs HN Hmax Hsteps _ _ Hfirst) as Hrun.
  change (0 + written _ steps)%nat with K in Hrun. fold (run time0 r0 fs0 steps) in Hrun.
  fold st in Hrun.
  destruct Hrun as (_ & _ & _ & Hblob & header & records & Hfile & Hhead & HK & Hlen).
  split; [done|]. exists header, records. repeat split; try done.
  rewrite length_app, Nat2Z.inj_add, (concat_length_const _ _ Hlen), Hhead, HK, Hblob. lia.
Qed.

End ArchiveLength.

Lemma archive_length_witness :
  exists header records,
    (run (H := Sample.plain) (Sample.at_second 100) Sample.whfast3 ∅ Sample.half_steps).2
      !! "archive.bin" = Some (header ++ concat records)
    /\ length records = 3%nat
    /\ Z.of_nat (length (header ++ concat records)) = 4 + 3 * 184.
Proof.
  destruct (archive_length (H := Sample.plain) (Sample.at_second 100) Sample.whfast3 ∅
              Sample.half_steps)
    as (Hblob & header & records & Hfile & Hhead & HK & Hlen & Htotal).
  - reflexivity.
  - reflexivity.
  - simpl. lia.
  - vm_compute. discriminate.
  - repeat constructor.
  - exists header, records. split; [exact Hfile|]. split.
    + rewrite HK. vm_compute. reflexivity.
    + rewrite Htotal. vm_compute. reflexivity.
Defined.

(** C6 as stated fails: with forty million WHFAST particles the heartbeat
    appends a record of [2240000016] bytes, and the size calculator
    answers [-2054967280]. *)
Lemma record_longer_than_blobsize :
  let r := Sample.large in
  let fs := {["archive.bin" := Sample.magic]} in
  supported (integrator r) = true
  /\ exists record,
       (reb_simulationarchive_heartbeat (H := Sample.plain) (Sample.at_second 103) r fs).2
       = fs_append fs "archive.bin" record
       /\ Z.of_nat (length record) = 2240000016
       /\ (reb_simulationarchive_blobsize r).2 = -2054967280
       /\ Z.of_nat (length record) <> (reb_simulationarchive_blobsize r).2.
Proof.
  intros r fs. split; [reflexivity|].
  assert (Ht : Double.eqb (sim_t r) Double.zero = false) by reflexivity.
  assert (Hd : due r = true) by reflexivity.
  rewrite (heartbeat_due (H := Sample.plain) _ _ _ Ht Hd). cbn zeta.
  eexists. split; [reflexivity|].
  assert (Hlen : Z.of_nat (length (heartbeat_record
                    (set_simulationarchive_time
                       (set_simulationarchive_walltime
                          (set_simulationarchive_next r
                             (Double.add (simulationarchive_next r)
                                         (simulationarchive_interval r)))
                          (Double.add (simulationarchive_walltime r)
                                      (elapsed (Sample.at_second 103)
                                               (simulationarchive_time r))))
                       (Sample.at_second 103))).2) = 2240000016).
  { rewrite heartbeat_record_length; [reflexivity|reflexivity|lazy; discriminate..]. }
  cbn [snd]. rewrite Hlen. repeat split. discriminate.
Qed.

(** ** Reading moves the stream *)

Ltac holds_tac := unfold holds, moved in *; cbn [f_pos f_data] in *; lia.

(** The next read of a sequence: name its result and replace the stream
    it returns by the stream it was given, moved by what [lemma] says. *)
Ltac next_read lemma :=
  match goal with
  | |- context [match ?e with pair _ _ => _ end] =>
      let v := fresh "v" in
      let fd' := fresh "fd" in
      let E := fresh "E" in
      destruct e as [v fd'] eqn:E;
      apply (f_equal snd) in E; cbn [snd] in E;
      rewrite lemma in E by holds_tac; subst fd'
  end.

Lemma remaining_length fd :
  0 <= f_pos fd ->
  Z.of_nat (length (remaining fd)) = Z.max 0 (Z.of_nat (length (f_data fd)) - f_pos fd).
Proof. intros Hpos. unfold remaining. rewrite length_drop. lia. Qed.

Lemma fread_double_holds old fd :
  holds fd 8 ->
  fread_double old fd = (double_at (f_data fd) (f_pos fd), moved fd 8).
Proof.
  intros [Hpos Hlen]. unfold fread_double.
  pose proof (remaining_length fd Hpos) as Hrem.
  destruct (Nat.leb_spec 8 (length (remaining fd))) as [_|Hlt]; [done|lia].
Qed.

Lemma fread_double_moved old fd : holds fd 8 -> (fread_double old fd).2 = moved fd 8.
Proof. intros Hfd. by rewrite fread_double_holds. Qed.

Lemma moved_moved fd a b : moved (moved fd a) b = moved fd (a + b).
Proof. unfold moved. cbn [f_pos f_data]. f_equal. lia. Qed.

Lemma fread_member_moved get set i ps fd :
  holds fd 8 -> (fread_member get set i ps fd).2 = moved fd 8.
Proof. intros Hfd. unfold fread_member. by next_read fread_double_moved. Qed.

Lemma fread_coordinates_moved i ps fd :
  holds fd 48 -> (fread_coordinates i ps fd).2 = moved fd 48.
Proof.
  intros Hfd. unfold fread_coordinates.
  do 5 next_read fread_member_moved.
  rewrite fread_member_moved by holds_tac.
  rewrite !moved_moved. f_equal.
Qed.

Lemma whfast_fread_particle_moved jacobi st i :
  holds st.2 56 -> (whfast_fread_particle jacobi st i).2 = moved st.2 56.
Proof.
  destruct st as [[parts pj] fd]. cbn [snd]. intros Hfd. unfold whfast_fread_particle.
  next_read fread_member_moved.
  destruct jacobi; next_read fread_coordinates_moved; cbn [snd];
    rewrite moved_moved; f_equal.
Qed.





Section ReaderFacts.

Context `{FullStateFormat}.




End ReaderFacts.

Section LoaderFacts.

Context `{FullStateFormat}.

(** The loader on an existing file and an index other than [0]. *)
Lemma load_blob_record fuel time_now fs r filename data blob :
  fs !! filename = Some data ->
  blob <> 0 ->
  reb_simulationarchive_load_blob fuel time_now fs (Some r) filename blob
  = if (seek_blob r (fopen_read data) blob).1 =? 0 then
      match read_blob fuel time_now r (seek_blob r (fopen_read data) blob).2 with
      | Some (r', _) => Some (0, Some r')
      | None => None
      end
    else Some (-3, Some r).
Proof.
  intros Hfile Hblob. unfold reb_simulationarchive_load_blob. rewrite Hfile.
  destruct (Z.eqb_spec blob 0) as [|_]; [done|].
  by destruct (seek_blob r (fopen_read data) blob).
Qed.

(** Where the two seeks go: the offset of the addressing rule, whenever
    that offset is not negative. *)
Lemma seek_blob_offset r data blob :
  let offset := record_offset (simulationarchive_seek_first r)
                  (simulationarchive_seek_blob r) (Z.of_nat (length data)) blob in
  0 <= offset ->
  seek_blob r (fopen_read data) blob = (0, {| f_data := data; f_pos := offset |}).
Proof.
  intros offset Hoff. subst offset. unfold seek_blob, record_offset, fseek in *.
  cbn [fopen_read f_data f_pos].
  destruct (blob <? 0).
  - rewrite Z.add_opp_r. by destruct (Z.ltb_spec (Z.of_nat (length data) - simulationarchive_seek_blob r) 0); [lia|].
  - by destruct (Z.ltb_spec (simulationarchive_seek_first r + (blob - 1) * simulationarchive_seek_blob r) 0); [lia|].
Qed.

(** A seek that fails is answered with [-3], and nothing of the
    simulation has been touched. *)
Lemma load_blob_seek_failed fuel time_now fs r filename data blob :
  fs !! filename = Some data ->
  blob <> 0 ->
  (seek_blob r (fopen_read data) blob).1 <> 0 ->
  reb_simulationarchive_load_blob fuel time_now fs (Some r) filename blob
  = Some (-3, Some r).
Proof.
  intros Hfile Hblob Hseek. rewrite (load_blob_record _ _ _ _ _ _ _ Hfile Hblob).
  by destruct (Z.eqb_spec (seek_blob r (fopen_read data) blob).1 0).
Qed.

(** No index [b >= 1] is ever answered with [-3], however far past the
    end of the file it points. *)
Lemma load_blob_positive_index_accepted fuel time_now fs r filename data blob :
  fs !! filename = Some data ->
  0 <= simulationarchive_seek_first r ->
  0 <= simulationarchive_seek_blob r ->
  1 <= blob ->
  forall r', reb_simulationarchive_load_blob fuel time_now fs (Some r) filename blob
             <> Some (-3, r').
Proof.
  intros Hfile Hfirst Hsize Hblob r'.
  rewrite (load_blob_record _ _ _ _ _ _ _ Hfile) by lia.
  rewrite seek_blob_offset.
  - cbn [fst snd Z.eqb]. by destruct (read_blob _ _ _ _) as [[]|].
  - unfold record_offset. destruct (Z.ltb_spec blob 0); [lia|nia].
Qed.




End LoaderFacts.



(** ** C2: an index past the last record *)

(** C2 fails on the code.  The archive holds the header and one record of
    two particles ([seek_first = 4], [seek_blob = 128], 132 bytes in
    all).  Loading record [5] seeks to byte 516: the seek succeeds, every
    read finds the end of the file, and the loader answers [0] after it
    has set the wall-clock anchor, advanced [next] and marked the
    simulation as not synchronized. *)
Theorem load_blob_beyond_last_record :
  let st := Sample.short_run Sample.jacobi2 in
  let r := st.1 in
  length <$> st.2 !! "archive.bin" = Some 132%nat
  /\ simulationarchive_seek_first r = 4
  /\ simulationarchive_seek_blob r = 128
  /\ exists r',
       reb_simulationarchive_load_blob (H := Sample.plain) 10 (Sample.at_second 200)
         st.2 (Some r) "archive.bin" 5 = Some (0, Some r')
       /\ r' <> r
       /\ simulationarchive_time r = Sample.at_second 103
       /\ simulationarchive_time r' = Sample.at_second 200
       /\ simulationarchive_next r = Double.of_Z 2
       /\ simulationarchive_next r' = Double.of_Z 4
       /\ is_synchronized (ri_whfast r) = 1
       /\ is_synchronized (ri_whfast r') = 0.
Proof.
  intros st r. split; [|split; [|split]]; try (vm_compute; reflexivity).
  eexists. split; [vm_compute; reflexivity|].
  split; [|repeat split; vm_compute; reflexivity].
  intros Heq. apply (f_equal simulationarchive_time) in Heq.
  vm_compute in Heq. discriminate.
Qed.

(** ** C3: restart *)

Section Restart.

Context `{FullStateFormat}.

(** C3, as amended.  When the header cannot be imported, restart returns
    no simulation.  When the load of the latest record fails, it fails
    with [-3] before anything is changed, and restart reports "Cannot read
    binary file." to the error sink of the simulation built from the
    header and returns that simulation. *)
Theorem restart_failure fuel time_now fs filename data :
  fs !! filename = Some data ->
  (reb_create_simulation_from_binary data = None ->
   reb_simulationarchive_restart fuel time_now fs filename = Some None)
  /\ (forall r ret r',
        reb_create_simulation_from_binary data = Some r ->
        reb_simulationarchive_load_blob fuel time_now fs (Some r) filename (-1)
        = Some (ret, r') ->
        ret <> 0 ->
        ret = -3 /\ r' = Some r
        /\ reb_simulationarchive_restart fuel time_now fs filename
           = Some (Some (reb_error r "Cannot read binary file."))).
Proof.
  intros Hfile. unfold reb_simulationarchive_restart. rewrite Hfile. split.
  - by intros ->.
  - intros r ret r' -> Hload Hret. rewrite Hload.
    rewrite (load_blob_record _ _ _ _ _ _ _ Hfile) in Hload by done.
    destruct (_ =? 0) in Hload.
    + destruct (read_blob _ _ _ _) as [[]|]; [|done].
      injection Hload as <- _. done.
    + injection Hload as <- <-. done.
Qed.

Lemma restart_missing_file fuel time_now fs filename :
  fs !! filename = None ->
  reb_simulationarchive_restart fuel time_now fs filename = Some None.
Proof. intros Hfile. unfold reb_simulationarchive_restart. by rewrite Hfile. Qed.

End Restart.

Lemma restart_failure_witness :
  let stored := (Sample.short_run Sample.whfast1).1 in
  let fs : filesystem := {["archive.bin" := Sample.stub]} in
  reb_simulationarchive_restart (H := Sample.format stored) 10 (Sample.at_second 200)
    fs "archive.bin"
  = Some (Some (reb_error stored "Cannot read binary file.")).
Proof.
  intros stored fs.
  destruct (restart_failure (H := Sample.format stored) 10 (Sample.at_second 200)
              fs "archive.bin" Sample.stub eq_refl) as [_ Hlatest].
  destruct (Hlatest stored (-3) (Some stored) eq_refl) as (_ & _ & Hrestart).
  - vm_compute. reflexivity.
  - discriminate.
  - exact Hrestart.
Defined.

(** C3 as stated fails: the file is ten bytes long and the simulation
    read from its header has records of 72 bytes, so the load of the
    latest record fails with [-3]; restart all the same returns the
    simulation, with the error in its sink. *)
Lemma restart_returns_simulation_after_failed_load :
  let stored := (Sample.short_run Sample.whfast1).1 in
  let fs : filesystem := {["archive.bin" := Sample.stub]} in
  simulationarchive_seek_blob stored = 72
  /\ reb_simulationarchive_load_blob (H := Sample.format stored) 10 (Sample.at_second 200)
       fs (Some stored) "archive.bin" (-1) = Some (-3, Some stored)
  /\ reb_simulationarchive_restart (H := Sample.format stored) 10 (Sample.at_second 200)
       fs "archive.bin"
     = Some (Some (reb_error stored "Cannot read binary file."))
  /\ reb_simulationarchive_restart (H := Sample.format stored) 10 (Sample.at_second 200)
       fs "archive.bin" <> Some None.
Proof.
  intros stored fs. repeat split; try (vm_compute; reflexivity).
  vm_compute. discriminate.
Qed.

(** ** C9: the Jacobi masses after a load *)

(** Reading a coordinate leaves every mass, and the length of the array,
    as it was. *)
Lemma fread_member_mass get set i ps fd j :
  (forall v p, p_m (set v p) = p_m p) ->
  p_m ((fread_member get set i ps fd).1 !!! j) = p_m (ps !!! j).
Proof.
  intros Hset. unfold fread_member. destruct (fread_double _ _) as [v fd']. cbn [fst].
  rewrite list_lookup_total_alter. case_decide as Hij; [|done].
  destruct Hij as [-> _]. apply Hset.
Qed.

Lemma fread_member_length get set i ps fd :
  length (fread_member get set i ps fd).1 = length ps.
Proof.
  unfold fread_member. destruct (fread_double _ _) as [v fd']. cbn [fst].
  apply length_alter.
Qed.

Lemma fread_coordinates_mass i ps fd j :
  p_m ((fread_coordinates i ps fd).1 !!! j) = p_m (ps !!! j).
Proof.
  unfold fread_coordinates.
  repeat match goal with
  | |- context [match ?e with pair _ _ => _ end] =>
      let E := fresh "E" in
      destruct e as [? ?] eqn:E; apply (f_equal fst) in E; cbn [fst] in E; subst
  end.
  by rewrite !fread_member_mass.
Qed.

Lemma fread_coordinates_length i ps fd :
  length (fread_coordinates i ps fd).1 = length ps.
Proof.
  unfold fread_coordinates.
  repeat match goal with
  | |- context [match ?e with pair _ _ => _ end] =>
      let E := fresh "E" in
      destruct e as [? ?] eqn:E; apply (f_equal fst) in E; cbn [fst] in E; subst
  end.
  by rewrite !fread_member_length.
Qed.

(** One turn of the WHFAST loop stores the mass found in the file at the
    position of the stream, and no other mass. *)
Lemma whfast_fread_particle_mass jacobi parts pj fd i j :
  holds fd 56 ->
  (i < length parts)%nat ->
  let parts' := (whfast_fread_particle jacobi (parts, pj, fd) i).1.1 in
  length parts' = length parts
  /\ p_m (parts' !!! j)
     = if decide (j = i) then double_at (f_data fd) (f_pos fd) else p_m (parts !!! j).
Proof.
  intros Hfd Hi. unfold whfast_fread_particle, fread_member.
  rewrite fread_double_holds by holds_tac.
  assert (Hm : p_m (alter (set_m (double_at (f_data fd) (f_pos fd))) i parts !!! j)
               = if decide (j = i) then double_at (f_data fd) (f_pos fd)
                 else p_m (parts !!! j)).
  { rewrite list_lookup_total_alter.
    destruct (decide (j = i)) as [->|Hne]; case_decide as Hd; try done.
    - destruct Hd. by split.
    - by destruct Hd as [-> _]. }
  destruct jacobi.
  - destruct (fread_coordinates i pj _) as [pj' fd']. cbn [fst].
    by rewrite length_alter.
  - pose proof (fread_coordinates_mass i
                  (alter (set_m (double_at (f_data fd) (f_pos fd))) i parts)
                  (moved fd 8) j) as Hc.
    pose proof (fread_coordinates_length i
                  (alter (set_m (double_at (f_data fd) (f_pos fd))) i parts)
                  (moved fd 8)) as Hl.
    destruct (fread_coordinates i _ (moved fd 8)) as [parts' fd']. cbn [fst] in *.
    by rewrite Hl, Hc, length_alter.
Qed.

(** After [n] turns the first [n] masses are those of the file, 56 bytes
    apart. *)
Lemma whfast_loop_masses jacobi n parts pj fd :
  holds fd (56 * Z.of_nat n) ->
  (n <= length parts)%nat ->
  let st := fold_left (whfast_fread_particle jacobi) (seq 0 n) (parts, pj, fd) in
  st.2 = moved fd (56 * Z.of_nat n)
  /\ length st.1.1 = length parts
  /\ forall i, (i < n)%nat ->
       p_m (st.1.1 !!! i) = double_at (f_data fd) (f_pos fd + 56 * Z.of_nat i).
Proof.
  induction n as [|n IH]; intros Hfd Hn st; subst st.
  - cbn. repeat split; [|lia]. unfold moved. destruct fd. cbn. f_equal. lia.
  - rewrite seq_S, fold_left_app. cbn [fold_left Nat.add].
    destruct IH as (Hpos & Hlen & Hmass); [holds_tac|lia|].
    destruct (fold_left _ (seq 0 n) _) as [[parts1 pj1] fd1]. cbn [fst snd] in *.
    subst fd1.
    assert (Hfd1 : holds (moved fd (56 * Z.of_nat n)) 56) by holds_tac.
    repeat apply conj.
    + rewrite whfast_fread_particle_moved by done. cbn [snd]. rewrite moved_moved.
      f_equal. lia.
    + destruct (whfast_fread_particle_mass jacobi parts1 pj1 _ n 0 Hfd1) as [Hl _]; [lia|].
      by rewrite Hl.
    + intros i Hi.
      destruct (whfast_fread_particle_mass jacobi parts1 pj1 _ n i Hfd1) as [_ Hm]; [lia|].
      rewrite Hm. case_decide as Hin.
      * subst i. done.
      * apply Hmass. lia.
Qed.

(** The loop that recalculates the Jacobi masses: after the turns
    [1 .. k] the first [k + 1] entries of [eta] are the running sums of
    the masses. *)
Lemma jacobi_mass_loop parts k eta0 pj0 :
  (k < length eta0)%nat ->
  let st := fold_left (jacobi_mass_step parts) (seq 1 k)
              (<[0%nat := p_m (parts !!! 0%nat)]> eta0, pj0) in
  length st.1 = length eta0
  /\ st.1 !!! 0%nat = p_m (parts !!! 0%nat)
  /\ forall i, (1 <= i <= k)%nat ->
       st.1 !!! i = Double.add (st.1 !!! (i - 1)%nat) (p_m (parts !!! i)).
Proof.
  induction k as [|k IH]; intros Hk st; subst st.
  - cbn [seq fold_left fst]. rewrite length_insert.
    repeat split; [|lia]. by rewrite list_lookup_total_insert_eq by lia.
  - rewrite seq_S, fold_left_app. cbn [fold_left Nat.add].
    destruct IH as (Hlen & H0 & Hsum); [lia|].
    destruct (fold_left _ (seq 1 k) _) as [eta1 pj1]. cbn [fst snd] in *.
    unfold jacobi_mass_step. cbn [fst snd]. rewrite length_insert.
    replace (S k - 1)%nat with k by lia.
    repeat split; [done| |].
    + by rewrite list_lookup_total_insert_ne by lia.
    + intros i Hi. destruct (decide (i = S k)) as [->|Hne].
      * rewrite list_lookup_total_insert_eq by lia.
        replace (S k - 1)%nat with k by lia.
        by rewrite list_lookup_total_insert_ne by lia.
      * rewrite !list_lookup_total_insert_ne by lia. apply Hsum. lia.
Qed.

(** The WHFAST branch of the loader with safe mode off. *)
Lemma load_whfast_jacobi r fd :
  safe_mode (ri_whfast r) = 0 ->
  1 <= sim_N r <= C.INT_MAX ->
  (Z.to_nat (sim_N r) <= length (particles r))%nat ->
  allocated_N (ri_whfast r) <= Z.of_nat (length (eta (ri_whfast r))) ->
  let r' := (load_whfast r fd).1 in
  let eta' := eta (ri_whfast r') in
  let mass i := p_m (particles r' !!! i) in
  is_synchronized (ri_whfast r') = 0
  /\ eta' !!! 0%nat = mass 0%nat
  /\ (forall i, (1 <= i < Z.to_nat (sim_N r))%nat ->
        eta' !!! i = Double.add (eta' !!! (i - 1)%nat) (mass i))
  /\ (holds fd (56 * sim_N r) ->
      forall i, (i < Z.to_nat (sim_N r))%nat ->
        mass i = double_at (f_data fd) (f_pos fd + 56 * Z.of_nat i)).
Proof.
  intros Hsafe HN Hparts Halloc. unfold load_whfast. rewrite Hsafe. cbn [Z.eqb].
  set (w := whfast_realloc (sim_N r) (ri_whfast r)).
  assert (Heta : (Z.to_nat (sim_N r) <= length (eta w))%nat).
  { subst w. unfold whfast_realloc.
    destruct (Z.ltb_spec (allocated_N (ri_whfast r)) (sim_N r)); cbn [eta].
    - by rewrite length_replicate.
    - lia. }
  pose proof (whfast_loop_masses true (Z.to_nat (sim_N r)) (particles r) (p_j w) fd) as Hloop.
  unfold particle_indices.
  destruct (fold_left _ (seq 0 (Z.to_nat (sim_N r))) _) as [[parts pj] fd'].
  cbn [fst snd] in Hloop.
  unfold recalculate_jacobi_masses. rewrite CFacts.to_uint_id by lia.
  pose proof (jacobi_mass_loop parts (Z.to_nat (sim_N r) - 1) (eta w)
                (alter (set_m (p_m (parts !!! 0%nat))) 0%nat pj)) as Hsum.
  destruct (fold_left (jacobi_mass_step parts) _ _) as [eta' pj'].
  cbn [fst snd particles set_particles set_ri_whfast ri_whfast eta is_synchronized] in *.
  destruct Hsum as (_ & H0 & Hsum); [lia|].
  repeat apply conj.
  - done.
  - done.
  - intros i Hi. apply Hsum. lia.
  - intros Hfd i Hi. rewrite Z2Nat.id in Hloop by lia.
    destruct Hloop as (_ & _ & Hmass); [done..|]. by apply Hmass.
Qed.

Section JacobiMasses.

Context `{FullStateFormat}.

(** C9.  For WHFAST with safe mode off, a load that reads a record (any
    index other than [0], the seek having succeeded) marks the simulation
    as not synchronized and leaves in [eta] the running sums of the
    particle masses: [eta[0] = m[0]] and [eta[i] = eta[i-1] + m[i]] for
    [1 <= i < N].  The masses are those just read: when the file holds the
    whole record, [m[i]] is the double at byte [16 + 56 i] of the record.
    Nothing else of the file enters [eta]. *)
Theorem load_blob_jacobi_masses fuel time_now fs r filename data blob fd :
  fs !! filename = Some data ->
  blob <> 0 ->
  seek_blob r (fopen_read data) blob = (0, fd) ->
  integrator r = REB_INTEGRATOR_WHFAST ->
  safe_mode (ri_whfast r) = 0 ->
  1 <= sim_N r <= C.INT_MAX ->
  (Z.to_nat (sim_N r) <= length (particles r))%nat ->
  allocated_N (ri_whfast r) <= Z.of_nat (length (eta (ri_whfast r))) ->
  catch_up fuel (simulationarchive_next r) (fread_double (sim_t r) fd).1
    (simulationarchive_interval r) <> None ->
  exists r',
    reb_simulationarchive_load_blob fuel time_now fs (Some r) filename blob
    = Some (0, Some r')
    /\ is_synchronized (ri_whfast r') = 0
    /\ eta (ri_whfast r') !!! 0%nat = p_m (particles r' !!! 0%nat)
    /\ (forall i, (1 <= i < Z.to_nat (sim_N r))%nat ->
          eta (ri_whfast r') !!! i
          = Double.add (eta (ri_whfast r') !!! (i - 1)%nat) (p_m (particles r' !!! i)))
    /\ (holds fd (recordSize REB_INTEGRATOR_WHFAST (sim_N r)) ->
        forall i, (i < Z.to_nat (sim_N r))%nat ->
          p_m (particles r' !!! i) = double_at data (f_pos fd + 16 + 56 * Z.of_nat i)).
Proof.
  intros Hfile Hblob Hseek Hk Hsafe HN Hparts Halloc Hcatch.
  rewrite (load_blob_record _ _ _ _ _ _ _ Hfile Hblob), Hseek. cbn [fst snd Z.eqb].
  assert (Hdata : f_data fd = data).
  { unfold seek_blob, fseek in Hseek.
    repeat case_match; simplify_eq; done. }
  unfold read_blob.
  destruct (fread_double (sim_t r) fd) as [t' fd1] eqn:Et. cbn [fst] in Hcatch.
  destruct (fread_double _ fd1) as [wall' fd2] eqn:Ew.
  cbn [simulationarchive_next simulationarchive_interval sim_t integrator
       set_simulationarchive_time set_simulationarchive_walltime set_sim_t
       set_simulationarchive_next] in *.
  destruct (catch_up _ _ _ _) as [next'|]; [|done].
  rewrite Hk.
  set (r1 := set_simulationarchive_next _ _).
  destruct (load_whfast_jacobi r1 fd2) as (Hsync & H0 & Hsum & Hmass); try done.
  destruct (load_whfast r1 fd2) as [r' fd3]. cbn [fst] in *.
  exists r'. repeat apply conj; try done.
  intros Hfd i Hi. cbn [recordSize] in Hfd.
  rewrite fread_double_holds in Et by holds_tac. injection Et as _ <-.
  rewrite fread_double_holds in Ew by holds_tac. injection Ew as _ <-.
  rewrite Hmass by (try done; subst r1; cbn [sim_N set_simulationarchive_next
    set_simulationarchive_time set_simulationarchive_walltime set_sim_t]; holds_tac).
  cbn [moved f_data f_pos]. rewrite Hdata. f_equal. lia.
Qed.

End JacobiMasses.

Lemma load_blob_jacobi_masses_witness :
  let st := Sample.short_run Sample.jacobi2 in
  exists r',
    reb_simulationarchive_load_blob (H := Sample.plain) 10 (Sample.at_second 200)
      st.2 (Some st.1) "archive.bin" 1 = Some (0, Some r')
    /\ is_synchronized (ri_whfast r') = 0
    /\ eta (ri_whfast r') !!! 0%nat = p_m (particles r' !!! 0%nat)
    /\ eta (ri_whfast r') !!! 1%nat
       = Double.add (eta (ri_whfast r') !!! 0%nat) (p_m (particles r' !!! 1%nat))
    /\ p_m (particles r' !!! 1%nat) = Double.of_Z 2.
Proof.
  intros st.
  destruct (load_blob_jacobi_masses (H := Sample.plain) 10 (Sample.at_second 200)
              st.2 st.1 "archive.bin" (default [] (st.2 !! "archive.bin")) 1
              {| f_data := default [] (st.2 !! "archive.bin"); f_pos := 4 |})
    as (r' & Hload & Hsync & H0 & Hsum & Hmass).
  - vm_compute. reflexivity.
  - discriminate.
  - vm_compute. reflexivity.
  - reflexivity.
  - reflexivity.
  - vm_compute. split; discriminate.
  - vm_compute. lia.
  - vm_compute. discriminate.
  - vm_compute. discriminate.
  - exists r'. split; [exact Hload|]. split; [exact Hsync|]. split; [exact H0|].
    split.
    + apply (Hsum 1%nat). vm_compute. lia.
    + rewrite (Hmass ltac:(vm_compute; split; discriminate) 1%nat ltac:(vm_compute; lia)).
      vm_compute. reflexivity.
Defined.

(** ** C8: the schedule after a restart *)

Section Schedule.

Context `{FullStateFormat}.

(** The catch-up loop stops only at a [next] that is not [<= t]. *)
Lemma catch_up_exit fuel next t interval next' :
  catch_up fuel next t interval = Some next' -> Double.leb next' t = false.
Proof.
  revert next. induction fuel as [|fuel IH]; intros next; cbn [catch_up];
    destruct (Double.leb next t) eqn:Hle; try done.
  - by intros [= <-].
  - apply IH.
  - by intros [= <-].
Qed.

(** The loop stops at the first of [next], [next + interval], ... that is
    not [<= t], when the fuel reaches that far. *)
Lemma catch_up_advanced fuel k next t interval :
  (forall j, (j < k)%nat -> Double.leb (advanced j next interval) t = true) ->
  Double.leb (advanced k next interval) t = false ->
  (k <= fuel)%nat ->
  catch_up fuel next t interval = Some (advanced k next interval).
Proof.
  revert fuel next. induction k as [|k IH]; intros fuel next Hbefore Hk Hfuel.
  - cbn [advanced] in *. destruct fuel; cbn [catch_up]; by rewrite Hk.
  - destruct fuel as [|fuel]; [lia|]. cbn [catch_up advanced].
    pose proof (Hbefore 0%nat ltac:(lia)) as H0. cbn [advanced] in H0. rewrite H0.
    apply IH; [|done|lia].
    intros j Hj. apply (Hbefore (S j)). lia.
Qed.

(** A due heartbeat of a running simulation advances [next] by one
    interval and leaves the time alone. *)
Lemma heartbeat_due_schedule time_now r fs :
  Double.eqb (sim_t r) Double.zero = false ->
  due r = true ->
  let r' := (reb_simulationarchive_heartbeat time_now r fs).1 in
  sim_t r' = sim_t r
  /\ simulationarchive_next r'
     = Double.add (simulationarchive_next r) (simulationarchive_interval r)
  /\ Double.ltb (sim_t r') (simulationarchive_next r')
     = Double.ltb (sim_t r)
         (Double.add (simulationarchive_next r) (simulationarchive_interval r)).
Proof.
  intros Ht Hd. rewrite (heartbeat_due _ _ _ Ht Hd). cbn zeta. unfold heartbeat_record.
  by destruct (integrator _).
Qed.

Lemma load_whfast_schedule r fd :
  sim_t (load_whfast r fd).1 = sim_t r
  /\ simulationarchive_next (load_whfast r fd).1 = simulationarchive_next r.
Proof.
  unfold load_whfast. destruct (fold_left _ _ _) as [[parts pj] fd'].
  by destruct (safe_mode (ri_whfast r) =? 0); [destruct (recalculate_jacobi_masses _ _ _ _)|].
Qed.

Lemma load_ias15_schedule r fd :
  sim_t (load_ias15 r fd).1 = sim_t r
  /\ simulationarchive_next (load_ias15 r fd).1 = simulationarchive_next r.
Proof.
  unfold load_ias15.
  repeat match goal with
  | |- context [match ?e with pair _ _ => _ end] => destruct e
  end.
  cbn [fst]. unfold reb_integrator_ias15_alloc. by case_match.
Qed.

(** The loader leaves [next] where the catch-up loop stopped, past the
    time it has just read. *)
Lemma read_blob_schedule fuel time_now r fd r' fd' :
  read_blob fuel time_now r fd = Some (r', fd') ->
  sim_t r' = (fread_double (sim_t r) fd).1
  /\ catch_up fuel (simulationarchive_next r) (sim_t r') (simulationarchive_interval r)
     = Some (simulationarchive_next r')
  /\ Double.leb (simulationarchive_next r') (sim_t r') = false.
Proof.
  unfold read_blob.
  destruct (fread_double (sim_t r) fd) as [t' fd1].
  destruct (fread_double _ fd1) as [wall' fd2].
  cbn [simulationarchive_next simulationarchive_interval sim_t integrator
       set_simulationarchive_time set_simulationarchive_walltime set_sim_t
       set_simulationarchive_next fst].
  destruct (catch_up _ _ _ _) as [next'|] eqn:Hcatch; [|done].
  intros [= Hread]. apply (f_equal fst) in Hread. cbn [fst] in Hread. subst r'.
  set (r1 := set_simulationarchive_next _ _).
  assert (Hr1 : sim_t r1 = t' /\ simulationarchive_next r1 = next') by done.
  destruct Hr1 as [Ht Hn].
  assert (Hkeep : sim_t (match integrator r with
                         | REB_INTEGRATOR_IAS15 => load_ias15 r1 fd2
                         | REB_INTEGRATOR_WHFAST => load_whfast r1 fd2
                         | REB_INTEGRATOR_OTHER _ =>
                             (reb_error r1
                                "Simulation archive not implemented for this integrator.",
                              fd2)
                         end).1 = t'
                  /\ simulationarchive_next
                       (match integrator r with
                        | REB_INTEGRATOR_IAS15 => load_ias15 r1 fd2
                        | REB_INTEGRATOR_WHFAST => load_whfast r1 fd2
                        | REB_INTEGRATOR_OTHER _ =>
                            (reb_error r1
                               "Simulation archive not implemented for this integrator.",
                             fd2)
                        end).1 = next').
  { destruct (integrator r).
    - destruct (load_ias15_schedule r1 fd2) as [-> ->]. done.
    - destruct (load_whfast_schedule r1 fd2) as [-> ->]. done.
    - done. }
  destruct Hkeep as [-> ->]. repeat split; [done|].
  by apply catch_up_exit in Hcatch.
Qed.

End Schedule.

(** C8 fails on the code.  The run of C1 (heartbeats at [t = 0] and at
    [t = 3.5], [interval = 1]) goes on with [next = 2] after its record.
    Restarting from the archive of that run, the loader reads [t = 3.5]
    and catches up from the header's [next = 1] to [next = 4].  At
    [t = 3.75] the run that was not interrupted writes a record, the
    restarted one does not. *)
Theorem restart_schedule_differs :
  let header := (reb_simulationarchive_heartbeat (H := Sample.plain)
                   (Sample.at_second 100) Sample.whfast1 ∅).1 in
  let st := run (H := Sample.format header) (Sample.at_second 100) Sample.whfast1 ∅
              Sample.one_step in
  (reb_simulationarchive_heartbeat (H := Sample.format header)
     (Sample.at_second 100) Sample.whfast1 ∅).1 = header
  /\ simulationarchive_next header = Double.of_Z 1
  /\ sim_t st.1 = Double.make 7 (-1)
  /\ simulationarchive_next st.1 = Double.of_Z 2
  /\ exists r',
       reb_simulationarchive_restart (H := Sample.format header) 10 (Sample.at_second 200)
         st.2 "archive.bin" = Some (Some r')
       /\ sim_t r' = Double.make 7 (-1)
       /\ simulationarchive_next r' = Double.of_Z 4
       /\ simulationarchive_next r' <> simulationarchive_next st.1
       /\ due (set_sim_t st.1 (Double.make 15 (-2))) = true
       /\ due (set_sim_t r' (Double.make 15 (-2))) = false.
Proof.
  intros header st. split; [|split; [|split; [|split]]].
  - vm_compute. reflexivity.
  - vm_compute. reflexivity.
  - vm_compute. reflexivity.
  - vm_compute. reflexivity.
  - eexists. split; [vm_compute; reflexivity|].
    split; [|split; [|split; [|split]]].
    + vm_compute. reflexivity.
    + vm_compute. reflexivity.
    + vm_compute. discriminate.
    + vm_compute. reflexivity.
    + vm_compute. reflexivity.
Qed.

(** * Further properties of the archive *)

(** ** Doubles on disk *)

Module EncodingFacts.
Import Double.

Lemma Z_of_byte_of_Z z : Z_of_byte (byte_of_Z z) = z mod 256.
Proof.
  unfold Z_of_byte, byte_of_Z.
  assert (Hr : 0 <= z mod 256 < 256) by (apply Z.mod_pos_bound; lia).
  destruct (Byte.of_N (Z.to_N (z mod 256))) as [b|] eqn:Hb.
  - apply Byte.to_of_N in Hb. cbn. rewrite Hb. lia.
  - apply Byte.of_N_None_iff in Hb. lia.
Qed.

Lemma le_value_le_bytes n z : le_value (le_bytes n z) = z mod 256 ^ Z.of_nat n.
Proof.
  revert z. induction n as [|n IH]; intros z.
  - cbn. by rewrite Z.mod_1_r.
  - cbn [le_bytes le_value]. rewrite Z_of_byte_of_Z, IH.
    rewrite Nat2Z.inj_succ, Z.pow_succ_r by lia.
    rewrite Z.rem_mul_r by lia. lia.
Qed.

Lemma digits2_pos_bounds m :
  2 ^ (Z.pos (digits2_pos m) - 1) <= Z.pos m < 2 ^ Z.pos (digits2_pos m).
Proof.
  induction m as [m IH|m IH|]; cbn [digits2_pos]; rewrite ?Pos2Z.inj_succ.
  - replace (Z.succ (Z.pos (digits2_pos m)) - 1) with (Z.succ (Z.pos (digits2_pos m) - 1)) by lia.
    rewrite !Z.pow_succ_r by lia. lia.
  - replace (Z.succ (Z.pos (digits2_pos m)) - 1) with (Z.succ (Z.pos (digits2_pos m) - 1)) by lia.
    rewrite !Z.pow_succ_r by lia. lia.
  - cbn. lia.
Qed.

(** The three fields of a binary64 word. *)
Lemma word_fields s E F :
  0 <= E < 2 ^ 11 -> 0 <= F < 2 ^ 52 ->
  let w := sign_bit s + E * 2 ^ 52 + F in
  Z.testbit w 63 = s /\ (w / 2 ^ 52) mod 2 ^ 11 = E /\ w mod 2 ^ 52 = F.
Proof.
  intros HE HF w. subst w.
  assert (Hs : sign_bit s = (if s then 1 else 0) * 2 ^ 63) by (by destruct s).
  repeat apply conj.
  - destruct s; cbn [sign_bit].
    + apply Z.testbit_true; [lia|]. 
      replace (2 ^ 63 + E * 2 ^ 52 + F) with (E * 2 ^ 52 + F + 1 * 2 ^ 63) by lia.
      rewrite Z.div_add by lia. rewrite Z.div_small by lia. reflexivity.
    + apply Z.testbit_false; [lia|]. rewrite Z.div_small by lia. reflexivity.
  - rewrite Hs.
    replace ((if s then 1 else 0) * 2 ^ 63 + E * 2 ^ 52 + F)
      with (F + ((if s then 1 else 0) * 2 ^ 11 + E) * 2 ^ 52) by lia.
    rewrite Z.div_add by lia. rewrite Z.div_small by lia.
    rewrite Z.add_0_l, Z.add_comm, Z_mod_plus_full. apply Z.mod_small. lia.
  - rewrite Hs.
    replace ((if s then 1 else 0) * 2 ^ 63 + E * 2 ^ 52 + F)
      with (F + ((if s then 1 else 0) * 2 ^ 11 + E) * 2 ^ 52) by lia.
    rewrite Z_mod_plus_full. apply Z.mod_small. lia.
Qed.

(** A double is the value of its word. *)
Lemma of_bits_bits d : valid_binary prec emax d = true -> of_bits (bits d) = d.
Proof.
  destruct d as [s|s| |s m e]; cbn [valid_binary bits]; intros Hvalid.
  - destruct (word_fields s 0 0) as (Hs & HE & HF); [lia..|].
    rewrite Z.mul_0_l, !Z.add_0_r in *. unfold of_bits. by rewrite Hs, HE, HF.
  - destruct (word_fields s 2047 0) as (Hs & HE & HF); [lia..|].
    rewrite Z.add_0_r in *. unfold of_bits. by rewrite Hs, HE, HF.
  - reflexivity.
  - unfold bounded, canonical_mantissa, fexp, emin, prec, emax in Hvalid.
    apply andb_true_iff in Hvalid as [Hcanon Hmax].
    apply Z.eqb_eq in Hcanon. apply Z.leb_le in Hmax.
    pose proof (digits2_pos_bounds m) as Hdigits.
    destruct (Z.ltb_spec (Z.pos m) (2 ^ 52)) as [Hsub|Hnorm].
    + assert (Hd : Z.pos (digits2_pos m) <= 52).
      { destruct (Z.le_gt_cases (Z.pos (digits2_pos m)) 52) as [|Hgt]; [done|].
        assert (2 ^ 52 <= 2 ^ (Z.pos (digits2_pos m) - 1)) by (apply Z.pow_le_mono_r; lia).
        lia. }
      assert (He : e = -1074) by lia. subst e.
      destruct (word_fields s 0 (Z.pos m)) as (Hs & HE & HF); [lia..|].
      rewrite Z.mul_0_l, Z.add_0_r in *. unfold of_bits. by rewrite Hs, HE, HF.
    + assert (Hd : Z.pos (digits2_pos m) = 53).
      { destruct (Z.lt_trichotomy (Z.pos (digits2_pos m)) 53) as [Hlt|[|Hgt]]; [|done|lia].
        assert (2 ^ Z.pos (digits2_pos m) <= 2 ^ 52) by (apply Z.pow_le_mono_r; lia).
        lia. }
      rewrite Hd in *.
      destruct (word_fields s (e + 1075) (Z.pos m - 2 ^ 52)) as (Hs & HE & HF); [lia..|].
      replace (sign_bit s + (e + 1075) * 2 ^ 52 + (Z.pos m - 2 ^ 52))
        with (sign_bit s + (e + 1075) * 2 ^ 52 + (Z.pos m - 2 ^ 52)) in * by done.
      unfold of_bits. rewrite Hs, HE, HF.
      destruct (Z.eqb_spec (e + 1075) 0); [lia|].
      destruct (Z.eqb_spec (e + 1075) 2047); [lia|].
      replace (Z.pos m - 2 ^ 52 + 2 ^ 52) with (Z.pos m) by lia.
      f_equal. lia.
Qed.

Lemma bits_range d : valid_binary prec emax d = true -> 0 <= bits d < 2 ^ 64.
Proof.
  destruct d as [s|s| |s m e]; cbn [valid_binary bits]; intros Hvalid;
    try (destruct s; cbn; lia); [cbn; lia|].
  unfold bounded, canonical_mantissa, fexp, emin, prec, emax in Hvalid.
  apply andb_true_iff in Hvalid as [Hcanon Hmax].
  apply Z.eqb_eq in Hcanon. apply Z.leb_le in Hmax.
  pose proof (digits2_pos_bounds m) as Hdigits.
  destruct (Z.ltb_spec (Z.pos m) (2 ^ 52)) as [Hsub|Hnorm].
  - destruct s; cbn [sign_bit]; lia.
  - assert (Hd : Z.pos (digits2_pos m) = 53).
    { destruct (Z.lt_trichotomy (Z.pos (digits2_pos m)) 53) as [Hlt|[|Hgt]]; [|done|lia].
      assert (2 ^ Z.pos (digits2_pos m) <= 2 ^ 52) by (apply Z.pow_le_mono_r; lia).
      lia. }
    rewrite Hd in *. destruct s; cbn [sign_bit]; lia.
Qed.

(** Eight bytes written and read back are the double that was written. *)
Lemma decode_encode d : valid_binary prec emax d = true -> decode (encode d) = d.
Proof.
  intros Hvalid. unfold decode, encode. rewrite le_value_le_bytes.
  rewrite Z.mod_small by (pose proof (bits_range d Hvalid); cbn; lia).
  by apply of_bits_bits.
Qed.

End EncodingFacts.

(** ** Reading what was written *)

Lemma pending_moved fd bytes rest :
  pending fd (bytes ++ rest) -> pending (moved fd (Z.of_nat (length bytes))) rest.
Proof.
  intros [Hpos Hrem]. split; [unfold moved; cbn [f_pos]; lia|].
  unfold remaining, moved in *. cbn [f_pos f_data].
  rewrite Z2Nat.inj_add, Nat2Z.id, <- drop_drop, Hrem by lia.
  apply drop_app_length.
Qed.

Lemma pending_holds fd bytes rest :
  (0 < length bytes)%nat ->
  pending fd (bytes ++ rest) -> holds fd (Z.of_nat (length bytes)).
Proof.
  intros Hlen [Hpos Hrem]. split; [done|].
  apply (f_equal length) in Hrem. unfold remaining in Hrem.
  rewrite length_drop, length_app in Hrem. lia.
Qed.

Lemma fread_double_written old fd d rest :
  pending fd (fwrite_double d ++ rest) ->
  valid_double d = true ->
  fread_double old fd = (d, moved fd 8) /\ pending (moved fd 8) rest.
Proof.
  intros Hfd Hd.
  assert (Hholds : holds fd (Z.of_nat (length (fwrite_double d))))
    by (apply (pending_holds _ _ rest); [rewrite fwrite_double_length; lia|done]).
  pose proof (pending_moved _ _ _ Hfd) as Hnext.
  rewrite (fwrite_double_length d) in *. split; [|done].
  rewrite fread_double_holds by done. f_equal.
  destruct Hfd as [_ Hrem]. unfold double_at. unfold remaining in Hrem. rewrite Hrem.
  rewrite take_app_length' by (symmetry; apply fwrite_double_length).
  by apply EncodingFacts.decode_encode.
Qed.

Lemma fread_member_written get set i ps fd d rest :
  pending fd (fwrite_double d ++ rest) ->
  valid_double d = true ->
  fread_member get set i ps fd = (alter (set d) i ps, moved fd 8)
  /\ pending (moved fd 8) rest.
Proof.
  intros Hfd Hd. unfold fread_member.
  destruct (fread_double_written (get (ps !!! i)) fd d rest Hfd Hd) as [-> Hnext].
  done.
Qed.

Lemma valid_particle_fields p :
  valid_particle p = true ->
  valid_double (p_m p) = true /\ valid_double (p_x p) = true
  /\ valid_double (p_y p) = true /\ valid_double (p_z p) = true
  /\ valid_double (p_vx p) = true /\ valid_double (p_vy p) = true
  /\ valid_double (p_vz p) = true.
Proof. unfold valid_particle. rewrite !andb_true_iff. tauto. Qed.

Lemma fread_coordinates_written i ps fd p rest :
  pending fd (fwrite_double (p_x p) ++ fwrite_double (p_y p) ++ fwrite_double (p_z p)
              ++ fwrite_double (p_vx p) ++ fwrite_double (p_vy p)
              ++ fwrite_double (p_vz p) ++ rest) ->
  valid_particle p = true ->
  fread_coordinates i ps fd = (alter (with_coordinates p) i ps, moved fd 48)
  /\ pending (moved fd 48) rest.
Proof.
  intros Hfd (_ & Hx & Hy & Hz & Hvx & Hvy & Hvz)%valid_particle_fields.
  unfold fread_coordinates.
  destruct (fread_member_written p_x set_x i ps _ _ _ Hfd Hx) as [-> Hfd1].
  destruct (fread_member_written p_y set_y i (alter (set_x (p_x p)) i ps) _ _ _ Hfd1 Hy)
    as [-> Hfd2].
  destruct (fread_member_written p_z set_z i
              (alter (set_y (p_y p)) i (alter (set_x (p_x p)) i ps)) _ _ _ Hfd2 Hz)
    as [-> Hfd3].
  match goal with |- context [fread_member p_vx set_vx i ?l ?f] =>
    destruct (fread_member_written p_vx set_vx i l _ _ _ Hfd3 Hvx) as [-> Hfd4] end.
  match goal with |- context [fread_member p_vy set_vy i ?l ?f] =>
    destruct (fread_member_written p_vy set_vy i l _ _ _ Hfd4 Hvy) as [-> Hfd5] end.
  match goal with |- context [fread_member p_vz set_vz i ?l ?f] =>
    destruct (fread_member_written p_vz set_vz i l _ _ _ Hfd5 Hvz) as [-> Hfd6] end.
  rewrite !moved_moved in *. split; [|done]. f_equal.
  rewrite !list_alter_alter_eq. apply list_alter_ext; [|done].
  by intros [] _.
Qed.

(** One turn of the WHFAST loop on the bytes of one particle. *)
Lemma whfast_fread_particle_written jacobi parts_w ps_w parts pj fd i rest :
  pending fd (fwrite_particle parts_w ps_w i ++ rest) ->
  valid_particle (written_particle parts_w ps_w i) = true ->
  whfast_fread_particle jacobi (parts, pj, fd) i
  = (if jacobi
     then (alter (set_m (p_m (parts_w !!! i))) i parts,
           alter (with_coordinates (written_particle parts_w ps_w i)) i pj, moved fd 56)
     else (alter (fun _ => written_particle parts_w ps_w i) i parts, pj, moved fd 56))
  /\ pending (moved fd 56) rest.
Proof.
  intros Hfd Hvalid. unfold fwrite_particle in Hfd. rewrite <- !app_assoc in Hfd.
  pose proof (valid_particle_fields _ Hvalid) as (Hm & _).
  unfold whfast_fread_particle.
  destruct (fread_member_written p_m set_m i parts _ _ _ Hfd Hm) as [-> Hfd1].
  destruct jacobi.
  - destruct (fread_coordinates_written i pj _ (written_particle parts_w ps_w i) rest
                Hfd1 Hvalid) as [-> Hfd2].
    by rewrite moved_moved in *.
  - destruct (fread_coordinates_written i (alter (set_m (p_m (parts_w !!! i))) i parts) _
                (written_particle parts_w ps_w i) rest Hfd1 Hvalid) as [-> Hfd2].
    rewrite moved_moved in *. split; [|done]. f_equal. f_equal.
    rewrite list_alter_alter_eq. by apply list_alter_ext.
Qed.

(** The WHFAST loop on the bytes of the particles [a .. a + n - 1]. *)
Lemma whfast_loop_written jacobi parts_w ps_w n a parts pj fd rest :
  pending fd (flat_map (fwrite_particle parts_w ps_w) (seq a n) ++ rest) ->
  (forall i, (a <= i < a + n)%nat ->
     valid_particle (written_particle parts_w ps_w i) = true) ->
  let st := fold_left (whfast_fread_particle jacobi) (seq a n) (parts, pj, fd) in
  pending st.2 rest
  /\ length st.1.1 = length parts
  /\ length st.1.2 = length pj
  /\ (forall i,
        st.1.1 !!! i
        = if decide ((a <= i < a + n)%nat /\ (i < length parts)%nat)
          then (if jacobi then set_m (p_m (parts_w !!! i)) (parts !!! i)
                else written_particle parts_w ps_w i)
          else parts !!! i)
  /\ (forall i,
        st.1.2 !!! i
        = if decide (jacobi = true /\ (a <= i < a + n)%nat /\ (i < length pj)%nat)
          then with_coordinates (written_particle parts_w ps_w i) (pj !!! i)
          else pj !!! i).
Proof.
  revert a parts pj fd. induction n as [|n IH]; intros a parts pj fd Hfd Hvalid st; subst st.
  - cbn [seq fold_left fst snd flat_map app] in *.
    split; [exact Hfd|]. split; [done|]. split; [done|].
    split; intros i; case_decide; try done; lia.
  - cbn [seq fold_left flat_map] in *. rewrite <- app_assoc in Hfd.
    destruct (whfast_fread_particle_written jacobi parts_w ps_w parts pj fd a _ Hfd)
      as [-> Hfd1]; [apply Hvalid; lia|].
    destruct jacobi.
    + destruct (IH (S a) (alter (set_m (p_m (parts_w !!! a))) a parts)
                  (alter (with_coordinates (written_particle parts_w ps_w a)) a pj)
                  (moved fd 56) Hfd1) as (Hrest & Hl1 & Hl2 & Hparts & Hpj).
      { intros i Hi. apply Hvalid. lia. }
      rewrite length_alter in *.
      split; [exact Hrest|]. split; [done|]. split; [done|]. split.
      * intros i. rewrite Hparts, list_lookup_total_alter.
        repeat case_decide; destruct_and?; simplify_eq; first [done | lia].
      * intros i. rewrite Hpj, list_lookup_total_alter.
        repeat case_decide; destruct_and?; simplify_eq; first [done | lia].
    + destruct (IH (S a) (alter (fun _ => written_particle parts_w ps_w a) a parts)
                  pj (moved fd 56) Hfd1) as (Hrest & Hl1 & Hl2 & Hparts & Hpj).
      { intros i Hi. apply Hvalid. lia. }
      rewrite length_alter in *.
      split; [exact Hrest|]. split; [done|]. split; [done|]. split.
      * intros i. rewrite Hparts, list_lookup_total_alter.
        repeat case_decide; destruct_and?; simplify_eq; first [done | lia].
      * intros i. rewrite Hpj. repeat case_decide; destruct_and?; simplify_eq; done.
Qed.

Lemma with_coordinates_self p : with_coordinates p p = p.
Proof. by destruct p. Qed.

(** The Jacobi particles after the masses are recalculated. *)
Lemma jacobi_mass_loop_particles parts k eta0 pj0 :
  let st := fold_left (jacobi_mass_step parts) (seq 1 k)
              (eta0, alter (set_m (p_m (parts !!! 0%nat))) 0%nat pj0) in
  length st.2 = length pj0
  /\ forall i, st.2 !!! i
       = if decide ((i <= k)%nat /\ (i < length pj0)%nat)
         then set_m (p_m (parts !!! i)) (pj0 !!! i) else pj0 !!! i.
Proof.
  induction k as [|k IH]; intros st; subst st.
  - cbn [seq fold_left snd]. rewrite length_alter. split; [done|].
    intros i. rewrite list_lookup_total_alter.
    repeat case_decide; destruct_and?; simplify_eq; first [done | lia].
  - rewrite seq_S, fold_left_app. cbn [fold_left Nat.add].
    destruct IH as [Hlen Hpj].
    destruct (fold_left _ (seq 1 k) _) as [eta1 pj1]. cbn [fst snd] in *.
    unfold jacobi_mass_step. cbn [fst snd].
    rewrite length_alter. split; [done|].
    intros i. rewrite list_lookup_total_alter, !Hpj, Hlen.
    repeat case_decide; destruct_and?; simplify_eq; first [done | lia].
Qed.

Section RoundTrip.

Context `{FullStateFormat}.

(** The loader on the bytes of a WHFAST record, safe mode on at both
    ends: time, wall-clock time and the particles come back as they were
    written. *)
Lemma read_blob_whfast_written fuel time_now rw r fd rest next' :
  integrator rw = REB_INTEGRATOR_WHFAST ->
  integrator r = REB_INTEGRATOR_WHFAST ->
  safe_mode (ri_whfast rw) <> 0 ->
  safe_mode (ri_whfast r) <> 0 ->
  0 <= sim_N rw ->
  sim_N r = sim_N rw ->
  pending fd ((heartbeat_record rw).2 ++ rest) ->
  valid_double (sim_t rw) = true ->
  valid_double (simulationarchive_walltime rw) = true ->
  (forall i, (i < Z.to_nat (sim_N rw))%nat -> valid_particle (particles rw !!! i) = true) ->
  catch_up fuel (simulationarchive_next r) (sim_t rw) (simulationarchive_interval r)
  = Some next' ->
  exists r' fd',
    read_blob fuel time_now r fd = Some (r', fd')
    /\ pending fd' rest
    /\ sim_t r' = sim_t rw
    /\ simulationarchive_walltime r' = simulationarchive_walltime rw
    /\ simulationarchive_next r' = next'
    /\ ri_whfast r' = ri_whfast r
    /\ length (particles r') = length (particles r)
    /\ forall i, particles r' !!! i
         = if decide ((i < Z.to_nat (sim_N rw))%nat /\ (i < length (particles r))%nat)
           then particles rw !!! i else particles r !!! i.
Proof.
  intros Hkw Hk Hsw Hs HN HNr Hfd Ht Hwall Hparts Hcatch.
  unfold heartbeat_record in Hfd. rewrite Hkw in Hfd. cbn [snd] in Hfd.
  rewrite <- !app_assoc in Hfd.
  unfold read_blob.
  destruct (fread_double_written (sim_t r) fd _ _ Hfd Ht) as [-> Hfd1].
  cbn [simulationarchive_walltime set_sim_t].
  destruct (fread_double_written (simulationarchive_walltime r) _ _ _ Hfd1 Hwall)
    as [-> Hfd2].
  cbn [simulationarchive_next simulationarchive_interval sim_t integrator
       set_simulationarchive_time set_simulationarchive_walltime set_sim_t].
  rewrite Hcatch.
  cbn [integrator set_simulationarchive_next set_simulationarchive_time
       set_simulationarchive_walltime set_sim_t].
  rewrite Hk. rewrite moved_moved in *.
  unfold load_whfast.
  cbn [ri_whfast particles sim_N set_simulationarchive_next particle_indices
       set_simulationarchive_time set_simulationarchive_walltime set_sim_t].
  unfold whfast_payload in Hfd2.
  destruct (Z.eqb_spec (safe_mode (ri_whfast rw)) 0) as [|_]; [done|].
  destruct (Z.eqb_spec (safe_mode (ri_whfast r)) 0) as [|_]; [done|].
  unfold particle_indices in *.
  cbn [ri_whfast particles sim_N set_simulationarchive_next
       set_simulationarchive_time set_simulationarchive_walltime set_sim_t].
  rewrite HNr.
  pose proof (whfast_loop_written false (particles rw) (particles rw)
                (Z.to_nat (sim_N rw)) 0 (particles r) (p_j (ri_whfast r)) _ rest Hfd2)
    as Hloop.
  destruct (fold_left _ (seq 0 (Z.to_nat (sim_N rw))) _) as [[parts pj] fd'].
  cbn [fst snd] in Hloop.
  destruct Hloop as (Hrest & Hl1 & Hl2 & Hp & Hpj).
  { intros i Hi. unfold written_particle. rewrite with_coordinates_self.
    apply Hparts. lia. }
  eexists _, _. split; [reflexivity|].
  cbn [sim_t simulationarchive_walltime simulationarchive_next ri_whfast particles
       set_ri_whfast set_particles set_simulationarchive_next
       set_simulationarchive_time set_simulationarchive_walltime set_sim_t].
  split; [exact Hrest|]. repeat split; try done.
  - destruct (ri_whfast r) as [sm sy al pj0 eta0]. cbn in *. f_equal.
    apply list_eq_same_length with (length pj0); [done..|].
    intros i x y Hi Hx Hy.
    pose proof (Hpj i) as Hi'. rewrite decide_False in Hi' by (intros [? _]; done).
    rewrite !list_lookup_total_alt, Hx, Hy in Hi'. done.
  - intros i. rewrite Hp. unfold written_particle.
    rewrite with_coordinates_self.
    repeat case_decide; destruct_and?; first [done | lia].
Qed.

Lemma whfast_realloc_lengths N w :
  0 <= N ->
  allocated_N w <= Z.of_nat (length (p_j w)) ->
  allocated_N w <= Z.of_nat (length (eta w)) ->
  N <= Z.of_nat (length (p_j (whfast_realloc N w)))
  /\ N <= Z.of_nat (length (eta (whfast_realloc N w))).
Proof.
  intros HN Hpj Heta. unfold whfast_realloc.
  destruct (Z.ltb_spec (allocated_N w) N); cbn [p_j eta]; [|lia].
  rewrite !length_replicate. lia.
Qed.

(** The same with safe mode off at both ends: the masses come back in
    [r->particles], the Jacobi coordinates in [r->ri_whfast.p_j] with the
    masses copied in, and [eta] holds the running sums. *)
Lemma read_blob_jacobi_written fuel time_now rw r fd rest next' :
  integrator rw = REB_INTEGRATOR_WHFAST ->
  integrator r = REB_INTEGRATOR_WHFAST ->
  safe_mode (ri_whfast rw) = 0 ->
  safe_mode (ri_whfast r) = 0 ->
  1 <= sim_N rw <= C.INT_MAX ->
  sim_N r = sim_N rw ->
  (Z.to_nat (sim_N rw) <= length (particles r))%nat ->
  allocated_N (ri_whfast r) <= Z.of_nat (length (p_j (ri_whfast r))) ->
  allocated_N (ri_whfast r) <= Z.of_nat (length (eta (ri_whfast r))) ->
  pending fd ((heartbeat_record rw).2 ++ rest) ->
  valid_double (sim_t rw) = true ->
  valid_double (simulationarchive_walltime rw) = true ->
  (forall i, (i < Z.to_nat (sim_N rw))%nat ->
     valid_particle (written_particle (particles rw) (p_j (ri_whfast rw)) i) = true) ->
  catch_up fuel (simulationarchive_next r) (sim_t rw) (simulationarchive_interval r)
  = Some next' ->
  exists r' fd',
    read_blob fuel time_now r fd = Some (r', fd')
    /\ pending fd' rest
    /\ sim_t r' = sim_t rw
    /\ simulationarchive_walltime r' = simulationarchive_walltime rw
    /\ simulationarchive_next r' = next'
    /\ is_synchronized (ri_whfast r') = 0
    /\ forall i, (i < Z.to_nat (sim_N rw))%nat ->
         particles r' !!! i = set_m (p_m (particles rw !!! i)) (particles r !!! i)
         /\ p_j (ri_whfast r') !!! i
            = written_particle (particles rw) (p_j (ri_whfast rw)) i.
Proof.
  intros Hkw Hk Hsw Hs HN HNr Hlen Hapj Haeta Hfd Ht Hwall Hparts Hcatch.
  unfold heartbeat_record in Hfd. rewrite Hkw in Hfd. cbn [snd] in Hfd.
  rewrite <- !app_assoc in Hfd.
  unfold read_blob.
  destruct (fread_double_written (sim_t r) fd _ _ Hfd Ht) as [-> Hfd1].
  cbn [simulationarchive_walltime set_sim_t].
  destruct (fread_double_written (simulationarchive_walltime r) _ _ _ Hfd1 Hwall)
    as [-> Hfd2].
  cbn [simulationarchive_next simulationarchive_interval sim_t integrator
       set_simulationarchive_time set_simulationarchive_walltime set_sim_t].
  rewrite Hcatch.
  cbn [integrator set_simulationarchive_next set_simulationarchive_time
       set_simulationarchive_walltime set_sim_t].
  rewrite Hk. rewrite moved_moved in *.
  unfold load_whfast.
  cbn [ri_whfast particles sim_N set_simulationarchive_next particle_indices
       set_simulationarchive_time set_simulationarchive_walltime set_sim_t].
  unfold whfast_payload in Hfd2. rewrite Hsw in Hfd2. rewrite Hs. cbn [Z.eqb] in *.
  unfold particle_indices in *.
  cbn [ri_whfast particles sim_N set_simulationarchive_next
       set_simulationarchive_time set_simulationarchive_walltime set_sim_t].
  rewrite HNr.
  destruct (whfast_realloc_lengths (sim_N rw) (ri_whfast r)) as [Hwpj Hweta];
    [lia|done..|].
  set (w := whfast_realloc (sim_N rw) (ri_whfast r)) in *.
  pose proof (whfast_loop_written true (particles rw) (p_j (ri_whfast rw))
                (Z.to_nat (sim_N rw)) 0 (particles r) (p_j w) _ rest Hfd2)
    as Hloop.
  destruct (fold_left _ (seq 0 (Z.to_nat (sim_N rw))) _) as [[parts pj] fd'].
  cbn [fst snd] in Hloop.
  destruct Hloop as (Hrest & Hl1 & Hl2 & Hp & Hpj).
  { intros i Hi. apply Hparts. lia. }
  unfold recalculate_jacobi_masses. rewrite CFacts.to_uint_id by lia.
  pose proof (jacobi_mass_loop_particles parts (Z.to_nat (sim_N rw) - 1)
                (<[0%nat := p_m (parts !!! 0%nat)]> (eta w)) pj) as Hmass.
  destruct (fold_left (jacobi_mass_step parts) _ _) as [eta' pj'].
  cbn [fst snd] in Hmass. destruct Hmass as [Hl3 Hpj'].
  eexists _, _. split; [reflexivity|].
  cbn [sim_t simulationarchive_walltime simulationarchive_next ri_whfast particles
       set_ri_whfast set_particles set_simulationarchive_next is_synchronized p_j
       set_simulationarchive_time set_simulationarchive_walltime set_sim_t].
  split; [exact Hrest|]. repeat split; try done.
  - rewrite Hp, decide_True by lia. done.
  - rewrite Hpj', decide_True by lia.
    rewrite Hp, Hpj, !decide_True by (repeat split; lia).
    unfold written_particle, with_coordinates, set_m. cbn. done.
Qed.

End RoundTrip.

Section WrittenThenLoaded.

Context `{FullStateFormat}.

(** What a due heartbeat leaves in the file. *)
Lemma heartbeat_due_file time_now r fs :
  Double.eqb (sim_t r) Double.zero = false ->
  due r = true ->
  supported (integrator r) = true ->
  let st := reb_simulationarchive_heartbeat time_now r fs in
  st.2 !! simulationarchive_filename r
  = Some (default [] (fs !! simulationarchive_filename r) ++ (heartbeat_record st.1).2)
  /\ sim_t st.1 = sim_t r /\ sim_N st.1 = sim_N r /\ integrator st.1 = integrator r
  /\ particles st.1 = particles r /\ ri_whfast st.1 = ri_whfast r
  /\ ri_ias15 st.1 = ri_ias15 r /\ sim_dt st.1 = sim_dt r
  /\ sim_dt_last_done st.1 = sim_dt_last_done r.
Proof.
  intros Ht Hd Hs st. subst st. rewrite (heartbeat_due _ _ _ Ht Hd). cbn zeta.
  rewrite heartbeat_record_supported by done. cbn [fst snd].
  unfold fs_append. by rewrite lookup_insert_eq.
Qed.

(** Seeking to a record that is where the index says it is. *)
Lemma seek_blob_written r old record rest blob :
  Z.of_nat (length record) = simulationarchive_seek_blob r ->
  (blob < 0 /\ rest = [])
  \/ (1 <= blob
      /\ Z.of_nat (length old)
         = simulationarchive_seek_first r + (blob - 1) * simulationarchive_seek_blob r) ->
  exists fd,
    seek_blob r (fopen_read (old ++ record ++ rest)) blob = (0, fd)
    /\ pending fd (record ++ rest).
Proof.
  intros Hsize Hblob.
  assert (Htarget : record_offset (simulationarchive_seek_first r)
                      (simulationarchive_seek_blob r)
                      (Z.of_nat (length (old ++ record ++ rest))) blob
                    = Z.of_nat (length old)).
  { unfold record_offset. rewrite !length_app.
    destruct Hblob as [[Hneg ->]|[Hpos Hold]].
    - destruct (Z.ltb_spec blob 0); [|lia]. cbn [length]. lia.
    - destruct (Z.ltb_spec blob 0); lia. }
  eexists. split.
  - apply seek_blob_offset. rewrite Htarget. lia.
  - rewrite Htarget. split; [cbn; lia|].
    unfold remaining. cbn [f_pos f_data]. rewrite Nat2Z.id. apply drop_app_length.
Qed.

End WrittenThenLoaded.

Lemma valid_particles_lookup parts ps n i :
  valid_particles parts ps n = true ->
  (i < n)%nat ->
  valid_particle (written_particle parts ps i) = true.
Proof.
  unfold valid_particles. rewrite forallb_forall. intros Hall Hi.
  apply Hall, in_seq. lia.
Qed.

Section RecordRoundTrip.

Context `{FullStateFormat}.

(** X1.  A WHFAST record written by a due heartbeat with safe mode on and
    loaded again into a simulation with the same particle count and safe
    mode on gives back the time, the wall-clock time and every particle
    exactly as they were written.  The record is loaded as the latest one
    as long as nothing was appended after it, and by the index at which
    it was written whatever was appended since. *)
Theorem whfast_record_round_trip fuel time_now time_load r fs fs2 later r2 blob next' :
  Double.eqb (sim_t r) Double.zero = false ->
  due r = true ->
  integrator r = REB_INTEGRATOR_WHFAST ->
  safe_mode (ri_whfast r) <> 0 ->
  0 <= sim_N r ->
  let st := reb_simulationarchive_heartbeat time_now r fs in
  let old := default [] (fs !! simulationarchive_filename r) in
  valid_double (sim_t r) = true ->
  valid_double (simulationarchive_walltime st.1) = true ->
  valid_particles (particles r) (particles r) (Z.to_nat (sim_N r)) = true ->
  integrator r2 = REB_INTEGRATOR_WHFAST ->
  safe_mode (ri_whfast r2) <> 0 ->
  sim_N r2 = sim_N r ->
  simulationarchive_seek_blob r2 = recordSize REB_INTEGRATOR_WHFAST (sim_N r) ->
  fs2 !! simulationarchive_filename r
  = Some (default [] (st.2 !! simulationarchive_filename r) ++ later) ->
  (blob < 0 /\ later = [])
  \/ (1 <= blob
      /\ Z.of_nat (length old)
         = simulationarchive_seek_first r2 + (blob - 1) * simulationarchive_seek_blob r2) ->
  catch_up fuel (simulationarchive_next r2) (sim_t r) (simulationarchive_interval r2)
  = Some next' ->
  exists r',
    reb_simulationarchive_load_blob fuel time_load fs2 (Some r2)
      (simulationarchive_filename r) blob = Some (0, Some r')
    /\ sim_t r' = sim_t r
    /\ simulationarchive_walltime r' = simulationarchive_walltime st.1
    /\ simulationarchive_next r' = next'
    /\ length (particles r') = length (particles r2)
    /\ forall i, (i < Z.to_nat (sim_N r))%nat -> (i < length (particles r2))%nat ->
         particles r' !!! i = particles r !!! i.
Proof.
  intros Ht Hd Hk Hs HN st old Hvt Hvw Hvp Hk2 Hs2 HN2 Hblob2 Hfs2 Hblob Hcatch.
  destruct (heartbeat_due_file time_now r fs Ht Hd) as
    (Hfile & Ht1 & HN1 & Hk1 & Hp1 & Hw1 & _); [by rewrite Hk|].
  fold st in Hfile, Ht1, HN1, Hk1, Hp1, Hw1. fold old in Hfile.
  rewrite Hfile in Hfs2. cbv [default from_option id] in Hfs2.
  rewrite <- app_assoc in Hfs2.
  rewrite (load_blob_record _ _ _ _ _ _ _ Hfs2) by lia.
  destruct (seek_blob_written r2 old (heartbeat_record st.1).2 later blob)
    as (fd & Hseek & Hfd).
  { rewrite Hblob2. unfold heartbeat_record. rewrite Hk1, Hk. cbn [snd recordSize].
    rewrite !length_app, !fwrite_double_length, whfast_payload_length, HN1. lia. }
  { destruct Hblob as [|[]]; [by left|by right]. }
  rewrite Hseek. cbn [fst snd Z.eqb].
  destruct (read_blob_whfast_written fuel time_load st.1 r2 fd later next')
    as (r' & fd' & -> & _ & Htr & Hwr & Hnr & _ & Hlen & Hparts); try done.
  - by rewrite Hk1, Hk.
  - by rewrite Hw1.
  - by rewrite HN1.
  - by rewrite HN1.
  - by rewrite Ht1.
  - intros i Hi. rewrite Hp1, HN1 in *.
    pose proof (valid_particles_lookup _ _ _ i Hvp Hi) as Hv.
    unfold written_particle in Hv. by rewrite with_coordinates_self in Hv.
  - by rewrite Ht1.
  - exists r'. split; [done|]. rewrite Htr, Ht1. repeat split; try done.
    intros i Hi Hi2. rewrite Hparts, HN1, Hp1. by rewrite decide_True.
Qed.

(** X2.  The same with safe mode off at both ends: the masses come back
    in [r->particles], whose other members are left alone; the Jacobi
    coordinates come back in [r->ri_whfast.p_j], with the masses copied
    in; and the simulation is marked as not synchronized. *)
Theorem jacobi_record_round_trip fuel time_now time_load r fs fs2 later r2 blob next' :
  Double.eqb (sim_t r) Double.zero = false ->
  due r = true ->
  integrator r = REB_INTEGRATOR_WHFAST ->
  safe_mode (ri_whfast r) = 0 ->
  1 <= sim_N r <= C.INT_MAX ->
  let st := reb_simulationarchive_heartbeat time_now r fs in
  let old := default [] (fs !! simulationarchive_filename r) in
  valid_double (sim_t r) = true ->
  valid_double (simulationarchive_walltime st.1) = true ->
  valid_particles (particles r) (p_j (ri_whfast r)) (Z.to_nat (sim_N r)) = true ->
  integrator r2 = REB_INTEGRATOR_WHFAST ->
  safe_mode (ri_whfast r2) = 0 ->
  sim_N r2 = sim_N r ->
  (Z.to_nat (sim_N r) <= length (particles r2))%nat ->
  allocated_N (ri_whfast r2) <= Z.of_nat (length (p_j (ri_whfast r2))) ->
  allocated_N (ri_whfast r2) <= Z.of_nat (length (eta (ri_whfast r2))) ->
  simulationarchive_seek_blob r2 = recordSize REB_INTEGRATOR_WHFAST (sim_N r) ->
  fs2 !! simulationarchive_filename r
  = Some (default [] (st.2 !! simulationarchive_filename r) ++ later) ->
  (blob < 0 /\ later = [])
  \/ (1 <= blob
      /\ Z.of_nat (length old)
         = simulationarchive_seek_first r2 + (blob - 1) * simulationarchive_seek_blob r2) ->
  catch_up fuel (simulationarchive_next r2) (sim_t r) (simulationarchive_interval r2)
  = Some next' ->
  exists r',
    reb_simulationarchive_load_blob fuel time_load fs2 (Some r2)
      (simulationarchive_filename r) blob = Some (0, Some r')
    /\ sim_t r' = sim_t r
    /\ simulationarchive_walltime r' = simulationarchive_walltime st.1
    /\ simulationarchive_next r' = next'
    /\ is_synchronized (ri_whfast r') = 0
    /\ forall i, (i < Z.to_nat (sim_N r))%nat ->
         particles r' !!! i = set_m (p_m (particles r !!! i)) (particles r2 !!! i)
         /\ p_j (ri_whfast r') !!! i
            = written_particle (particles r) (p_j (ri_whfast r)) i.
Proof.
  intros Ht Hd Hk Hs HN st old Hvt Hvw Hvp Hk2 Hs2 HN2 Hlen2 Hapj Haeta Hblob2 Hfs2 Hblob
    Hcatch.
  destruct (heartbeat_due_file time_now r fs Ht Hd) as
    (Hfile & Ht1 & HN1 & Hk1 & Hp1 & Hw1 & _); [by rewrite Hk|].
  fold st in Hfile, Ht1, HN1, Hk1, Hp1, Hw1. fold old in Hfile.
  rewrite Hfile in Hfs2. cbv [default from_option id] in Hfs2.
  rewrite <- app_assoc in Hfs2.
  rewrite (load_blob_record _ _ _ _ _ _ _ Hfs2) by lia.
  destruct (seek_blob_written r2 old (heartbeat_record st.1).2 later blob)
    as (fd & Hseek & Hfd).
  { rewrite Hblob2. unfold heartbeat_record. rewrite Hk1, Hk. cbn [snd recordSize].
    rewrite !length_app, !fwrite_double_length, whfast_payload_length, HN1. lia. }
  { destruct Hblob as [|[]]; [by left|by right]. }
  rewrite Hseek. cbn [fst snd Z.eqb].
  destruct (read_blob_jacobi_written fuel time_load st.1 r2 fd later next')
    as (r' & fd' & -> & _ & Htr & Hwr & Hnr & Hsync & Hparts); try done.
  - by rewrite Hk1, Hk.
  - by rewrite Hw1.
  - by rewrite HN1.
  - by rewrite HN1.
  - by rewrite HN1.
  - by rewrite Ht1.
  - intros i Hi. rewrite Hp1, Hw1, HN1 in *. by apply valid_particles_lookup with (n := Z.to_nat (sim_N r)).
  - by rewrite Ht1.
  - exists r'. split; [done|]. rewrite Htr, Ht1. repeat split; try done.
    + rewrite HN1, Hp1 in Hparts. by apply Hparts.
    + rewrite HN1, Hp1, Hw1 in Hparts. by apply Hparts.
Qed.

End RecordRoundTrip.

Lemma whfast_record_round_trip_witness :
  let r := Sample.running Sample.whfast3 in
  let st := reb_simulationarchive_heartbeat (H := Sample.plain) (Sample.at_second 103) r
              (Sample.first_beat Sample.whfast3).2 in
  exists r',
    reb_simulationarchive_load_blob (H := Sample.plain) 10 (Sample.at_second 200) st.2
      (Some (Sample.first_beat Sample.whfast3).1) "archive.bin" (-1) = Some (0, Some r')
    /\ sim_t r' = Double.make 7 (-1)
    /\ simulationarchive_next r' = Double.of_Z 4
    /\ particles r' !!! 2%nat = Sample.particle 3.
Proof.
  intros r st.
  destruct (whfast_record_round_trip (H := Sample.plain) 10 (Sample.at_second 103)
              (Sample.at_second 200) r (Sample.first_beat Sample.whfast3).2 st.2 []
              (Sample.first_beat Sample.whfast3).1 (-1) (Double.of_Z 4))
    as (r' & Hload & Ht & _ & Hnext & _ & Hparts).
  - vm_compute. reflexivity.
  - vm_compute. reflexivity.
  - reflexivity.
  - vm_compute. discriminate.
  - vm_compute. discriminate.
  - vm_compute. reflexivity.
  - vm_compute. reflexivity.
  - vm_compute. reflexivity.
  - reflexivity.
  - vm_compute. discriminate.
  - reflexivity.
  - vm_compute. reflexivity.
  - vm_compute. reflexivity.
  - left. split; [lia|reflexivity].
  - vm_compute. reflexivity.
  - exists r'. split; [exact Hload|]. split; [exact Ht|]. split; [exact Hnext|].
    rewrite (Hparts 2%nat); [vm_compute; reflexivity|vm_compute; lia..].
Defined.

Lemma jacobi_record_round_trip_witness :
  let r := Sample.running Sample.jacobi2 in
  let st := reb_simulationarchive_heartbeat (H := Sample.plain) (Sample.at_second 103) r
              (Sample.first_beat Sample.jacobi2).2 in
  let fs2 := fs_append st.2 "archive.bin" Sample.stub in
  exists r',
    reb_simulationarchive_load_blob (H := Sample.plain) 10 (Sample.at_second 200) fs2
      (Some (Sample.first_beat Sample.jacobi2).1) "archive.bin" 1 = Some (0, Some r')
    /\ sim_t r' = Double.make 7 (-1)
    /\ is_synchronized (ri_whfast r') = 0
    /\ p_m (p_j (ri_whfast r') !!! 1%nat) = Double.of_Z 2.
Proof.
  intros r st fs2.
  destruct (jacobi_record_round_trip (H := Sample.plain) 10 (Sample.at_second 103)
              (Sample.at_second 200) r (Sample.first_beat Sample.jacobi2).2 fs2 Sample.stub
              (Sample.first_beat Sample.jacobi2).1 1 (Double.of_Z 4))
    as (r' & Hload & Ht & _ & _ & Hsync & Hparts).
  - vm_compute. reflexivity.
  - vm_compute. reflexivity.
  - reflexivity.
  - reflexivity.
  - vm_compute. split; discriminate.
  - vm_compute. reflexivity.
  - vm_compute. reflexivity.
  - vm_compute. reflexivity.
  - reflexivity.
  - reflexivity.
  - reflexivity.
  - vm_compute. lia.
  - vm_compute. discriminate.
  - vm_compute. discriminate.
  - vm_compute. reflexivity.
  - vm_compute. reflexivity.
  - right. split; [lia|]. vm_compute. reflexivity.
  - vm_compute. reflexivity.
  - exists r'. split; [exact Hload|]. split; [exact Ht|]. split; [exact Hsync|].
    destruct (Hparts 1%nat) as [_ ->]; [vm_compute; lia|]. vm_compute. reflexivity.
Defined.

(** ** The IAS15 record *)

(** [fread] of the doubles [s .. s + n - 1] of an array. *)
Lemma fread_doubles_loop_written (a_w : list double) n s (b : list double) fd rest :
  pending fd (flat_map (fun k => fwrite_double (a_w !!! k)) (seq s n) ++ rest) ->
  (forall k, (s <= k < s + n)%nat -> valid_double (a_w !!! k) = true) ->
  let st := fold_left
              (fun st k =>
                 let '(v, fd') := fread_double (st.1 !!! k) st.2 in (<[k := v]> st.1, fd'))
              (seq s n) (b, fd) in
  pending st.2 rest
  /\ length st.1 = length b
  /\ forall k, st.1 !!! k
       = if decide ((s <= k < s + n)%nat /\ (k < length b)%nat) then a_w !!! k else b !!! k.
Proof.
  revert s b fd. induction n as [|n IH]; intros s b fd Hfd Hvalid st; subst st.
  - cbn [seq fold_left fst snd flat_map app] in *.
    split; [exact Hfd|]. split; [done|].
    intros k. case_decide; [lia|done].
  - cbn [seq fold_left flat_map fst snd] in *. rewrite <- app_assoc in Hfd.
    destruct (fread_double_written (b !!! s) fd _ _ Hfd) as [-> Hfd1]; [apply Hvalid; lia|].
    destruct (IH (S s) (<[s := a_w !!! s]> b) (moved fd 8) Hfd1) as (Hrest & Hlen & Hk).
    { intros k Hk. apply Hvalid. lia. }
    rewrite length_insert in *.
    split; [exact Hrest|]. split; [done|].
    intros k. rewrite Hk, list_lookup_total_insert.
    repeat case_decide; destruct_and?; simplify_eq; first [done | lia].
Qed.

Lemma valid_doubles_lookup n a k :
  valid_doubles n a = true -> (k < n)%nat -> valid_double (a !!! k) = true.
Proof.
  unfold valid_doubles. rewrite forallb_forall. intros Hall Hk.
  apply Hall, in_seq. lia.
Qed.

Lemma fread_doubles_written a_w n b fd rest :
  pending fd (fwrite_doubles n a_w ++ rest) ->
  valid_doubles n a_w = true ->
  (n <=? length b)%nat = true ->
  let res := fread_doubles n b fd in
  pending res.2 rest /\ (n <=? length res.1)%nat = true /\ agree n res.1 a_w.
Proof.
  intros Hfd Hvalid Hlen%Nat.leb_le res. subst res. unfold fread_doubles.
  destruct (fread_doubles_loop_written a_w n 0 b fd rest Hfd) as (Hrest & Hl & Hk).
  { intros k Hk. apply (valid_doubles_lookup n); [done|lia]. }
  split; [exact Hrest|]. split; [apply Nat.leb_le; lia|].
  intros k Hkn. rewrite Hk, decide_True; [done|lia].
Qed.

Lemma reb_read_dp7_written d_w d N3 fd rest :
  pending fd (reb_save_dp7 d_w N3 ++ rest) ->
  forallb (valid_doubles (Z.to_nat N3)) (dp7_arrays d_w) = true ->
  allocated (Z.to_nat N3) (dp7_arrays d) = true ->
  let res := reb_read_dp7 d N3 fd in
  pending res.2 rest
  /\ allocated (Z.to_nat N3) (dp7_arrays res.1) = true
  /\ Forall2 (agree (Z.to_nat N3)) (dp7_arrays res.1) (dp7_arrays d_w).
Proof.
  intros Hfd Hvalid Halloc res. subst res.
  unfold reb_save_dp7 in Hfd. cbn zeta in Hfd. rewrite <- !app_assoc in Hfd.
  unfold allocated, dp7_arrays in *. cbn [forallb] in *.
  rewrite !andb_true_iff in Hvalid, Halloc.
  destruct Hvalid as (Hv0 & Hv1 & Hv2 & Hv3 & Hv4 & Hv5 & Hv6 & _).
  destruct Halloc as (Ha0 & Ha1 & Ha2 & Ha3 & Ha4 & Ha5 & Ha6 & _).
  unfold reb_read_dp7. cbn zeta.
  pose proof (fread_doubles_written _ _ _ _ _ Hfd Hv0 Ha0) as (Hfd0 & Hl0 & Hg0).
  destruct (fread_doubles _ (p0 d) fd) as [a0 fd0]. cbn [fst snd] in *.
  pose proof (fread_doubles_written _ _ _ _ _ Hfd0 Hv1 Ha1) as (Hfd1 & Hl1 & Hg1).
  destruct (fread_doubles _ (p1 d) fd0) as [a1 fd1]. cbn [fst snd] in *.
  pose proof (fread_doubles_written _ _ _ _ _ Hfd1 Hv2 Ha2) as (Hfd2 & Hl2 & Hg2).
  destruct (fread_doubles _ (p2 d) fd1) as [a2 fd2]. cbn [fst snd] in *.
  pose proof (fread_doubles_written _ _ _ _ _ Hfd2 Hv3 Ha3) as (Hfd3 & Hl3 & Hg3).
  destruct (fread_doubles _ (p3 d) fd2) as [a3 fd3]. cbn [fst snd] in *.
  pose proof (fread_doubles_written _ _ _ _ _ Hfd3 Hv4 Ha4) as (Hfd4 & Hl4 & Hg4).
  destruct (fread_doubles _ (p4 d) fd3) as [a4 fd4]. cbn [fst snd] in *.
  pose proof (fread_doubles_written _ _ _ _ _ Hfd4 Hv5 Ha5) as (Hfd5 & Hl5 & Hg5).
  destruct (fread_doubles _ (p5 d) fd4) as [a5 fd5]. cbn [fst snd] in *.
  pose proof (fread_doubles_written _ _ _ _ _ Hfd5 Hv6 Ha6) as (Hfd6 & Hl6 & Hg6).
  destruct (fread_doubles _ (p6 d) fd5) as [a6 fd6]. cbn [fst snd p0 p1 p2 p3 p4 p5 p6] in *.
  split; [exact Hfd6|]. split.
  - by rewrite Hl0, Hl1, Hl2, Hl3, Hl4, Hl5, Hl6.
  - repeat constructor; done.
Qed.

(** The IAS15 loop over the particles is the WHFAST loop in inertial
    coordinates. *)
Lemma ias15_loop_whfast l ps pj fd :
  fold_left ias15_fread_particle l (ps, fd)
  = ((fold_left (whfast_fread_particle false) l (ps, pj, fd)).1.1,
     (fold_left (whfast_fread_particle false) l (ps, pj, fd)).2).
Proof.
  revert ps fd. induction l as [|i l IH]; intros ps fd; cbn [fold_left]; [done|].
  assert (Hstep : whfast_fread_particle false (ps, pj, fd) i
                  = ((ias15_fread_particle (ps, fd) i).1, pj,
                     (ias15_fread_particle (ps, fd) i).2)).
  { unfold ias15_fread_particle, whfast_fread_particle. cbn [fst snd].
    destruct (fread_member p_m set_m i ps fd) as [ps1 fd1].
    by destruct (fread_coordinates i ps1 fd1) as [ps2 fd2]. }
  rewrite Hstep, <- IH. by destruct (ias15_fread_particle (ps, fd) i).
Qed.

(** The tables after [reb_integrator_ias15_alloc] have room for [3 N]
    doubles each, when those whose capacity is already [3 N] have. *)
Lemma ias15_alloc_allocated r :
  (ias15_allocatedN (ri_ias15 r) = 3 * sim_N r ->
   allocated (Z.to_nat (3 * sim_N r)) (ias15_arrays (ri_ias15 r)) = true) ->
  let r' := reb_integrator_ias15_alloc r in
  allocated (Z.to_nat (3 * sim_N r)) (ias15_arrays (ri_ias15 r')) = true
  /\ sim_N r' = sim_N r /\ sim_t r' = sim_t r /\ sim_dt r' = sim_dt r
  /\ sim_dt_last_done r' = sim_dt_last_done r /\ particles r' = particles r
  /\ simulationarchive_walltime r' = simulationarchive_walltime r
  /\ simulationarchive_next r' = simulationarchive_next r.
Proof.
  intros Hr r'. subst r'. unfold reb_integrator_ias15_alloc.
  destruct (Z.eqb_spec (ias15_allocatedN (ri_ias15 r)) (3 * sim_N r)) as [Heq|_].
  - by rewrite Hr.
  - split; [|done]. cbn [ri_ias15 set_ri_ias15]. unfold allocated, ias15_arrays, dp7_alloc.
    cbn [dp7_arrays ias15_b ias15_csb ias15_e ias15_br ias15_er ias15_csx ias15_csv
         p0 p1 p2 p3 p4 p5 p6 app forallb].
    rewrite !length_replicate, Nat.leb_refl. done.
Qed.

Section RoundTripIAS15.

Context `{FullStateFormat}.

Lemma read_blob_ias15_written fuel time_now rw r fd rest next' :
  integrator rw = REB_INTEGRATOR_IAS15 ->
  integrator r = REB_INTEGRATOR_IAS15 ->
  0 <= sim_N rw ->
  sim_N rw * 3 <= C.INT_MAX ->
  sim_N r = sim_N rw ->
  (ias15_allocatedN (ri_ias15 r) = 3 * sim_N r ->
   allocated (Z.to_nat (3 * sim_N r)) (ias15_arrays (ri_ias15 r)) = true) ->
  pending fd ((heartbeat_record rw).2 ++ rest) ->
  valid_double (sim_t rw) = true ->
  valid_double (simulationarchive_walltime rw) = true ->
  valid_double (sim_dt rw) = true ->
  valid_double (sim_dt_last_done rw) = true ->
  (forall i, (i < Z.to_nat (sim_N rw))%nat -> valid_particle (particles rw !!! i) = true) ->
  forallb (valid_doubles (Z.to_nat (3 * sim_N rw))) (ias15_arrays (ri_ias15 rw)) = true ->
  catch_up fuel (simulationarchive_next r) (sim_t rw) (simulationarchive_interval r)
  = Some next' ->
  exists r' fd',
    read_blob fuel time_now r fd = Some (r', fd')
    /\ pending fd' rest
    /\ sim_t r' = sim_t rw
    /\ simulationarchive_walltime r' = simulationarchive_walltime rw
    /\ simulationarchive_next r' = next'
    /\ sim_dt r' = sim_dt rw
    /\ sim_dt_last_done r' = sim_dt_last_done rw
    /\ length (particles r') = length (particles r)
    /\ (forall i, particles r' !!! i
          = if decide ((i < Z.to_nat (sim_N rw))%nat /\ (i < length (particles r))%nat)
            then particles rw !!! i else particles r !!! i)
    /\ Forall2 (agree (Z.to_nat (3 * sim_N rw)))
         (ias15_arrays (ri_ias15 r')) (ias15_arrays (ri_ias15 rw)).
Proof.
  intros Hkw Hk HN Hmax HNr Hcap Hfd Ht Hwall Hdt Hdtl Hparts Harrays Hcatch.
  unfold heartbeat_record in Hfd. rewrite Hkw in Hfd. cbn [snd] in Hfd.
  unfold ias15_payload in Hfd. cbn zeta in Hfd. rewrite <- !app_assoc in Hfd.
  rewrite CFacts.to_int_id in Hfd by (unfold C.INT_MAX in *; lia).
  replace (sim_N rw * 3) with (3 * sim_N rw) in Hfd by lia.
  unfold read_blob.
  destruct (fread_double_written (sim_t r) fd _ _ Hfd Ht) as [-> Hfd1].
  cbn [simulationarchive_walltime set_sim_t].
  destruct (fread_double_written (simulationarchive_walltime r) _ _ _ Hfd1 Hwall)
    as [-> Hfd2].
  cbn [simulationarchive_next simulationarchive_interval sim_t integrator
       set_simulationarchive_time set_simulationarchive_walltime set_sim_t].
  rewrite Hcatch.
  cbn [integrator set_simulationarchive_next set_simulationarchive_time
       set_simulationarchive_walltime set_sim_t].
  rewrite Hk. rewrite moved_moved in *.
  set (r1 := set_simulationarchive_next _ _).
  assert (Hr1 : sim_N r1 = sim_N rw /\ sim_dt r1 = sim_dt r
                /\ sim_dt_last_done r1 = sim_dt_last_done r
                /\ particles r1 = particles r /\ ri_ias15 r1 = ri_ias15 r
                /\ sim_t r1 = sim_t rw
                /\ simulationarchive_walltime r1 = simulationarchive_walltime rw
                /\ simulationarchive_next r1 = next') by done.
  clearbody r1. destruct Hr1 as (HN1 & Hdt1 & Hdtl1 & Hp1 & Hias1 & Ht1 & Hw1 & Hn1).
  unfold load_ias15.
  rewrite Hdt1.
  destruct (fread_double_written (sim_dt r) _ _ _ Hfd2 Hdt) as [-> Hfd3].
  cbn [sim_dt_last_done set_sim_dt]. rewrite Hdtl1.
  destruct (fread_double_written (sim_dt_last_done r) _ _ _ Hfd3 Hdtl) as [-> Hfd4].
  rewrite !moved_moved in *.
  unfold particle_indices.
  cbn [sim_N particles set_sim_dt set_sim_dt_last_done]. rewrite HN1, Hp1.
  rewrite (ias15_loop_whfast _ _ []).
  pose proof (whfast_loop_written false (particles rw) (particles rw)
                (Z.to_nat (sim_N rw)) 0 (particles r) [] _ _ Hfd4) as Hloop.
  destruct (fold_left _ (seq 0 (Z.to_nat (sim_N rw))) _) as [[parts pj] fd5].
  cbn [fst snd] in Hloop. cbn zeta. cbn [fst snd].
  destruct Hloop as (Hfd5 & Hl1 & _ & Hp & _).
  { intros i Hi. unfold written_particle. rewrite with_coordinates_self.
    apply Hparts. lia. }
  set (r2 := set_particles _ parts).
  assert (Hr2 : sim_N r2 = sim_N rw /\ sim_dt r2 = sim_dt rw
                /\ sim_dt_last_done r2 = sim_dt_last_done rw
                /\ particles r2 = parts /\ ri_ias15 r2 = ri_ias15 r
                /\ sim_t r2 = sim_t rw
                /\ simulationarchive_walltime r2 = simulationarchive_walltime rw
                /\ simulationarchive_next r2 = next').
  { subst r2. cbn. by rewrite HN1, Ht1, Hw1, Hn1. }
  clearbody r2. destruct Hr2 as (HN2 & Hdt2 & Hdtl2 & Hp2 & Hias2 & Ht2 & Hw2 & Hn2).
  destruct (ias15_alloc_allocated r2) as (Ha & HN3 & Ht3 & Hdt3 & Hdtl3 & Hp3 & Hw3 & Hn3).
  { rewrite Hias2, HN2, <- HNr. exact Hcap. }
  set (r3 := reb_integrator_ias15_alloc r2) in *. clearbody r3.
  rewrite HN3, HN2 in *.
  rewrite CFacts.to_int_id by (unfold C.INT_MAX in *; lia).
  replace (sim_N rw * 3) with (3 * sim_N rw) by lia.
  set (n3 := 3 * sim_N rw) in *.
  unfold ias15_arrays in Ha, Harrays. unfold allocated in Ha.
  rewrite !forallb_app in Ha, Harrays. rewrite !andb_true_iff in Ha, Harrays.
  destruct Ha as (Hab & Hacsb & Hae & Habr & Haer & Hax).
  destruct Harrays as (Hvb & Hvcsb & Hve & Hvbr & Hver & Hvx).
  cbn [forallb] in Hax, Hvx. rewrite !andb_true_iff in Hax, Hvx.
  destruct Hax as (Hacsx & Hacsv & _). destruct Hvx as (Hvcsx & Hvcsv & _).
  pose proof (reb_read_dp7_written _ _ _ _ _ Hfd5 Hvb Hab) as (Hfd6 & _ & Hgb).
  destruct (reb_read_dp7 (ias15_b _) n3 fd5) as [b fd6]. cbn [fst snd] in *.
  pose proof (reb_read_dp7_written _ _ _ _ _ Hfd6 Hvcsb Hacsb) as (Hfd7 & _ & Hgcsb).
  destruct (reb_read_dp7 (ias15_csb _) n3 fd6) as [csb fd7]. cbn [fst snd] in *.
  pose proof (reb_read_dp7_written _ _ _ _ _ Hfd7 Hve Hae) as (Hfd8 & _ & Hge).
  destruct (reb_read_dp7 (ias15_e _) n3 fd7) as [e fd8]. cbn [fst snd] in *.
  pose proof (reb_read_dp7_written _ _ _ _ _ Hfd8 Hvbr Habr) as (Hfd9 & _ & Hgbr).
  destruct (reb_read_dp7 (ias15_br _) n3 fd8) as [br fd9]. cbn [fst snd] in *.
  pose proof (reb_read_dp7_written _ _ _ _ _ Hfd9 Hver Haer) as (Hfd10 & _ & Hger).
  destruct (reb_read_dp7 (ias15_er _) n3 fd9) as [er fd10]. cbn [fst snd] in *.
  pose proof (fread_doubles_written _ _ _ _ _ Hfd10 Hvcsx Hacsx) as (Hfd11 & _ & Hgcsx).
  destruct (fread_doubles _ (ias15_csx _) fd10) as [csx fd11]. cbn [fst snd] in *.
  pose proof (fread_doubles_written _ _ _ _ _ Hfd11 Hvcsv Hacsv) as (Hfd12 & _ & Hgcsv).
  destruct (fread_doubles _ (ias15_csv _) fd11) as [csv fd12]. cbn [fst snd] in *.
  eexists _, _. split; [reflexivity|].
  cbn [sim_t simulationarchive_walltime simulationarchive_next ri_ias15 particles
       sim_dt sim_dt_last_done set_ri_ias15].
  split; [exact Hfd12|].
  rewrite Ht3, Ht2, Hw3, Hw2, Hn3, Hn2, Hdt3, Hdt2, Hdtl3, Hdtl2, Hp3, Hp2.
  repeat split; try done.
  - intros i. rewrite Hp. unfold written_particle. rewrite with_coordinates_self.
    repeat case_decide; destruct_and?; first [done | lia].
  - unfold ias15_arrays.
    cbn [ias15_b ias15_csb ias15_e ias15_br ias15_er ias15_csx ias15_csv].
    repeat (apply Forall2_app; [done|]). by repeat constructor.
Qed.

End RoundTripIAS15.

Section RecordRoundTripIAS15.

Context `{FullStateFormat}.

(** X3.  An IAS15 record written by a due heartbeat and loaded again into
    a simulation with the same particle count gives back the time, the
    wall-clock time, the two step sizes, every particle and the first
    [3 N] doubles of each of the thirty-seven arrays of the integrator,
    exactly as they were written. *)
Theorem ias15_record_round_trip fuel time_now time_load r fs fs2 later r2 blob next' :
  Double.eqb (sim_t r) Double.zero = false ->
  due r = true ->
  integrator r = REB_INTEGRATOR_IAS15 ->
  0 <= sim_N r ->
  sim_N r * 3 <= C.INT_MAX ->
  let st := reb_simulationarchive_heartbeat time_now r fs in
  let old := default [] (fs !! simulationarchive_filename r) in
  valid_double (sim_t r) = true ->
  valid_double (simulationarchive_walltime st.1) = true ->
  valid_double (sim_dt r) = true ->
  valid_double (sim_dt_last_done r) = true ->
  valid_particles (particles r) (particles r) (Z.to_nat (sim_N r)) = true ->
  forallb (valid_doubles (Z.to_nat (3 * sim_N r))) (ias15_arrays (ri_ias15 r)) = true ->
  integrator r2 = REB_INTEGRATOR_IAS15 ->
  sim_N r2 = sim_N r ->
  (ias15_allocatedN (ri_ias15 r2) = 3 * sim_N r2 ->
   allocated (Z.to_nat (3 * sim_N r2)) (ias15_arrays (ri_ias15 r2)) = true) ->
  simulationarchive_seek_blob r2 = recordSize REB_INTEGRATOR_IAS15 (sim_N r) ->
  fs2 !! simulationarchive_filename r
  = Some (default [] (st.2 !! simulationarchive_filename r) ++ later) ->
  (blob < 0 /\ later = [])
  \/ (1 <= blob
      /\ Z.of_nat (length old)
         = simulationarchive_seek_first r2 + (blob - 1) * simulationarchive_seek_blob r2) ->
  catch_up fuel (simulationarchive_next r2) (sim_t r) (simulationarchive_interval r2)
  = Some next' ->
  exists r',
    reb_simulationarchive_load_blob fuel time_load fs2 (Some r2)
      (simulationarchive_filename r) blob = Some (0, Some r')
    /\ sim_t r' = sim_t r
    /\ simulationarchive_walltime r' = simulationarchive_walltime st.1
    /\ simulationarchive_next r' = next'
    /\ sim_dt r' = sim_dt r
    /\ sim_dt_last_done r' = sim_dt_last_done r
    /\ length (particles r') = length (particles r2)
    /\ (forall i, (i < Z.to_nat (sim_N r))%nat -> (i < length (particles r2))%nat ->
          particles r' !!! i = particles r !!! i)
    /\ Forall2 (agree (Z.to_nat (3 * sim_N r)))
         (ias15_arrays (ri_ias15 r')) (ias15_arrays (ri_ias15 r)).
Proof.
  intros Ht Hd Hk HN Hmax st old Hvt Hvw Hvdt Hvdtl Hvp Hva Hk2 HN2 Hcap Hblob2 Hfs2 Hblob
    Hcatch.
  destruct (heartbeat_due_file time_now r fs Ht Hd) as
    (Hfile & Ht1 & HN1 & Hk1 & Hp1 & _ & Hi1 & Hdt1 & Hdtl1); [by rewrite Hk|].
  fold st in Hfile, Ht1, HN1, Hk1, Hp1, Hi1, Hdt1, Hdtl1. fold old in Hfile.
  rewrite Hfile in Hfs2. cbv [default from_option id] in Hfs2.
  rewrite <- app_assoc in Hfs2.
  rewrite (load_blob_record _ _ _ _ _ _ _ Hfs2) by lia.
  destruct (seek_blob_written r2 old (heartbeat_record st.1).2 later blob)
    as (fd & Hseek & Hfd).
  { rewrite Hblob2. unfold heartbeat_record. rewrite Hk1, Hk. cbn [snd recordSize].
    rewrite !length_app, !fwrite_double_length, ias15_payload_length, HN1.
    rewrite CFacts.to_int_id by (unfold C.INT_MAX in *; lia). lia. }
  { destruct Hblob as [|[]]; [by left|by right]. }
  rewrite Hseek. cbn [fst snd Z.eqb].
  destruct (read_blob_ias15_written fuel time_load st.1 r2 fd later next')
    as (r' & fd' & -> & _ & Htr & Hwr & Hnr & Hdtr & Hdtlr & Hlen & Hparts & Harr);
    try done.
  - by rewrite Hk1, Hk.
  - by rewrite HN1.
  - by rewrite HN1.
  - by rewrite HN1.
  - by rewrite Ht1.
  - by rewrite Hdt1.
  - by rewrite Hdtl1.
  - intros i Hi. rewrite Hp1, HN1 in *.
    pose proof (valid_particles_lookup _ _ _ i Hvp Hi) as Hv.
    unfold written_particle in Hv. by rewrite with_coordinates_self in Hv.
  - by rewrite HN1, Hi1.
  - by rewrite Ht1.
  - exists r'. split; [done|].
    rewrite Htr, Ht1, Hdtr, Hdt1, Hdtlr, Hdtl1. repeat split; try done.
    + intros i Hi Hi2. rewrite Hparts, HN1, Hp1. by rewrite decide_True.
    + by rewrite HN1, Hi1 in Harr.
Qed.

End RecordRoundTripIAS15.

Lemma ias15_record_round_trip_witness :
  let r := Sample.ias15_running in
  let st := reb_simulationarchive_heartbeat (H := Sample.plain) (Sample.at_second 103) r
              (Sample.first_beat Sample.ias15_2).2 in
  exists r',
    reb_simulationarchive_load_blob (H := Sample.plain) 10 (Sample.at_second 200) st.2
      (Some (Sample.first_beat Sample.ias15_2).1) "archive.bin" (-1) = Some (0, Some r')
    /\ sim_t r' = Double.make 7 (-1)
    /\ agree 6 (ias15_csv (ri_ias15 r')) (map Double.of_Z [1; 2; 3; 4; 5; 6]).
Proof.
  intros r st.
  destruct (ias15_record_round_trip (H := Sample.plain) 10 (Sample.at_second 103)
              (Sample.at_second 200) r (Sample.first_beat Sample.ias15_2).2 st.2 []
              (Sample.first_beat Sample.ias15_2).1 (-1) (Double.of_Z 4))
    as (r' & Hload & Ht & _ & _ & _ & _ & _ & _ & Harr).
  - vm_compute. reflexivity.
  - vm_compute. reflexivity.
  - reflexivity.
  - vm_compute. discriminate.
  - vm_compute. discriminate.
  - vm_compute. reflexivity.
  - vm_compute. reflexivity.
  - vm_compute. reflexivity.
  - vm_compute. reflexivity.
  - vm_compute. reflexivity.
  - vm_compute. reflexivity.
  - reflexivity.
  - reflexivity.
  - intros _. vm_compute. reflexivity.
  - vm_compute. reflexivity.
  - vm_compute. reflexivity.
  - left. split; [lia|reflexivity].
  - vm_compute. reflexivity.
  - exists r'. split; [exact Hload|]. split; [exact Ht|].
    exact (Forall2_lookup_lr _ _ _ 36%nat _ _ Harr eq_refl eq_refl).
Defined.

(** ** What the loader answers *)

Section LoaderOutcomes.

Context `{FullStateFormat}.


(** X5.  After any load of a record that returns, [next] is past the time
    just read: [next <= t] does not hold.  So the heartbeat that follows
    the load, at the loaded time, writes nothing and changes nothing
    (unless that time is [0], when the heartbeat starts a new archive). *)
Theorem load_blob_next_past_time fuel time_now fs r filename blob r' :
  blob <> 0 ->
  reb_simulationarchive_load_blob fuel time_now fs (Some r) filename blob
  = Some (0, Some r') ->
  Double.leb (simulationarchive_next r') (sim_t r') = false
  /\ (Double.eqb (sim_t r') Double.zero = false ->
      forall time_after fs',
        reb_simulationarchive_heartbeat time_after r' fs' = (r', fs')).
Proof.
  intros Hblob. unfold reb_simulationarchive_load_blob.
  destruct (fs !! filename) as [data|]; [|done].
  destruct (Z.eqb_spec blob 0) as [|_]; [done|].
  destruct (seek_blob r (fopen_read data) blob) as [ret fd].
  destruct (ret =? 0); [|done].
  destruct (read_blob fuel time_now r fd) as [[r1 fd1]|] eqn:Hread; [|done].
  intros [= <-]. destruct (read_blob_schedule _ _ _ _ _ _ Hread) as (_ & _ & Hnext).
  split; [done|]. intros Ht time_after fs'. by apply heartbeat_idle.
Qed.

(** A [next] that does not move and is not past [t] keeps the loop going
    for ever. *)
Lemma catch_up_stuck fuel next t interval :
  Double.leb next t = true ->
  Double.add next interval = next ->
  catch_up fuel next t interval = None.
Proof.
  intros Hle Hadd. induction fuel as [|fuel IH]; cbn [catch_up]; rewrite Hle; [done|].
  by rewrite Hadd.
Qed.

(** X6.  When adding the interval does not change [next] (the interval is
    [0.], or too small to count beside [next]), the load of a record
    whose time is not before [next] never returns: the catch-up loop runs
    for ever, whatever bound is put on its turns. *)
Theorem load_blob_never_returns time_now fs r filename data blob fd :
  fs !! filename = Some data ->
  blob <> 0 ->
  seek_blob r (fopen_read data) blob = (0, fd) ->
  Double.add (simulationarchive_next r) (simulationarchive_interval r)
  = simulationarchive_next r ->
  Double.leb (simulationarchive_next r) (fread_double (sim_t r) fd).1 = true ->
  forall fuel,
    reb_simulationarchive_load_blob fuel time_now fs (Some r) filename blob = None.
Proof.
  intros Hfile Hblob Hseek Hadd Hle fuel.
  rewrite (load_blob_record _ _ _ _ _ _ _ Hfile Hblob), Hseek. cbn [fst snd Z.eqb].
  unfold read_blob.
  destruct (fread_double (sim_t r) fd) as [t' fd1]. cbn [fst] in Hle.
  destruct (fread_double _ fd1) as [wall' fd2].
  cbn [simulationarchive_next simulationarchive_interval sim_t
       set_simulationarchive_time set_simulationarchive_walltime set_sim_t].
  by rewrite catch_up_stuck.
Qed.

End LoaderOutcomes.


Lemma load_blob_next_past_time_witness :
  let st := Sample.short_run Sample.whfast1 in
  let r' := Sample.reloaded st in
  Double.leb (simulationarchive_next r') (sim_t r') = false
  /\ reb_simulationarchive_heartbeat (H := Sample.plain) (Sample.at_second 201) r' st.2
     = (r', st.2).
Proof.
  intros st r'.
  destruct (load_blob_next_past_time (H := Sample.plain) 10 (Sample.at_second 200) st.2
              st.1 "archive.bin" (-1) r') as [Hnext Hidle].
  - discriminate.
  - vm_compute. reflexivity.
  - split; [exact Hnext|]. apply Hidle. vm_compute. reflexivity.
Defined.

Lemma load_blob_never_returns_witness :
  let st := Sample.far_run in
  let r := set_simulationarchive_next st.1 (Double.make 1 53) in
  reb_simulationarchive_load_blob (H := Sample.plain) 1000 (Sample.at_second 200) st.2
    (Some r) "archive.bin" (-1) = None.
Proof.
  intros st r.
  apply (load_blob_never_returns (H := Sample.plain) (Sample.at_second 200) st.2 r
           "archive.bin" (default [] (st.2 !! "archive.bin")) (-1)
           {| f_data := default [] (st.2 !! "archive.bin"); f_pos := 4 |}).
  - vm_compute. reflexivity.
  - discriminate.
  - vm_compute. reflexivity.
  - vm_compute. reflexivity.
  - vm_compute. reflexivity.
Defined.

(** ** Reading at the end of the file *)

(** At the end of the file, or past it, [fread] stores nothing and the
    stream stays where there is nothing to read. *)
Lemma fread_double_eof old fd :
  0 <= f_pos fd ->
  Z.of_nat (length (f_data fd)) <= f_pos fd ->
  let fd' := (fread_double old fd).2 in
  (fread_double old fd).1 = old
  /\ 0 <= f_pos fd' /\ Z.of_nat (length (f_data fd')) <= f_pos fd'.
Proof.
  intros Hpos Heof. unfold fread_double.
  assert (Hrest : remaining fd = []).
  { unfold remaining. apply drop_ge. lia. }
  rewrite Hrest. cbn [length Nat.leb fst snd f_pos f_data]. split; [done|]. lia.
Qed.

(** With one to seven bytes left, [fread] stores them over the low-order
    bytes of the variable and leaves the stream at the end of the file. *)
Lemma fread_double_short old fd :
  0 <= f_pos fd ->
  (0 < length (remaining fd) < 8)%nat ->
  fread_double old fd
  = (Double.decode (remaining fd ++ drop (length (remaining fd)) (Double.encode old)),
     {| f_data := f_data fd; f_pos := Z.of_nat (length (f_data fd)) |}).
Proof.
  intros Hpos Hlen. unfold fread_double.
  destruct (Nat.leb_spec 8 (length (remaining fd))) as [|_]; [lia|].
  assert (Hend : f_pos fd < Z.of_nat (length (f_data fd))).
  { unfold remaining in Hlen. rewrite length_drop in Hlen. lia. }
  destruct (remaining fd) as [|b rest]; [cbn in Hlen; lia|].
  f_equal. f_equal. lia.
Qed.

(** Five bytes [ff] read into a variable that holds [3.5]. *)
Example fread_double_five_bytes :
  Double.bits (fread_double (Double.make 7 (-1))
                 {| f_data := [xff; xff; xff; xff; xff]; f_pos := 0 |}).1
  = 0x400c00ffffffffff.
Proof. vm_compute. reflexivity. Qed.

Lemma alter_self {A} (f : A -> A) (l : list A) i :
  (forall x, l !! i = Some x -> f x = x) -> alter f i l = l.
Proof.
  intros Hf. apply list_eq. intros j. destruct (decide (i = j)) as [<-|Hne].
  - rewrite list_lookup_alter_eq. destruct (l !! i) as [x|] eqn:Hx; [|done].
    cbn. by rewrite Hf.
  - by rewrite list_lookup_alter_ne.
Qed.

Lemma fread_member_eof get set i ps fd :
  (forall p, set (get p) p = p) ->
  0 <= f_pos fd ->
  Z.of_nat (length (f_data fd)) <= f_pos fd ->
  let fd' := (fread_member get set i ps fd).2 in
  (fread_member get set i ps fd).1 = ps
  /\ 0 <= f_pos fd' /\ Z.of_nat (length (f_data fd')) <= f_pos fd'.
Proof.
  intros Hset Hpos Heof. unfold fread_member.
  destruct (fread_double_eof (get (ps !!! i)) fd Hpos Heof) as (Hv & Hfd').
  destruct (fread_double _ fd) as [v fd']. cbn [fst snd] in *. subst v.
  split; [|done]. apply alter_self. intros x Hx.
  by rewrite (list_lookup_total_correct _ _ _ Hx).
Qed.

Lemma fread_coordinates_eof i ps fd :
  0 <= f_pos fd ->
  Z.of_nat (length (f_data fd)) <= f_pos fd ->
  let fd' := (fread_coordinates i ps fd).2 in
  (fread_coordinates i ps fd).1 = ps
  /\ 0 <= f_pos fd' /\ Z.of_nat (length (f_data fd')) <= f_pos fd'.
Proof.
  intros Hpos Heof. unfold fread_coordinates.
  destruct (fread_member_eof p_x set_x i ps fd) as (Hps & Hpos1 & Heof1);
    [by intros []|done..|].
  destruct (fread_member p_x set_x i ps fd) as [ps1 fd1]. cbn [fst snd] in *. subst ps1.
  destruct (fread_member_eof p_y set_y i ps fd1) as (Hps & Hpos2 & Heof2);
    [by intros []|done..|].
  destruct (fread_member p_y set_y i ps fd1) as [ps2 fd2]. cbn [fst snd] in *. subst ps2.
  destruct (fread_member_eof p_z set_z i ps fd2) as (Hps & Hpos3 & Heof3);
    [by intros []|done..|].
  destruct (fread_member p_z set_z i ps fd2) as [ps3 fd3]. cbn [fst snd] in *. subst ps3.
  destruct (fread_member_eof p_vx set_vx i ps fd3) as (Hps & Hpos4 & Heof4);
    [by intros []|done..|].
  destruct (fread_member p_vx set_vx i ps fd3) as [ps4 fd4]. cbn [fst snd] in *. subst ps4.
  destruct (fread_member_eof p_vy set_vy i ps fd4) as (Hps & Hpos5 & Heof5);
    [by intros []|done..|].
  destruct (fread_member p_vy set_vy i ps fd4) as [ps5 fd5]. cbn [fst snd] in *. subst ps5.
  by apply fread_member_eof; [intros []|..].
Qed.

Lemma whfast_loop_eof l parts pj fd :
  0 <= f_pos fd ->
  Z.of_nat (length (f_data fd)) <= f_pos fd ->
  (fold_left (whfast_fread_particle false) l (parts, pj, fd)).1 = (parts, pj).
Proof.
  revert fd. induction l as [|i l IH]; intros fd Hpos Heof; cbn [fold_left]; [done|].
  unfold whfast_fread_particle at 2.
  destruct (fread_member_eof p_m set_m i parts fd) as (Hps & Hpos1 & Heof1);
    [by intros []|done..|].
  destruct (fread_member p_m set_m i parts fd) as [ps1 fd1]. cbn [fst snd] in *. subst ps1.
  destruct (fread_coordinates_eof i parts fd1 Hpos1 Heof1) as (Hps & Hpos2 & Heof2).
  destruct (fread_coordinates i parts fd1) as [ps2 fd2]. cbn [fst snd] in *. subst ps2.
  by apply IH.
Qed.

Section NothingToRead.

Context `{FullStateFormat}.

(** X7.  A load whose seek ends at or past the end of the file (an index
    past the last record, say) is answered with [0] all the same.  With
    WHFAST and safe mode on, the time, the wall-clock time and the
    particles are what they were before the call; only the wall-clock
    anchor and [next] have changed. *)
Theorem load_blob_nothing_to_read fuel time_now fs r filename data blob fd next' :
  fs !! filename = Some data ->
  blob <> 0 ->
  integrator r = REB_INTEGRATOR_WHFAST ->
  safe_mode (ri_whfast r) <> 0 ->
  seek_blob r (fopen_read data) blob = (0, fd) ->
  Z.of_nat (length data) <= f_pos fd ->
  catch_up fuel (simulationarchive_next r) (sim_t r) (simulationarchive_interval r)
  = Some next' ->
  reb_simulationarchive_load_blob fuel time_now fs (Some r) filename blob
  = Some (0, Some (set_simulationarchive_next
                     (set_simulationarchive_time r time_now) next')).
Proof.
  intros Hfile Hblob Hk Hs Hseek Heof Hcatch.
  assert (Hfd : f_data fd = data /\ 0 <= f_pos fd).
  { revert Hseek. unfold seek_blob, fseek. cbn [fopen_read f_data f_pos].
    destruct (blob <? 0).
    - destruct (Z.ltb_spec (Z.of_nat (length data) + - simulationarchive_seek_blob r) 0);
        [done|]. by intros [= <-].
    - destruct (Z.ltb_spec (simulationarchive_seek_first r
                            + (blob - 1) * simulationarchive_seek_blob r) 0);
        [done|]. by intros [= <-]. }
  destruct Hfd as [Hdata Hpos]. rewrite <- Hdata in Heof.
  rewrite (load_blob_record _ _ _ _ _ _ _ Hfile Hblob), Hseek. cbn [fst snd Z.eqb].
  unfold read_blob.
  destruct (fread_double_eof (sim_t r) fd Hpos Heof) as (Hv & Hpos1 & Heof1).
  destruct (fread_double (sim_t r) fd) as [t' fd1]. cbn [fst snd] in *. subst t'.
  cbn [simulationarchive_walltime set_sim_t].
  destruct (fread_double_eof (simulationarchive_walltime r) fd1 Hpos1 Heof1)
    as (Hv & Hpos2 & Heof2).
  destruct (fread_double _ fd1) as [wall' fd2]. cbn [fst snd] in *. subst wall'.
  cbn [simulationarchive_next simulationarchive_interval sim_t integrator
       set_simulationarchive_time set_simulationarchive_walltime set_sim_t].
  rewrite Hcatch.
  cbn [integrator set_simulationarchive_next set_simulationarchive_time
       set_simulationarchive_walltime set_sim_t].
  rewrite Hk. unfold load_whfast.
  cbn [ri_whfast particles sim_N set_simulationarchive_next particle_indices
       set_simulationarchive_time set_simulationarchive_walltime set_sim_t].
  destruct (Z.eqb_spec (safe_mode (ri_whfast r)) 0) as [|_]; [done|].
  pose proof (whfast_loop_eof (seq 0 (Z.to_nat (sim_N r))) (particles r)
                (p_j (ri_whfast r)) fd2 Hpos2 Heof2) as Hloop.
  destruct (fold_left _ _ _) as [[parts pj] fd3]. cbn [fst] in Hloop.
  injection Hloop as -> ->.
  do 3 f_equal. destruct r as [? ? ? ? ? ? ? [] ? ? ? ? ? ? ? ? ?]. done.
Qed.

End NothingToRead.

Lemma load_blob_nothing_to_read_witness :
  let st := Sample.short_run Sample.whfast1 in
  reb_simulationarchive_load_blob (H := Sample.plain) 10 (Sample.at_second 200) st.2
    (Some st.1) "archive.bin" 5
  = Some (0, Some (set_simulationarchive_next
                     (set_simulationarchive_time st.1 (Sample.at_second 200))
                     (Double.of_Z 4))).
Proof.
  intros st.
  apply (load_blob_nothing_to_read (H := Sample.plain) 10 (Sample.at_second 200) st.2 st.1
           "archive.bin" (default [] (st.2 !! "archive.bin")) 5
           {| f_data := default [] (st.2 !! "archive.bin"); f_pos := 4 + 4 * 72 |}
           (Double.of_Z 4)).
  - vm_compute. reflexivity.
  - discriminate.
  - reflexivity.
  - vm_compute. discriminate.
  - vm_compute. reflexivity.
  - vm_compute. discriminate.
  - vm_compute. reflexivity.
Defined.

(** ** What the loader leaves alone *)

Section LoaderFrame.

Context `{FullStateFormat}.

Lemma load_whfast_keeps r fd :
  let r' := (load_whfast r fd).1 in
  sim_N r' = sim_N r /\ integrator r' = integrator r /\ gravity r' = gravity r
  /\ simulationarchive_filename r' = simulationarchive_filename r
  /\ simulationarchive_interval r' = simulationarchive_interval r
  /\ simulationarchive_seek_first r' = simulationarchive_seek_first r
  /\ simulationarchive_seek_blob r' = simulationarchive_seek_blob r
  /\ simulationarchive_time r' = simulationarchive_time r
  /\ messages r' = messages r
  /\ sim_dt r' = sim_dt r /\ sim_dt_last_done r' = sim_dt_last_done r
  /\ ri_ias15 r' = ri_ias15 r.
Proof.
  unfold load_whfast. destruct (fold_left _ _ _) as [[parts pj] fd'].
  by destruct (safe_mode (ri_whfast r) =? 0); [destruct (recalculate_jacobi_masses _ _ _ _)|].
Qed.

Lemma load_ias15_keeps r fd :
  let r' := (load_ias15 r fd).1 in
  sim_N r' = sim_N r /\ integrator r' = integrator r /\ gravity r' = gravity r
  /\ simulationarchive_filename r' = simulationarchive_filename r
  /\ simulationarchive_interval r' = simulationarchive_interval r
  /\ simulationarchive_seek_first r' = simulationarchive_seek_first r
  /\ simulationarchive_seek_blob r' = simulationarchive_seek_blob r
  /\ simulationarchive_time r' = simulationarchive_time r
  /\ messages r' = messages r
  /\ ri_whfast r' = ri_whfast r.
Proof.
  unfold load_ias15.
  repeat match goal with
  | |- context [match ?e with pair _ _ => _ end] => destruct e
  end.
  cbn [fst]. unfold reb_integrator_ias15_alloc. by case_match.
Qed.

(** What the reading of a record leaves alone. *)
Lemma read_blob_keeps fuel time_now r fd r' fd' :
  read_blob fuel time_now r fd = Some (r', fd') ->
  sim_N r' = sim_N r /\ integrator r' = integrator r /\ gravity r' = gravity r
  /\ simulationarchive_filename r' = simulationarchive_filename r
  /\ simulationarchive_interval r' = simulationarchive_interval r
  /\ simulationarchive_seek_first r' = simulationarchive_seek_first r
  /\ simulationarchive_seek_blob r' = simulationarchive_seek_blob r
  /\ simulationarchive_time r' = time_now
  /\ (supported (integrator r) = true -> messages r' = messages r)
  /\ (integrator r = REB_INTEGRATOR_IAS15 -> ri_whfast r' = ri_whfast r)
  /\ (integrator r = REB_INTEGRATOR_WHFAST ->
      sim_dt r' = sim_dt r /\ sim_dt_last_done r' = sim_dt_last_done r
      /\ ri_ias15 r' = ri_ias15 r).
Proof.
  unfold read_blob.
  destruct (fread_double (sim_t r) fd) as [t' fd1].
  destruct (fread_double _ fd1) as [wall' fd2].
  cbn [simulationarchive_next simulationarchive_interval sim_t integrator
       set_simulationarchive_time set_simulationarchive_walltime set_sim_t
       set_simulationarchive_next fst].
  destruct (catch_up _ _ _ _) as [next'|]; [|done].
  set (r1 := set_simulationarchive_next _ _).
  destruct (integrator r) eqn:Hk.
  - pose proof (load_ias15_keeps r1 fd2) as Hkeep. cbn zeta in Hkeep.
    destruct (load_ias15 r1 fd2) as [r2 fd3]. cbn [fst] in Hkeep.
    intros [= <- _]. destruct Hkeep as (-> & -> & -> & -> & -> & -> & -> & -> & -> & ->).
    by repeat split.
  - pose proof (load_whfast_keeps r1 fd2) as Hkeep. cbn zeta in Hkeep.
    destruct (load_whfast r1 fd2) as [r2 fd3]. cbn [fst] in Hkeep.
    intros [= <- _].
    destruct Hkeep as (-> & -> & -> & -> & -> & -> & -> & -> & -> & -> & -> & ->).
    by repeat split.
  - intros [= <- _]. by repeat split.
Qed.

(** X8.  What a load of a record leaves alone, whatever the file holds:
    the particle count, the integrator and gravity kinds, the archive's
    file name, interval and offsets; the wall-clock anchor is the time of
    the call.  With a supported integrator no message is reported; the
    adaptive integrator's load does not touch the symplectic buffers and
    the symplectic load touches neither the step sizes nor the adaptive
    tables. *)
Theorem load_blob_keeps fuel time_now fs r filename blob r' :
  blob <> 0 ->
  reb_simulationarchive_load_blob fuel time_now fs (Some r) filename blob
  = Some (0, Some r') ->
  sim_N r' = sim_N r /\ integrator r' = integrator r /\ gravity r' = gravity r
  /\ simulationarchive_filename r' = simulationarchive_filename r
  /\ simulationarchive_interval r' = simulationarchive_interval r
  /\ simulationarchive_seek_first r' = simulationarchive_seek_first r
  /\ simulationarchive_seek_blob r' = simulationarchive_seek_blob r
  /\ simulationarchive_time r' = time_now
  /\ (supported (integrator r) = true -> messages r' = messages r)
  /\ (integrator r = REB_INTEGRATOR_IAS15 -> ri_whfast r' = ri_whfast r)
  /\ (integrator r = REB_INTEGRATOR_WHFAST ->
      sim_dt r' = sim_dt r /\ sim_dt_last_done r' = sim_dt_last_done r
      /\ ri_ias15 r' = ri_ias15 r).
Proof.
  intros Hblob. unfold reb_simulationarchive_load_blob.
  destruct (fs !! filename) as [data|]; [|done].
  destruct (Z.eqb_spec blob 0) as [|_]; [done|].
  destruct (seek_blob r (fopen_read data) blob) as [ret fd].
  destruct (ret =? 0); [|done].
  destruct (read_blob fuel time_now r fd) as [[r1 fd1]|] eqn:Hread; [|done].
  intros [= <-]. by apply (read_blob_keeps _ _ _ _ _ _ Hread).
Qed.

(** X9.  With an integrator the archive does not know, a load whose seek
    succeeds is still answered with [0]: the time and the wall-clock time
    are read from the offset (in part, where the file ends inside one of
    them), [next] is caught up, the error is reported, and particles, step
    size and integrator buffers stay as they were. *)
Theorem load_blob_unsupported fuel time_now fs r filename data blob fd next' :
  fs !! filename = Some data ->
  blob <> 0 ->
  supported (integrator r) = false ->
  seek_blob r (fopen_read data) blob = (0, fd) ->
  let t' := (fread_double (sim_t r) fd).1 in
  let fd1 := (fread_double (sim_t r) fd).2 in
  catch_up fuel (simulationarchive_next r) t' (simulationarchive_interval r) = Some next' ->
  exists r',
    reb_simulationarchive_load_blob fuel time_now fs (Some r) filename blob
    = Some (0, Some r')
    /\ sim_t r' = t'
    /\ simulationarchive_walltime r' = (fread_double (simulationarchive_walltime r) fd1).1
    /\ simulationarchive_next r' = next'
    /\ messages r'
       = messages r ++ [(Error, "Simulation archive not implemented for this integrator."%string)]
    /\ particles r' = particles r /\ ri_whfast r' = ri_whfast r /\ ri_ias15 r' = ri_ias15 r
    /\ sim_dt r' = sim_dt r.
Proof.
  intros Hfile Hblob Hs Hseek t' fd1 Hcatch. subst t' fd1.
  rewrite (load_blob_record _ _ _ _ _ _ _ Hfile Hblob), Hseek. cbn [fst snd Z.eqb].
  unfold read_blob.
  destruct (fread_double (sim_t r) fd) as [t' fd1]. cbn [fst snd] in *.
  destruct (fread_double _ fd1) as [wall' fd2].
  cbn [simulationarchive_next simulationarchive_interval sim_t integrator
       set_simulationarchive_time set_simulationarchive_walltime set_sim_t
       set_simulationarchive_next fst].
  rewrite Hcatch.
  destruct (integrator r); [done..|].
  eexists. split; [done|]. by repeat split.
Qed.

(** X10.  Restart from an archive whose last record is a WHFAST record
    just written (safe mode on): when the header gives a simulation of
    the same kind and particle count that knows the record size, restart
    returns it at the time of that record, with the wall-clock time and
    every particle as the heartbeat wrote them, [next] caught up past that
    time, and without reporting anything. *)
Theorem restart_resumes_at_last_record fuel time_now time_load r fs data rh next' :
  Double.eqb (sim_t r) Double.zero = false ->
  due r = true ->
  integrator r = REB_INTEGRATOR_WHFAST ->
  safe_mode (ri_whfast r) <> 0 ->
  0 <= sim_N r ->
  let st := reb_simulationarchive_heartbeat time_now r fs in
  valid_double (sim_t r) = true ->
  valid_double (simulationarchive_walltime st.1) = true ->
  valid_particles (particles r) (particles r) (Z.to_nat (sim_N r)) = true ->
  st.2 !! simulationarchive_filename r = Some data ->
  reb_create_simulation_from_binary data = Some rh ->
  integrator rh = REB_INTEGRATOR_WHFAST ->
  safe_mode (ri_whfast rh) <> 0 ->
  sim_N rh = sim_N r ->
  simulationarchive_seek_blob rh = recordSize REB_INTEGRATOR_WHFAST (sim_N r) ->
  catch_up fuel (simulationarchive_next rh) (sim_t r) (simulationarchive_interval rh)
  = Some next' ->
  exists r',
    reb_simulationarchive_restart fuel time_load st.2 (simulationarchive_filename r)
    = Some (Some r')
    /\ sim_t r' = sim_t r
    /\ simulationarchive_walltime r' = simulationarchive_walltime st.1
    /\ simulationarchive_next r' = next'
    /\ Double.leb next' (sim_t r) = false
    /\ messages r' = messages rh
    /\ length (particles r') = length (particles rh)
    /\ forall i, (i < Z.to_nat (sim_N r))%nat -> (i < length (particles rh))%nat ->
         particles r' !!! i = particles r !!! i.
Proof.
  intros Ht Hd Hk Hs HN st Hvt Hvw Hvp Hdata Himport Hk2 Hs2 HN2 Hblob2 Hcatch.
  destruct (heartbeat_due_file time_now r fs Ht Hd) as
    (Hfile & Ht1 & HN1 & Hk1 & Hp1 & Hw1 & _); [by rewrite Hk|].
  fold st in Hfile, Ht1, HN1, Hk1, Hp1, Hw1.
  rewrite Hfile in Hdata. injection Hdata as <-.
  unfold reb_simulationarchive_restart. rewrite Hfile, Himport.
  rewrite (load_blob_record _ _ _ _ _ _ _ Hfile) by lia.
  destruct (seek_blob_written rh (default [] (fs !! simulationarchive_filename r))
              (heartbeat_record st.1).2 [] (-1))
    as (fd & Hseek & Hfd).
  { rewrite Hblob2. unfold heartbeat_record. rewrite Hk1, Hk. cbn [snd recordSize].
    rewrite !length_app, !fwrite_double_length, whfast_payload_length, HN1. lia. }
  { left. split; [lia|done]. }
  rewrite app_nil_r in Hseek. rewrite Hseek. cbn [fst snd Z.eqb].
  destruct (read_blob_whfast_written fuel time_load st.1 rh fd [] next')
    as (r' & fd' & Hread & _ & Htr & Hwr & Hnr & _ & Hlen & Hparts); try done.
  - by rewrite Hk1, Hk.
  - by rewrite Hw1.
  - by rewrite HN1.
  - by rewrite HN1.
  - by rewrite Ht1.
  - intros i Hi. rewrite Hp1, HN1 in *.
    pose proof (valid_particles_lookup _ _ _ i Hvp Hi) as Hv.
    unfold written_particle in Hv. by rewrite with_coordinates_self in Hv.
  - by rewrite Ht1.
  - rewrite Hread. cbn [Z.eqb]. exists r'. split; [done|].
    pose proof (read_blob_keeps _ _ _ _ _ _ Hread) as (_ & _ & _ & _ & _ & _ & _ & _ & Hmsg & _).
    rewrite Htr, Ht1. repeat split; try done.
    + by apply catch_up_exit in Hcatch.
    + apply Hmsg. by rewrite Hk2.
    + intros i Hi Hi2. rewrite Hparts, HN1, Hp1. by rewrite decide_True.
Qed.

End LoaderFrame.

Lemma load_blob_keeps_witness :
  let st := Sample.short_run Sample.whfast3 in
  let r' := Sample.reloaded st in
  sim_N r' = 3 /\ simulationarchive_time r' = Sample.at_second 200 /\ messages r' = [].
Proof.
  intros st r'.
  destruct (load_blob_keeps (H := Sample.plain) 10 (Sample.at_second 200) st.2 st.1
              "archive.bin" (-1) r')
    as (HN & _ & _ & _ & _ & _ & _ & Htime & Hmsg & _).
  - discriminate.
  - vm_compute. reflexivity.
  - split; [rewrite HN; reflexivity|]. split; [exact Htime|].
    rewrite Hmsg by reflexivity. reflexivity.
Defined.

Lemma load_blob_unsupported_witness :
  let r := Sample.unsupported_running in
  let fs : filesystem := {["archive.bin" := Sample.cut]} in
  exists r',
    reb_simulationarchive_load_blob (H := Sample.plain) 10 (Sample.at_second 200) fs
      (Some r) "archive.bin" 1 = Some (0, Some r')
    /\ sim_t r' = Double.make 0x424552 (-1074)
    /\ simulationarchive_walltime r' = Double.make 0xffff (-1074)
    /\ messages r'
       = [(Error, "Simulation archive not implemented for this integrator."%string)]
    /\ particles r' = particles r.
Proof.
  intros r fs.
  destruct (load_blob_unsupported (H := Sample.plain) 10 (Sample.at_second 200) fs r
              "archive.bin" Sample.cut 1 (fopen_read Sample.cut) (Double.of_Z 1))
    as (r' & Hload & Ht & Hwall & _ & Hmsg & Hparts & _).
  - vm_compute. reflexivity.
  - discriminate.
  - reflexivity.
  - vm_compute. reflexivity.
  - vm_compute. reflexivity.
  - exists r'. split; [exact Hload|].
    split; [rewrite Ht; vm_compute; reflexivity|].
    split; [rewrite Hwall; vm_compute; reflexivity|].
    split; [exact Hmsg|exact Hparts].
Defined.

Lemma restart_resumes_at_last_record_witness :
  let stored := (Sample.first_beat Sample.whfast3).1 in
  let r := Sample.running Sample.whfast3 in
  let st := reb_simulationarchive_heartbeat (H := Sample.format stored)
              (Sample.at_second 103) r (Sample.first_beat Sample.whfast3).2 in
  exists r',
    reb_simulationarchive_restart (H := Sample.format stored) 10 (Sample.at_second 200)
      st.2 "archive.bin" = Some (Some r')
    /\ sim_t r' = Double.make 7 (-1)
    /\ messages r' = []
    /\ particles r' !!! 0%nat = Sample.particle 1.
Proof.
  intros stored r st.
  destruct (restart_resumes_at_last_record (H := Sample.format stored) 10
              (Sample.at_second 103) (Sample.at_second 200) r
              (Sample.first_beat Sample.whfast3).2 (default [] (st.2 !! "archive.bin"))
              stored (Double.of_Z 4))
    as (r' & Hrestart & Ht & _ & _ & _ & Hmsg & _ & Hparts).
  - vm_compute. reflexivity.
  - vm_compute. reflexivity.
  - reflexivity.
  - vm_compute. discriminate.
  - vm_compute. discriminate.
  - vm_compute. reflexivity.
  - vm_compute. reflexivity.
  - vm_compute. reflexivity.
  - vm_compute. reflexivity.
  - reflexivity.
  - reflexivity.
  - vm_compute. discriminate.
  - reflexivity.
  - vm_compute. reflexivity.
  - vm_compute. reflexivity.
  - exists r'. split; [exact Hrestart|]. split; [exact Ht|]. split; [exact Hmsg|].
    rewrite (Hparts 0%nat); [vm_compute; reflexivity|vm_compute; lia..].
Defined.

(** ** The latest record *)

Section LatestRecord.

Context `{FullStateFormat}.

(** In a file of [seek_first + K * seek_blob] bytes the two seeks of the
    latest record and of record [K] end at the same place. *)
Lemma seek_blob_latest r data K :
  1 <= K ->
  Z.of_nat (length data)
  = simulationarchive_seek_first r + K * simulationarchive_seek_blob r ->
  seek_blob r (fopen_read data) (-1) = seek_blob r (fopen_read data) K.
Proof.
  intros HK Hlen. unfold seek_blob, fseek. cbn [fopen_read f_data f_pos].
  destruct (Z.ltb_spec K 0); [lia|]. cbn [Z.ltb Z.compare].
  replace (Z.of_nat (length data) + - simulationarchive_seek_blob r)
    with (simulationarchive_seek_first r + (K - 1) * simulationarchive_seek_blob r) by lia.
  done.
Qed.

(** X11.  After a run that wrote [K >= 1] records, the index [-1] and the
    index [K] load the same record: the two calls agree in what they
    return and in the simulation they leave, for every simulation that
    carries the two offsets of the run. *)
Theorem load_blob_latest_after_run fuel time_load time0 r0 fs0 steps r :
  Double.eqb (sim_t r0) Double.zero = true ->
  supported (integrator r0) = true ->
  0 <= sim_N r0 ->
  recordSize (integrator r0) (sim_N r0) <= C.INT_MAX ->
  Forall (fun s => keeps_archive (advance s)) steps ->
  let st := run time0 r0 fs0 steps in
  let K := written (reb_simulationarchive_heartbeat time0 r0 fs0) steps in
  (1 <= K)%nat ->
  simulationarchive_seek_first r = simulationarchive_seek_first st.1 ->
  simulationarchive_seek_blob r = simulationarchive_seek_blob st.1 ->
  reb_simulationarchive_load_blob fuel time_load st.2 (Some r)
    (simulationarchive_filename r0) (-1)
  = reb_simulationarchive_load_blob fuel time_load st.2 (Some r)
      (simulationarchive_filename r0) (Z.of_nat K).
Proof.
  intros Ht Hs HN Hmax Hsteps st K HK Hfirst Hblob.
  pose proof (archive_invariant_first time0 r0 fs0 Ht Hs HN Hmax) as Hinv0.
  pose proof (archive_invariant_run r0 steps Hs HN Hmax Hsteps _ _ Hinv0) as Hrun.
  change (0 + written _ steps)%nat with K in Hrun. fold (run time0 r0 fs0 steps) in Hrun.
  fold st in Hrun.
  destruct Hrun as (_ & _ & _ & Hsize & header & records & Hfile & Hhead & Hrecords & Hlen).
  rewrite !(load_blob_record _ _ _ _ _ _ _ Hfile) by lia.
  rewrite (seek_blob_latest r _ (Z.of_nat K)); [done|lia|].
  rewrite length_app, Nat2Z.inj_add, (concat_length_const _ _ Hlen).
  rewrite Hfirst, Hblob, Hhead, Hrecords, Hsize. lia.
Qed.

End LatestRecord.

Lemma load_blob_latest_after_run_witness :
  let st := run (H := Sample.plain) (Sample.at_second 100) Sample.whfast3 ∅ Sample.one_step in
  let K := written (H := Sample.plain)
             (reb_simulationarchive_heartbeat (H := Sample.plain) (Sample.at_second 100)
                Sample.whfast3 ∅) Sample.one_step in
  K = 1%nat
  /\ reb_simulationarchive_load_blob (H := Sample.plain) 10 (Sample.at_second 200) st.2
       (Some st.1) (simulationarchive_filename Sample.whfast3) (-1)
     = reb_simulationarchive_load_blob (H := Sample.plain) 10 (Sample.at_second 200) st.2
         (Some st.1) (simulationarchive_filename Sample.whfast3) (Z.of_nat K).
Proof.
  intros st K. split; [vm_compute; reflexivity|].
  refine (load_blob_latest_after_run (H := Sample.plain) 10 (Sample.at_second 200)
            (Sample.at_second 100) Sample.whfast3 ∅ Sample.one_step st.1
            _ _ _ _ _ _ _ _).
  - reflexivity.
  - reflexivity.
  - simpl. lia.
  - vm_compute. discriminate.
  - repeat constructor.
  - vm_compute. lia.
  - reflexivity.
  - reflexivity.
Defined.

(** ** The heartbeat of a running simulation *)

Section HeartbeatFrame.

Context `{FullStateFormat}.

(** X12.  The heartbeat of a running simulation ([t != 0]) only ever adds
    to the archive: every other file is as it was, a record that is due is
    put after what the archive held (at least the sixteen bytes of the
    time and the wall-clock time), and nothing is written or changed at
    all when no record is due.  The state of the integration (time, step
    sizes, particles, integrator buffers) and the archive's file name,
    interval and offsets are never changed. *)
Theorem heartbeat_running_keeps time_now r fs :
  Double.eqb (sim_t r) Double.zero = false ->
  let st := reb_simulationarchive_heartbeat time_now r fs in
  (forall name, name <> simulationarchive_filename r -> st.2 !! name = fs !! name)
  /\ (due r = true ->
      exists record,
        (16 <= length record)%nat
        /\ st.2 !! simulationarchive_filename r
           = Some (default [] (fs !! simulationarchive_filename r) ++ record))
  /\ (due r = false -> st = (r, fs))
  /\ sim_t st.1 = sim_t r /\ sim_dt st.1 = sim_dt r
  /\ sim_dt_last_done st.1 = sim_dt_last_done r
  /\ sim_N st.1 = sim_N r /\ particles st.1 = particles r
  /\ integrator st.1 = integrator r /\ gravity st.1 = gravity r
  /\ ri_whfast st.1 = ri_whfast r /\ ri_ias15 st.1 = ri_ias15 r
  /\ simulationarchive_filename st.1 = simulationarchive_filename r
  /\ simulationarchive_interval st.1 = simulationarchive_interval r
  /\ simulationarchive_seek_first st.1 = simulationarchive_seek_first r
  /\ simulationarchive_seek_blob st.1 = simulationarchive_seek_blob r.
Proof.
  intros Ht st. subst st.
  destruct (due r) eqn:Hdue.
  - rewrite (heartbeat_due _ _ _ Ht Hdue). cbn zeta.
    set (r1 := set_simulationarchive_time _ _).
    assert (Hlen : (16 <= length (heartbeat_record r1).2)%nat).
    { unfold heartbeat_record. destruct (integrator r1); cbn [snd];
        rewrite ?length_app, !fwrite_double_length; lia. }
    destruct (heartbeat_record r1) as [r2 record] eqn:Hrec. cbn [fst snd] in *.
    assert (Hr2 : r2 = r1
                  \/ r2 = reb_error r1
                            "Simulation archive not implemented for this integrator.").
    { revert Hrec. unfold heartbeat_record. destruct (integrator r1); intros [= <- _]; auto. }
    split; [|split; [|split]].
    + intros name Hname. unfold fs_append. by rewrite lookup_insert_ne.
    + intros _. exists record. split; [done|]. unfold fs_append.
      by rewrite lookup_insert_eq.
    + done.
    + by destruct Hr2 as [-> | ->].
  - rewrite (heartbeat_idle _ _ _ Ht Hdue). cbn [fst snd]. by repeat split.
Qed.

End HeartbeatFrame.

Lemma heartbeat_running_keeps_witness :
  let r := Sample.running Sample.whfast3 in
  let fs : filesystem := <["other.bin" := Sample.stub]> (Sample.first_beat Sample.whfast3).2 in
  let st := reb_simulationarchive_heartbeat (H := Sample.plain) (Sample.at_second 103) r fs in
  st.2 !! "other.bin" = Some Sample.stub /\ particles st.1 = particles r.
Proof.
  intros r fs st.
  destruct (heartbeat_running_keeps (H := Sample.plain) (Sample.at_second 103) r fs)
    as (Hother & _ & _ & _ & _ & _ & _ & Hparts & _).
  - vm_compute. reflexivity.
  - split; [|exact Hparts].
    transitivity (fs !! "other.bin"); [|vm_compute; reflexivity].
    apply Hother. intros Heq. vm_compute in Heq. discriminate.
Defined.

(** ** The size estimate *)

Example ceil_3_5 : ceil (Double.make 7 (-1)) = Double.of_Z 4.
Proof. reflexivity. Qed.
Example ceil_minus_3_5 : ceil (Double.make (-7) (-1)) = Double.of_Z (-3).
Proof. reflexivity. Qed.
Example ceil_minus_half : ceil (Double.make (-1) (-1)) = S754_zero true.
Proof. reflexivity. Qed.
Example ceil_quarter : ceil (Double.make 1 (-2)) = Double.of_Z 1.
Proof. reflexivity. Qed.
Example ceil_integral : ceil (Double.of_Z 12) = Double.of_Z 12.
Proof. reflexivity. Qed.
Example to_long_minus_3_5 : to_long (Double.make (-7) (-1)) = Some (-3).
Proof. reflexivity. Qed.
Example to_long_large : to_long (Double.make 1 63) = None.
Proof. reflexivity. Qed.
Example to_long_least : to_long (Double.make (-1) 63) = Some (- 2 ^ 63).
Proof. reflexivity. Qed.

Section EstimateSize.

Context `{FullStateFormat}.

(** With a supported integrator and a count of records that [(long)ceil]
    yields, the estimate is that many record sizes. *)
Lemma estimate_size_records r tmax K :
  supported (integrator r) = true ->
  0 <= sim_N r ->
  recordSize (integrator r) (sim_N r) <= C.INT_MAX ->
  Double.eqb (simulationarchive_interval r) Double.zero = false ->
  to_long (ceil (Double.div tmax (simulationarchive_interval r))) = Some K ->
  - 2 ^ 63 <= recordSize (integrator r) (sim_N r) * K < 2 ^ 63 ->
  reb_simulationarchive_estimate_size r tmax
  = Some (r, recordSize (integrator r) (sim_N r) * K).
Proof.
  intros Hs HN Hmax Hint HK Hrange. unfold reb_simulationarchive_estimate_size.
  rewrite Hint. cbn [negb]. rewrite (blobsize_recordSize _ Hs HN Hmax), HK.
  unfold long_mul.
  destruct (Z.leb_spec (- 2 ^ 63) (recordSize (integrator r) (sim_N r) * K)); [|lia].
  destruct (Z.ltb_spec (recordSize (integrator r) (sim_N r) * K) (2 ^ 63)); [|lia].
  done.
Qed.

(** X13.  The estimate counts the records and not the header: when a run
    has written the [(long)ceil(tmax/interval)] records the estimate is
    made for, the archive is [seek_first] bytes longer than the estimate
    made at the start. *)
Theorem estimate_size_excludes_header time0 r0 fs0 steps tmax :
  Double.eqb (sim_t r0) Double.zero = true ->
  supported (integrator r0) = true ->
  0 <= sim_N r0 ->
  recordSize (integrator r0) (sim_N r0) <= C.INT_MAX ->
  Forall (fun s => keeps_archive (advance s)) steps ->
  Double.eqb (simulationarchive_interval r0) Double.zero = false ->
  let st := run time0 r0 fs0 steps in
  let K := written (reb_simulationarchive_heartbeat time0 r0 fs0) steps in
  to_long (ceil (Double.div tmax (simulationarchive_interval r0))) = Some (Z.of_nat K) ->
  Z.of_nat K * recordSize (integrator r0) (sim_N r0) < 2 ^ 63 ->
  exists data size,
    st.2 !! simulationarchive_filename r0 = Some data
    /\ reb_simulationarchive_estimate_size r0 tmax = Some (r0, size)
    /\ Z.of_nat (length data) = simulationarchive_seek_first st.1 + size.
Proof.
  intros Ht Hs HN Hmax Hsteps Hint st K HK Hrange.
  pose proof (archive_invariant_first time0 r0 fs0 Ht Hs HN Hmax) as Hinv0.
  pose proof (archive_invariant_run r0 steps Hs HN Hmax Hsteps _ _ Hinv0) as Hrun.
  change (0 + written _ steps)%nat with K in Hrun. fold (run time0 r0 fs0 steps) in Hrun.
  fold st in Hrun.
  destruct Hrun as (_ & _ & _ & Hsize & header & records & Hfile & Hhead & Hrecords & Hlen).
  assert (Hrec : 0 <= recordSize (integrator r0) (sim_N r0)).
  { clear -Hs HN. destruct (integrator r0); cbn in *; [lia..|done]. }
  exists (header ++ concat records), (recordSize (integrator r0) (sim_N r0) * Z.of_nat K).
  split; [done|]. split.
  - apply estimate_size_records; try done. nia.
  - rewrite length_app, Nat2Z.inj_add, (concat_length_const _ _ Hlen), Hhead, Hrecords. lia.
Qed.

End EstimateSize.

Lemma estimate_size_excludes_header_witness :
  let st := run (H := Sample.plain) (Sample.at_second 100) Sample.whfast1 ∅ Sample.one_step in
  exists data,
    st.2 !! "archive.bin" = Some data
    /\ reb_simulationarchive_estimate_size Sample.whfast1 (Double.of_Z 1)
       = Some (Sample.whfast1, 72)
    /\ Z.of_nat (length data) = 4 + 72.
Proof.
  intros st.
  destruct (estimate_size_excludes_header (H := Sample.plain) (Sample.at_second 100)
              Sample.whfast1 ∅ Sample.one_step (Double.of_Z 1))
    as (data & size & Hfile & Hsize & Hlen).
  - reflexivity.
  - reflexivity.
  - simpl. lia.
  - vm_compute. discriminate.
  - repeat constructor.
  - reflexivity.
  - vm_compute. reflexivity.
  - vm_compute. reflexivity.
  - exists data. split; [exact Hfile|].
    assert (Hvalue : reb_simulationarchive_estimate_size Sample.whfast1 (Double.of_Z 1)
                     = Some (Sample.whfast1, 72)) by (vm_compute; reflexivity).
    split; [exact Hvalue|].
    rewrite Hvalue in Hsize. injection Hsize as <-. rewrite Hlen. vm_compute. reflexivity.
Defined.

(** X14.  The estimate is [0] whenever a message is reported.  An interval
    of [0.] or [-0.] gives the warning and nothing else, whatever the
    integrator; any other interval (NaN included) gives the error of the
    record size for an integrator the archive does not know, and no
    message for the others. *)
Theorem estimate_size_messages r tmax r' size :
  reb_simulationarchive_estimate_size r tmax = Some (r', size) ->
  (Double.eqb (simulationarchive_interval r) Double.zero = true ->
   r' = reb_warning r "Simulationarchive interval not set." /\ size = 0)
  /\ (Double.eqb (simulationarchive_interval r) Double.zero = false ->
      supported (integrator r) = false ->
      r' = reb_error r "Simulation archive not implemented for this integrator."
      /\ size = 0)
  /\ (Double.eqb (simulationarchive_interval r) Double.zero = false ->
      supported (integrator r) = true ->
      r' = r
      /\ exists n, to_long (ceil (Double.div tmax (simulationarchive_interval r))) = Some n
                   /\ size = (reb_simulationarchive_blobsize r).2 * n)
  /\ (messages r' <> messages r -> size = 0).
Proof.
  unfold reb_simulationarchive_estimate_size.
  destruct (Double.eqb (simulationarchive_interval r) Double.zero) eqn:Hint; cbn [negb].
  { intros [= <- <-]. by repeat split. }
  destruct (reb_simulationarchive_blobsize r) as [r1 blobsize] eqn:Hblob.
  assert (Hr1 : simulationarchive_interval r1 = simulationarchive_interval r).
  { revert Hblob. unfold reb_simulationarchive_blobsize.
    destruct (integrator r); by intros [= <- _]. }
  rewrite Hr1.
  destruct (to_long _) as [n|]; [|done].
  unfold long_mul. destruct (_ && _); [|done]. intros [= <- <-].
  revert Hblob. unfold reb_simulationarchive_blobsize.
  destruct (integrator r); intros [= <- <-]; cbn [supported snd]; repeat split; try done.
  - by exists n.
  - by exists n.
Qed.

Lemma estimate_size_messages_witness :
  let r := Sample.unsupported in
  let r' := reb_error r "Simulation archive not implemented for this integrator." in
  reb_simulationarchive_estimate_size r (Double.of_Z 10) = Some (r', 0)
  /\ (messages r' <> messages r -> 0 = 0).
Proof.
  intros r r'.
  assert (Hsize : reb_simulationarchive_estimate_size r (Double.of_Z 10) = Some (r', 0))
    by (vm_compute; reflexivity).
  split; [exact Hsize|].
  exact (proj2 (proj2 (proj2 (estimate_size_messages r (Double.of_Z 10) r' 0 Hsize)))).
Defined.

(** The sign of a rounded value is the sign that was asked for. *)
Lemma binary_round_aux_sign m e l :
  let d := binary_round_aux Double.prec Double.emax false m e l in
  d = S754_nan \/ Double.leb Double.zero d = true.
Proof.
  intros d. subst d. unfold binary_round_aux.
  destruct (shr_fexp _ _ m e l) as [mrs' e'].
  destruct (shr_fexp _ _ _ e' _) as [mrs'' e''].
  destruct (shr_m mrs''); [by right| |by left].
  destruct (e'' <=? _); by right.
Qed.

Lemma div_sign x y :
  Double.leb Double.zero x = true ->
  Double.ltb Double.zero y = true ->
  Double.div x y = S754_nan \/ Double.leb Double.zero (Double.div x y) = true.
Proof.
  unfold Double.div, SFdiv.
  destruct x as [sx|[]| |[] mx ex], y as [sy|[]| |[] my ey]; try done;
    try (by left); try (by right).
  intros _ _. destruct (SFdiv_core_binary _ _ _ _ _ _) as [[mz ez] lz].
  apply binary_round_aux_sign.
Qed.

Lemma of_Z_sign z :
  0 <= z -> Double.of_Z z = S754_nan \/ Double.leb Double.zero (Double.of_Z z) = true.
Proof.
  intros Hz. unfold Double.of_Z, Double.make, binary_normalize.
  destruct z as [|p|p]; [by right| |lia].
  unfold binary_round. destruct (shl_align _ _ _) as [mz ez].
  apply binary_round_aux_sign.
Qed.

Lemma to_long_sign d n :
  Double.leb Double.zero d = true -> to_long d = Some n -> 0 <= n.
Proof.
  destruct d as [s|s| |s m e]; cbn [to_long]; try done.
  - by intros _ [= <-].
  - destruct s; [done|]. intros _.
    destruct (_ && _); [|done]. intros [= <-].
    destruct (Z.leb_spec 0 e).
    + apply Z.mul_nonneg_nonneg; [lia|]. apply Z.pow_nonneg. lia.
    + apply Z.div_pos; [lia|]. apply Z.pow_pos_nonneg; lia.
Qed.

Lemma ceil_sign d :
  Double.leb Double.zero d = true ->
  ceil d = S754_nan \/ Double.leb Double.zero (ceil d) = true.
Proof.
  destruct d as [s|s| |s m e]; cbn [ceil]; try (by right).
  destruct s; [done|]. intros _.
  destruct (Z.leb_spec 0 e); [by right|].
  destruct (Z.eqb_spec (- ((- Z.pos m) / 2 ^ (- e))) 0); [by right|].
  apply of_Z_sign.
  assert ((- Z.pos m) / 2 ^ (- e) <= 0); [|lia].
  apply Z.div_le_upper_bound; [apply Z.pow_pos_nonneg; lia|lia].
Qed.

(** X15.  For a supported integrator, a particle count whose record size
    fits an [int], a length of the run that is not negative and an
    interval above zero, the estimate is not negative and no message is
    reported. *)
Theorem estimate_size_not_negative r tmax r' size :
  supported (integrator r) = true ->
  0 <= sim_N r ->
  recordSize (integrator r) (sim_N r) <= C.INT_MAX ->
  Double.leb Double.zero tmax = true ->
  Double.ltb Double.zero (simulationarchive_interval r) = true ->
  reb_simulationarchive_estimate_size r tmax = Some (r', size) ->
  r' = r /\ 0 <= size.
Proof.
  intros Hs HN Hmax Htmax Hint. unfold reb_simulationarchive_estimate_size.
  assert (Hnz : Double.eqb (simulationarchive_interval r) Double.zero = false).
  { revert Hint. unfold Double.ltb, Double.eqb, SFltb, SFeqb, Double.zero.
    by destruct (simulationarchive_interval r) as [|[]| |[]]. }
  rewrite Hnz. cbn [negb]. rewrite (blobsize_recordSize _ Hs HN Hmax).
  destruct (to_long _) as [n|] eqn:Hn; [|done].
  unfold long_mul. destruct (_ && _); [|done]. intros [= <- <-]. split; [done|].
  assert (0 <= recordSize (integrator r) (sim_N r)).
  { clear -Hs HN. destruct (integrator r); cbn in *; [lia..|done]. }
  assert (0 <= n); [|nia].
  destruct (div_sign tmax (simulationarchive_interval r) Htmax Hint) as [Hnan|Hdiv].
  { by rewrite Hnan in Hn. }
  destruct (ceil_sign _ Hdiv) as [Hnan|Hceil].
  { by rewrite Hnan in Hn. }
  by apply (to_long_sign _ _ Hceil).
Qed.

Lemma estimate_size_not_negative_witness :
  reb_simulationarchive_estimate_size Sample.whfast3 (Double.make 7 (-1))
  = Some (Sample.whfast3, 4 * 184)
  /\ 0 <= 4 * 184.
Proof.
  assert (Hsize : reb_simulationarchive_estimate_size Sample.whfast3 (Double.make 7 (-1))
                  = Some (Sample.whfast3, 4 * 184)) by (vm_compute; reflexivity).
  split; [exact Hsize|].
  apply (proj2 (estimate_size_not_negative Sample.whfast3 (Double.make 7 (-1))
                  Sample.whfast3 (4 * 184)
                  ltac:(reflexivity) ltac:(vm_compute; discriminate)
                  ltac:(vm_compute; discriminate) ltac:(reflexivity) ltac:(reflexivity)
                  Hsize)).
Defined.
